(** * RCA audit-trail ETL: extraction, journey reconstruction, loading

    A shallow embedding of the Python ETL pipeline
    ([src/etl/extractors/audit_trail.py], [src/etl/transformers/user_journey.py],
    [src/etl/loaders/rca_loaders.py], [src/etl/state.py]) together with the
    properties its specification states about it.

    Conventions of the embedding:
    - a [datetime] is an integer number of time units ([Z]); all timestamps
      are timezone-aware in the schema, so they are totally ordered;
    - a [uuid.UUID] is represented by its canonical text, so [str(u)] is the
      identity and is injective;
    - a nullable column or an optional dict key is an [option];
    - [list.sort(key=...)] is Python's stable sort; any stable sort computes
      the same list, and it is embedded as a stable insertion sort;
    - a SQL table is the list of its rows (in the order a query without
      ORDER BY returns them) or, when it has a unique natural key, a finite
      map from that key. *)

From Stdlib Require Import ZArith Lia.
From stdpp Require Import gmap strings list fin_maps sorting pretty.

Local Open Scope Z_scope.

Abbreviation datetime := Z.
Abbreviation uuid := string.

(** [str(u)] for a UUID. *)
Definition str_uuid (u : uuid) : string := u.

(** ** Python's stable sort by an integer key *)

Section StableSort.
Context {A : Type} (key : A → Z).

(** Insert [x] in front of the first element whose key is not smaller:
    [x] comes from an earlier input position than everything in [l]. *)
Fixpoint insert_by (x : A) (l : list A) : list A :=
  match l with
  | [] => [x]
  | y :: l' => if key x <=? key y then x :: y :: l' else y :: insert_by x l'
  end.

Definition sort_by (l : list A) : list A := foldr insert_by [] l.

Definition key_le (a b : A) : Prop := key a ≤ key b.
End StableSort.

(** ** The source (OLTP) database *)

Module FcScenario.
Record t := mk {
  id : uuid;
  scenario_display_name : string;
  is_starter : bool;
  status : string;
  scenario_start_year : Z;
  scenario_end_year : Z;
  created_at : option datetime;
  created_by : string;
  created_req_id : option uuid;
  updated_at : option datetime;
  updated_by : string;
  updated_req_id : option uuid;
  submitted_at : option datetime;
  submitted_by : option string;
  submitted_req_id : option uuid;
  locked_at : option datetime;
  locked_by : option string;
  locked_req_id : option uuid;
  delete_at : option datetime;
  delete_by : option string;
  delete_req_id : option uuid;
  withdraw_at : option datetime;
  withdraw_by : option string;
  withdraw_req_id : option uuid
}.
End FcScenario.

Module FcScenarioNodeData.
Record t := mk {
  id : uuid;
  model_node_id : uuid;
  scenario_id : uuid;
  input_hash : string;
  input_validated : bool;
  created_by : string;
  created_at : datetime;
  created_req_id : uuid
}.
End FcScenarioNodeData.

Module FcScenarioRun.
Record t := mk {
  id : uuid;
  scenario_id : uuid;
  run_status : string;
  run_at : datetime;
  run_by : string;
  run_req_id : uuid;
  run_complete_at : option datetime;
  fail_reason : option string
}.
End FcScenarioRun.

(** The source session: the three tables the extractors read. *)
Record Session := {
  fc_scenario : list FcScenario.t;
  fc_scenario_node_data : list FcScenarioNodeData.t;
  fc_scenario_run : list FcScenarioRun.t
}.

(** SQL [col >= since]: not true when the column is NULL. *)
Definition ge_since (col : option datetime) (since : datetime) : bool :=
  match col with
  | Some t => since <=? t
  | None => false
  end.

(** Python truthiness of an optional list argument ([if scenario_ids:]). *)
Definition truthy_list {A} (l : option (list A)) : bool :=
  match l with
  | Some (_ :: _) => true
  | _ => false
  end.

(** [col IN (ids)] *)
Definition in_ids (x : uuid) (ids : option (list uuid)) : bool :=
  bool_decide (x ∈ default [] ids).

(** [if scenario_ids: query = query.where(col.in_(scenario_ids))] *)
Definition where_ids (x : uuid) (ids : option (list uuid)) : bool :=
  if truthy_list ids then in_ids x ids else true.

(** ** State-transition reconstruction (extract_scenario_state_changes) *)

Module StateChange.
Record t := mk {
  scenario_id : uuid;
  previous_status : option string;
  new_status : string;
  transition_type : string;
  changed_by : option string;
  changed_at : datetime;
  correlation_id : option uuid;
  change_reason : option string
}.
End StateChange.

(** The [where(or_(...))] clause of the state-change query. *)
Definition state_change_since (since : option datetime) (s : FcScenario.t) : bool :=
  match since with
  | Some d =>
      ge_since (FcScenario.created_at s) d
      || ge_since (FcScenario.submitted_at s) d
      || ge_since (FcScenario.locked_at s) d
      || ge_since (FcScenario.withdraw_at s) d
      || ge_since (FcScenario.delete_at s) d
      || ge_since (FcScenario.updated_at s) d
  | None => true
  end.

Definition state_change_query (session : Session) (since : option datetime)
    (scenario_ids : option (list uuid)) : list FcScenario.t :=
  List.filter
    (fun s => state_change_since since s && where_ids (FcScenario.id s) scenario_ids)
    (fc_scenario session).

(** One [if scenario.X_at: transitions.append({...})] block. *)
Definition transition_at (at_ : option datetime) (mk : datetime → StateChange.t)
  : list StateChange.t :=
  match at_ with
  | Some t => [mk t]
  | None => []
  end.

(** The body of the [for scenario in scenarios] loop, before sorting. *)
Definition scenario_transitions (s : FcScenario.t) : list StateChange.t :=
  transition_at (FcScenario.created_at s) (fun t =>
    StateChange.mk (FcScenario.id s) None "draft" "created"
      (Some (FcScenario.created_by s)) t (FcScenario.created_req_id s) None)
  ++ transition_at (FcScenario.submitted_at s) (fun t =>
    StateChange.mk (FcScenario.id s) (Some "draft") "submitted" "submitted"
      (FcScenario.submitted_by s) t (FcScenario.submitted_req_id s) None)
  ++ transition_at (FcScenario.locked_at s) (fun t =>
    StateChange.mk (FcScenario.id s) (Some "submitted") "locked" "locked"
      (FcScenario.locked_by s) t (FcScenario.locked_req_id s) None)
  ++ transition_at (FcScenario.withdraw_at s) (fun t =>
    StateChange.mk (FcScenario.id s)
      (Some (if bool_decide (FcScenario.status s ≠ "withdrawn")
             then FcScenario.status s else "submitted"))
      "withdrawn" "withdrawn"
      (FcScenario.withdraw_by s) t (FcScenario.withdraw_req_id s) None)
  ++ transition_at (FcScenario.delete_at s) (fun t =>
    StateChange.mk (FcScenario.id s)
      (Some (if bool_decide (FcScenario.status s ≠ "deleted")
             then FcScenario.status s else "draft"))
      "deleted" "deleted"
      (FcScenario.delete_by s) t (FcScenario.delete_req_id s) None).

(** [transitions.sort(key=lambda x: x["changed_at"])], then yield each. *)
Definition scenario_state_changes (s : FcScenario.t) : list StateChange.t :=
  sort_by StateChange.changed_at (scenario_transitions s).

Definition extract_scenario_state_changes (session : Session)
    (since : option datetime) (scenario_ids : option (list uuid))
  : list StateChange.t :=
  concat (map scenario_state_changes (state_change_query session since scenario_ids)).

(** ** The action extractor (extract_user_actions) *)

(** Values stored in the [action_details] / [event_metadata] dicts. *)
Inductive pyval :=
  | PNone
  | PBool (b : bool)
  | PInt (z : Z)
  | PStr (s : string).

Definition pyval_of_str (o : option string) : pyval :=
  match o with
  | Some s => PStr s
  | None => PNone
  end.

Definition pyval_of_int (o : option Z) : pyval :=
  match o with
  | Some z => PInt z
  | None => PNone
  end.

(** A dict literal [{k1: v1, ...}] with string keys; a later binding of a
    key replaces an earlier one, and key order is not observable. *)
Definition dict (l : list (string * pyval)) : gmap string pyval :=
  list_to_map (reverse l).

Module UserAction.
Record t := mk {
  user_id : option string;
  scenario_id : option uuid;
  action_timestamp : datetime;
  action_type : string;
  action_category : string;
  target_entity_type : option string;
  target_entity_id : option uuid;
  correlation_id : option uuid;
  success : option bool;
  action_details : option (gmap string pyval)
}.
End UserAction.

(** [not since or t >= since] *)
Definition since_ok (since : option datetime) (t : datetime) : bool :=
  match since with
  | Some d => d <=? t
  | None => true
  end.

Definition scenario_action_since (since : option datetime) (s : FcScenario.t) : bool :=
  match since with
  | Some d =>
      ge_since (FcScenario.created_at s) d
      || ge_since (FcScenario.updated_at s) d
      || ge_since (FcScenario.submitted_at s) d
      || ge_since (FcScenario.locked_at s) d
  | None => true
  end.

Definition scenario_action_query (session : Session) (since : option datetime)
    (scenario_ids : option (list uuid)) : list FcScenario.t :=
  List.filter
    (fun s => scenario_action_since since s && where_ids (FcScenario.id s) scenario_ids)
    (fc_scenario session).

Definition create_action (s : FcScenario.t) (t : datetime) : UserAction.t :=
  UserAction.mk (Some (FcScenario.created_by s)) (Some (FcScenario.id s)) t
    "create_scenario" "scenario_mgmt" (Some "scenario") (Some (FcScenario.id s))
    (FcScenario.created_req_id s) (Some true)
    (Some (dict [("scenario_name", PStr (FcScenario.scenario_display_name s));
           ("is_starter", PBool (FcScenario.is_starter s));
           ("start_year", PInt (FcScenario.scenario_start_year s));
           ("end_year", PInt (FcScenario.scenario_end_year s))])).

Definition update_action (s : FcScenario.t) (t : datetime) : UserAction.t :=
  UserAction.mk (Some (FcScenario.updated_by s)) (Some (FcScenario.id s)) t
    "update_scenario" "scenario_mgmt" (Some "scenario") (Some (FcScenario.id s))
    (FcScenario.updated_req_id s) (Some true)
    (Some (dict [("status", PStr (FcScenario.status s))])).

Definition submit_action (s : FcScenario.t) (t : datetime) : UserAction.t :=
  UserAction.mk (FcScenario.submitted_by s) (Some (FcScenario.id s)) t
    "submit_scenario" "scenario_mgmt" (Some "scenario") (Some (FcScenario.id s))
    (FcScenario.submitted_req_id s) (Some true) (Some (dict [])).

(** The body of the first loop of [extract_user_actions]: the actions
    yielded for one scenario row. *)
Definition scenario_actions (since : option datetime) (s : FcScenario.t)
  : list UserAction.t :=
  (match FcScenario.created_at s with
   | Some t => if since_ok since t then [create_action s t] else []
   | None => []
   end)
  ++ (match FcScenario.updated_at s with
      | Some t =>
          if bool_decide (FcScenario.updated_at s ≠ FcScenario.created_at s)
          then (if since_ok since t then [update_action s t] else [])
          else []
      | None => []
      end)
  ++ (match FcScenario.submitted_at s with
      | Some t => if since_ok since t then [submit_action s t] else []
      | None => []
      end).

Definition input_action_query (session : Session) (since : option datetime)
    (scenario_ids : option (list uuid)) : list FcScenarioNodeData.t :=
  List.filter
    (fun r => since_ok since (FcScenarioNodeData.created_at r)
              && where_ids (FcScenarioNodeData.scenario_id r) scenario_ids)
    (fc_scenario_node_data session).

Definition input_action (r : FcScenarioNodeData.t) : UserAction.t :=
  UserAction.mk (Some (FcScenarioNodeData.created_by r))
    (Some (FcScenarioNodeData.scenario_id r)) (FcScenarioNodeData.created_at r)
    "edit_input_data" "input_data" (Some "node_data") (Some (FcScenarioNodeData.id r))
    (Some (FcScenarioNodeData.created_req_id r)) (Some true)
    (Some (dict [("node_id", PStr (str_uuid (FcScenarioNodeData.model_node_id r)));
           ("input_hash", PStr (FcScenarioNodeData.input_hash r));
           ("validated", PBool (FcScenarioNodeData.input_validated r))])).

Definition run_action_query (session : Session) (since : option datetime)
    (scenario_ids : option (list uuid)) : list FcScenarioRun.t :=
  List.filter
    (fun r => since_ok since (FcScenarioRun.run_at r)
              && where_ids (FcScenarioRun.scenario_id r) scenario_ids)
    (fc_scenario_run session).

Definition run_action (r : FcScenarioRun.t) : UserAction.t :=
  UserAction.mk (Some (FcScenarioRun.run_by r))
    (Some (FcScenarioRun.scenario_id r)) (FcScenarioRun.run_at r)
    "run_forecast" "forecast_run" (Some "run") (Some (FcScenarioRun.id r))
    (Some (FcScenarioRun.run_req_id r))
    (Some (bool_decide (FcScenarioRun.run_status r = "success")))
    (Some (dict [("run_status", PStr (FcScenarioRun.run_status r));
           ("fail_reason",
             if bool_decide (FcScenarioRun.run_status r = "failed")
             then pyval_of_str (FcScenarioRun.fail_reason r) else PNone);
           ("duration_seconds",
             pyval_of_int ((fun c => c - FcScenarioRun.run_at r)
                             <$> FcScenarioRun.run_complete_at r))])).

(** [user_ids] is accepted and never used by the source. *)
Definition extract_user_actions (session : Session) (since : option datetime)
    (user_ids : option (list string)) (scenario_ids : option (list uuid))
  : list UserAction.t :=
  concat (map (scenario_actions since) (scenario_action_query session since scenario_ids))
  ++ map input_action (input_action_query session since scenario_ids)
  ++ map run_action (run_action_query session since scenario_ids).

(** ** The input-change sequencer (extract_input_change_sequence) *)

Module InputChange.
Record t := mk {
  scenario_id : uuid;
  node_data_id : uuid;
  model_node_id : uuid;
  changed_at : datetime;
  changed_by : string;
  input_hash : string;
  is_duplicate : bool;
  change_sequence : nat;
  correlation_id : uuid
}.
End InputChange.

(** [select(...).where(scenario_id == sid).order_by(created_at)]; rows with
    equal [created_at] are returned in table order. *)
Definition input_change_query (session : Session) (sid : uuid)
  : list FcScenarioNodeData.t :=
  sort_by FcScenarioNodeData.created_at
    (List.filter (fun r => bool_decide (FcScenarioNodeData.scenario_id r = sid))
       (fc_scenario_node_data session)).

(** One iteration of the loop over [node_data_records]; the state is the
    pair ([changes], [node_sequences]). *)
Definition sequence_step (sid : uuid)
    (st : list InputChange.t * gmap string nat) (record : FcScenarioNodeData.t)
  : list InputChange.t * gmap string nat :=
  let node_id := str_uuid (FcScenarioNodeData.model_node_id record) in
  let node_sequences := <[node_id := (default 0 (st.2 !! node_id) + 1)%nat]> st.2 in
  (st.1 ++ [InputChange.mk sid
              (FcScenarioNodeData.id record)
              (FcScenarioNodeData.model_node_id record)
              (FcScenarioNodeData.created_at record)
              (FcScenarioNodeData.created_by record)
              (FcScenarioNodeData.input_hash record)
              false
              (node_sequences !!! node_id)
              (FcScenarioNodeData.created_req_id record)],
   node_sequences).

Definition sequence_records (sid : uuid) (records : list FcScenarioNodeData.t)
  : list InputChange.t :=
  (foldl (sequence_step sid) ([], ∅) records).1.

Definition extract_input_change_sequence (session : Session) (sid : uuid)
  : list InputChange.t :=
  sequence_records sid (input_change_query session sid).

(** ** The timeline merger (reconstruct_user_journey) *)

(** A run as the transformers receive it (a dict; optional keys are
    read with [.get]). *)
Module Run.
Record t := mk {
  run_id : uuid;
  scenario_id : uuid;
  run_by : string;
  run_status : string;
  run_started_at : datetime;
  run_ended_at : option datetime;
  correlation_id : option uuid;
  duration_seconds : option Z;
  fail_reason : option string
}.
End Run.

Module Event.
Record t := mk {
  event_timestamp : datetime;
  event_type : string;
  event_category : string;
  user_id : option string;
  scenario_id : option uuid;
  correlation_id : option uuid;
  event_description : string;
  event_metadata : gmap string pyval
}.
End Event.

(** How an f-string renders an optional string. *)
Definition fmt_opt (o : option string) : string := default "None" o.

Definition state_change_event (change : StateChange.t) : Event.t :=
  Event.mk (StateChange.changed_at change) "state_change" "scenario_mgmt"
    (StateChange.changed_by change) (Some (StateChange.scenario_id change))
    (StateChange.correlation_id change)
    ("Scenario status changed from " +:+ fmt_opt (StateChange.previous_status change)
       +:+ " to " +:+ StateChange.new_status change)
    (dict [("transition_type", PStr (StateChange.transition_type change));
           ("previous_status", pyval_of_str (StateChange.previous_status change));
           ("new_status", PStr (StateChange.new_status change))]).

Definition user_action_event (action : UserAction.t) : Event.t :=
  Event.mk (UserAction.action_timestamp action) "user_action"
    (UserAction.action_category action)
    (UserAction.user_id action) (UserAction.scenario_id action)
    (UserAction.correlation_id action)
    ("User performed: " +:+ UserAction.action_type action)
    (default ∅ (UserAction.action_details action)
     ∪ dict [("action_type", PStr (UserAction.action_type action));
             ("target_entity_type", pyval_of_str (UserAction.target_entity_type action));
             ("target_entity_id",
               pyval_of_str (str_uuid <$> UserAction.target_entity_id action));
             ("success", PBool (default true (UserAction.success action)))]).

Definition input_change_event (change : InputChange.t) : Event.t :=
  Event.mk (InputChange.changed_at change) "input_change" "input_data"
    (Some (InputChange.changed_by change)) (Some (InputChange.scenario_id change))
    (Some (InputChange.correlation_id change))
    ("Modified input for node (sequence "
       +:+ pretty (InputChange.change_sequence change) +:+ ")")
    (dict [("node_id", PStr (str_uuid (InputChange.model_node_id change)));
           ("input_hash", PStr (InputChange.input_hash change));
           ("change_sequence", PInt (Z.of_nat (InputChange.change_sequence change)));
           ("is_duplicate", PBool (InputChange.is_duplicate change))]).

Definition run_correlation (run : Run.t) : option uuid :=
  Some (default (Run.run_id run) (Run.correlation_id run)).

Definition run_started_event (run : Run.t) : Event.t :=
  Event.mk (Run.run_started_at run) "run_started" "forecast_run"
    (Some (Run.run_by run)) (Some (Run.scenario_id run)) (run_correlation run)
    "Forecast run started"
    (dict [("run_id", PStr (str_uuid (Run.run_id run)));
           ("run_status", PStr (Run.run_status run))]).

Definition run_completed_event (run : Run.t) (ended : datetime) : Event.t :=
  Event.mk ended "run_completed" "forecast_run"
    (Some (Run.run_by run)) (Some (Run.scenario_id run)) (run_correlation run)
    ("Forecast run completed: " +:+ Run.run_status run)
    (dict [("run_id", PStr (str_uuid (Run.run_id run)));
           ("run_status", PStr (Run.run_status run));
           ("duration_seconds", pyval_of_int (Run.duration_seconds run));
           ("fail_reason", pyval_of_str (Run.fail_reason run))]).

(** The events one run appends: the start, and the completion when
    [run_ended_at] is set. *)
Definition run_events (run : Run.t) : list Event.t :=
  run_started_event run
  :: match Run.run_ended_at run with
     | Some ended => [run_completed_event run ended]
     | None => []
     end.

(** The timeline before [timeline.sort]. *)
Definition journey_timeline (state_changes : list StateChange.t)
    (user_actions : list UserAction.t) (input_changes : list InputChange.t)
    (runs : list Run.t) : list Event.t :=
  map state_change_event state_changes
  ++ map user_action_event user_actions
  ++ map input_change_event input_changes
  ++ concat (map run_events runs).

Definition reconstruct_user_journey (state_changes : list StateChange.t)
    (user_actions : list UserAction.t) (input_changes : list InputChange.t)
    (runs : list Run.t) : list Event.t :=
  sort_by Event.event_timestamp
    (journey_timeline state_changes user_actions input_changes runs).

(** ** The run-context differ (identify_run_context_changes) *)

Module RunInfo.
Record t := mk {
  run_id : string;
  status : string;
  started_at : datetime;
  fail_reason : option string
}.
End RunInfo.

Module ChangeDetail.
Record t := mk {
  node_id : string;
  changed_at : datetime;
  changed_by : string;
  input_hash : string
}.
End ChangeDetail.

Module ContextDiff.
Record t := mk {
  target_run : RunInfo.t;
  previous_successful_run : RunInfo.t;
  input_changes_between : nat;
  changed_node_ids : list string;
  time_gap_seconds : Z;
  changes_detail : list ChangeDetail.t
}.
End ContextDiff.

(** The three shapes of dict the function returns: [{"error": ...}]; the
    "no baseline" dict, whose [previous_successful_run] is [None] and whose
    [input_changes_between] is the empty list; and the full diff. *)
Inductive context_result :=
  | ContextError (error : string)
  | NoBaseline (target_run : Run.t) (message : string)
  | RunContext (diff : ContextDiff.t).

Definition scenario_runs_of (scenario_id : uuid) (all_runs : list Run.t) : list Run.t :=
  sort_by Run.run_started_at
    (List.filter (fun r => bool_decide (Run.scenario_id r = scenario_id)) all_runs).

Definition find_target (target_run_id : uuid) (scenario_runs : list Run.t)
  : option Run.t :=
  List.find (fun r => bool_decide (Run.run_id r = target_run_id)) scenario_runs.

(** The backward scan [for run in reversed(scenario_runs)] with its [break]. *)
Definition find_previous_successful (target_run : Run.t) (scenario_runs : list Run.t)
  : option Run.t :=
  List.find
    (fun run => (Run.run_started_at run <? Run.run_started_at target_run)
                && bool_decide (Run.run_status run = "success"))
    (reverse scenario_runs).

Definition changes_between (previous_successful target_run : Run.t)
    (input_changes : list InputChange.t) : list InputChange.t :=
  List.filter
    (fun change =>
       (Run.run_started_at previous_successful <? InputChange.changed_at change)
       && (InputChange.changed_at change <=? Run.run_started_at target_run))
    input_changes.

(** [list({str(c["model_node_id"]) for c in changes})]: the distinct ids,
    in the order the set enumerates them. *)
Definition node_id_set (changes : list InputChange.t) : gset string :=
  list_to_set (map (fun c => str_uuid (InputChange.model_node_id c)) changes).

Definition identify_run_context_changes (scenario_id target_run_id : uuid)
    (all_runs : list Run.t) (input_changes : list InputChange.t) : context_result :=
  let scenario_runs := scenario_runs_of scenario_id all_runs in
  match find_target target_run_id scenario_runs with
  | None => ContextError "Target run not found"
  | Some target_run =>
      match find_previous_successful target_run scenario_runs with
      | None => NoBaseline target_run "No previous successful run found"
      | Some previous_successful =>
          let between := changes_between previous_successful target_run input_changes in
          RunContext (ContextDiff.mk
            (RunInfo.mk (str_uuid (Run.run_id target_run)) (Run.run_status target_run)
               (Run.run_started_at target_run) (Run.fail_reason target_run))
            (RunInfo.mk (str_uuid (Run.run_id previous_successful))
               (Run.run_status previous_successful)
               (Run.run_started_at previous_successful) None)
            (length between)
            (elements (node_id_set between))
            (Run.run_started_at target_run - Run.run_started_at previous_successful)
            (map (fun c => ChangeDetail.mk (str_uuid (InputChange.model_node_id c))
                             (InputChange.changed_at c) (InputChange.changed_by c)
                             (InputChange.input_hash c))
               between))
      end
  end.

(** ** The reporting database and its session *)

Module DimUser.
Record t := mk {
  user_key : Z;
  user_id : string;
  display_name : option string;
  loaded_at : datetime
}.
End DimUser.

Module FactScenarioStateChange.
Record t := mk {
  scenario_key : Z;
  scenario_id : uuid;
  previous_status : option string;
  new_status : string;
  transition_type : string;
  changed_by_user_key : Z;
  changed_at : datetime;
  correlation_id : uuid;
  change_reason : option string;
  metadata : option (gmap string pyval);
  loaded_at : datetime
}.
End FactScenarioStateChange.

Module FactUserAction.
Record t := mk {
  user_key : Z;
  scenario_key : option Z;
  action_timestamp : datetime;
  action_type : string;
  action_category : string;
  target_entity_type : option string;
  target_entity_id : option uuid;
  correlation_id : uuid;
  request_endpoint : option string;
  http_method : option string;
  request_duration_ms : option Z;
  success : bool;
  error_message : option string;
  action_details : option (gmap string pyval);
  loaded_at : datetime
}.
End FactUserAction.

Module EtlWatermark.
Record t := mk {
  last_loaded_at : option datetime;
  last_run_started : option datetime;
  last_run_completed : option datetime;
  row_count_loaded : Z;
  status : string
}.
End EtlWatermark.

(** The tables of the reporting schema the loaders touch.  [dim_user] and
    [dim_scenario] are keyed by their UNIQUE natural key ([dim_scenario]
    keeps the [scenario_key] column only, the one the loaders select);
    [etl_watermark] is keyed by its primary key [table_name];
    [user_key_seq] is the next value of the autoincrement of [dim_user]. *)
Record ReportingDb := {
  dim_user : gmap string DimUser.t;
  user_key_seq : Z;
  dim_scenario : gmap string Z;
  fact_scenario_state_change : list FactScenarioStateChange.t;
  fact_user_action : list FactUserAction.t;
  etl_watermark : gmap string EtlWatermark.t
}.

(** A session: what is durably committed, and the state its open
    transaction sees. *)
Record ReportingSession := {
  committed : ReportingDb;
  txn : ReportingDb
}.

Definition commit (s : ReportingSession) : ReportingSession :=
  {| committed := txn s; txn := txn s |}.

Definition with_txn (s : ReportingSession) (db : ReportingDb) : ReportingSession :=
  {| committed := committed s; txn := db |}.

(** Exceptions the database raises through the session. *)
Inductive exn :=
  | IntegrityError (constraint : string).

Inductive outcome (A : Type) :=
  | Ok (a : A)
  | Raise (e : exn).
Arguments Ok {A} a.
Arguments Raise {A} e.

#[global] Instance outcome_bind : MBind outcome := fun A B k m =>
  match m with
  | Ok a => k a
  | Raise e => Raise e
  end.

(** Python truthiness of a selected key ([if not result] / [if result]):
    [None] and [0] are falsy. *)
Definition truthy_key (result : option Z) : bool :=
  match result with
  | Some k => negb (k =? 0)
  | None => false
  end.

(** [select(DimScenario.scenario_key).where(scenario_id == sid).scalar_one_or_none()] *)
Definition select_scenario_key (db : ReportingDb) (sid : uuid) : option Z :=
  dim_scenario db !! sid.

(** [select(DimUser.user_key).where(user_id == uid).scalar_one_or_none()];
    [user_id == None] compiles to IS NULL and matches no row. *)
Definition select_user_key (db : ReportingDb) (uid : option string) : option Z :=
  u ← uid; DimUser.user_key <$> dim_user db !! u.

(** [session.add(DimUser(user_id=uid, display_name=uid, loaded_at=now))],
    [session.flush()], then read the generated [user_key]. *)
Definition insert_user (db : ReportingDb) (uid : option string) (now : datetime)
  : outcome (ReportingDb * Z) :=
  match uid with
  | None => Raise (IntegrityError "dim_user.user_id NOT NULL")
  | Some u =>
      match dim_user db !! u with
      | Some _ => Raise (IntegrityError "dim_user.user_id UNIQUE")
      | None =>
          let k := user_key_seq db in
          Ok ({| dim_user := <[u := DimUser.mk k u (Some u) now]> (dim_user db);
                 user_key_seq := k + 1;
                 dim_scenario := dim_scenario db;
                 fact_scenario_state_change := fact_scenario_state_change db;
                 fact_user_action := fact_user_action db;
                 etl_watermark := etl_watermark db |}, k)
      end
  end.

(** ** The dimension key resolver (inlined in both loaders) *)

(** "Get or cache user_key".  The cache is a dict keyed by user id; a
    [None] id can never be cached because its creation raises. *)
Definition resolve_user_key (now : datetime) (user_id : option string)
    (db : ReportingDb) (user_key_cache : gmap string Z)
  : outcome (ReportingDb * gmap string Z * Z) :=
  match user_id ≫= (user_key_cache !!.) with
  | Some user_key => Ok (db, user_key_cache, user_key)
  | None =>
      let result := select_user_key db user_id in
      '(db', result) ←
        (if truthy_key result then Ok (db, default 0 result)
         else insert_user db user_id now);
      Ok (db', from_option (fun u => <[u := result]> user_key_cache) user_key_cache user_id,
          result)
  end.

(** "Get or cache scenario_key" of [load_state_changes]: [None] is the
    [continue] that skips the record. *)
Definition resolve_scenario_key (scenario_id : uuid) (db : ReportingDb)
    (scenario_key_cache : gmap string Z) : option (gmap string Z * Z) :=
  match scenario_key_cache !! scenario_id with
  | Some scenario_key => Some (scenario_key_cache, scenario_key)
  | None =>
      let result := select_scenario_key db scenario_id in
      if truthy_key result
      then Some (<[scenario_id := default 0 result]> scenario_key_cache, default 0 result)
      else None
  end.

(** ** The loaders (load_state_changes, load_user_actions) *)

(** [for x in xs: body], where the body may raise. *)
Fixpoint for_each {S A} (body : S → A → outcome S) (st : S) (xs : list A)
  : outcome S :=
  match xs with
  | [] => Ok st
  | x :: xs' => st' ← body st x; for_each body st' xs'
  end.

(** [session.add(FactScenarioStateChange(...))]; the row reaches the table
    at the next flush, where a NULL [correlation_id] is rejected. *)
Definition insert_state_change (db : ReportingDb) (change : StateChange.t)
    (scenario_key user_key : Z) (now : datetime) : outcome ReportingDb :=
  match StateChange.correlation_id change with
  | None => Raise (IntegrityError "fact_scenario_state_change.correlation_id NOT NULL")
  | Some correlation_id =>
      Ok {| dim_user := dim_user db;
            user_key_seq := user_key_seq db;
            dim_scenario := dim_scenario db;
            fact_scenario_state_change :=
              fact_scenario_state_change db ++
              [FactScenarioStateChange.mk scenario_key
                 (StateChange.scenario_id change)
                 (StateChange.previous_status change)
                 (StateChange.new_status change)
                 (StateChange.transition_type change)
                 user_key
                 (StateChange.changed_at change)
                 correlation_id
                 (StateChange.change_reason change)
                 None
                 now];
            fact_user_action := fact_user_action db;
            etl_watermark := etl_watermark db |}
  end.

(** The loader's loop state: the session, the two caches and the count. *)
Definition loader_state : Type :=
  ReportingSession * gmap string Z * gmap string Z * Z.

(** [if loaded_count % batch == 0: session.commit()] *)
Definition commit_every (batch loaded_count : Z) (s : ReportingSession)
  : ReportingSession :=
  if loaded_count `mod` batch =? 0 then commit s else s.

Definition load_state_change_step (now : datetime) (st : loader_state)
    (change : StateChange.t) : outcome loader_state :=
  let '(session, scenario_key_cache, user_key_cache, loaded_count) := st in
  match resolve_scenario_key (StateChange.scenario_id change) (txn session)
          scenario_key_cache with
  | None => Ok st
  | Some (scenario_key_cache, scenario_key) =>
      '(db, user_key_cache, user_key) ←
        resolve_user_key now (StateChange.changed_by change) (txn session) user_key_cache;
      db ← insert_state_change db change scenario_key user_key now;
      let loaded_count := loaded_count + 1 in
      Ok (commit_every 500 loaded_count (with_txn session db),
          scenario_key_cache, user_key_cache, loaded_count)
  end.

(** Returns the session after the final commit and [loaded_count], the
    only value handed back to the caller. *)
Definition load_state_changes (now : datetime) (reporting_session : ReportingSession)
    (state_changes : list StateChange.t) : outcome (ReportingSession * Z) :=
  '(session, _, _, loaded_count) ←
    for_each (load_state_change_step now) (reporting_session, ∅, ∅, 0) state_changes;
  Ok (commit session, loaded_count).

(** The optional scenario key of [load_user_actions]: a miss caches
    nothing and leaves the key NULL. *)
Definition resolve_optional_scenario_key (scenario_id : option uuid)
    (db : ReportingDb) (scenario_key_cache : gmap string Z)
  : gmap string Z * option Z :=
  match scenario_id with
  | None => (scenario_key_cache, None)
  | Some sid =>
      let cache :=
        match scenario_key_cache !! sid with
        | Some _ => scenario_key_cache
        | None =>
            let result := select_scenario_key db sid in
            if truthy_key result then <[sid := default 0 result]> scenario_key_cache
            else scenario_key_cache
        end in
      (cache, cache !! sid)
  end.

Definition insert_user_action (db : ReportingDb) (action : UserAction.t)
    (user_key : Z) (scenario_key : option Z) (now : datetime) : outcome ReportingDb :=
  match UserAction.correlation_id action with
  | None => Raise (IntegrityError "fact_user_action.correlation_id NOT NULL")
  | Some correlation_id =>
      Ok {| dim_user := dim_user db;
            user_key_seq := user_key_seq db;
            dim_scenario := dim_scenario db;
            fact_scenario_state_change := fact_scenario_state_change db;
            fact_user_action :=
              fact_user_action db ++
              [FactUserAction.mk user_key scenario_key
                 (UserAction.action_timestamp action)
                 (UserAction.action_type action)
                 (UserAction.action_category action)
                 (UserAction.target_entity_type action)
                 (UserAction.target_entity_id action)
                 correlation_id
                 None None None
                 (default true (UserAction.success action))
                 None
                 (UserAction.action_details action)
                 now];
            etl_watermark := etl_watermark db |}
  end.

Definition load_user_action_step (now : datetime) (st : loader_state)
    (action : UserAction.t) : outcome loader_state :=
  let '(session, scenario_key_cache, user_key_cache, loaded_count) := st in
  '(db, user_key_cache, user_key) ←
    resolve_user_key now (UserAction.user_id action) (txn session) user_key_cache;
  let '(scenario_key_cache, scenario_key) :=
    resolve_optional_scenario_key (UserAction.scenario_id action) db scenario_key_cache in
  db ← insert_user_action db action user_key scenario_key now;
  let loaded_count := loaded_count + 1 in
  Ok (commit_every 500 loaded_count (with_txn session db),
      scenario_key_cache, user_key_cache, loaded_count).

Definition load_user_actions (now : datetime) (reporting_session : ReportingSession)
    (user_actions : list UserAction.t) : outcome (ReportingSession * Z) :=
  '(session, _, _, loaded_count) ←
    for_each (load_user_action_step now) (reporting_session, ∅, ∅, 0) user_actions;
  Ok (commit session, loaded_count).

(** ** The watermark store (state.py) *)

Definition set_watermark (db : ReportingDb) (table_name : string)
    (row : EtlWatermark.t) : ReportingDb :=
  {| dim_user := dim_user db;
     user_key_seq := user_key_seq db;
     dim_scenario := dim_scenario db;
     fact_scenario_state_change := fact_scenario_state_change db;
     fact_user_action := fact_user_action db;
     etl_watermark := <[table_name := row]> (etl_watermark db) |}.

Definition get_watermark (session : ReportingSession) (table_name : string)
  : option datetime :=
  etl_watermark (txn session) !! table_name ≫= EtlWatermark.last_loaded_at.

(** [INSERT ... ON CONFLICT (table_name) DO UPDATE SET ...]: the row
    written when [table_name] has the row [old], or none.  [now] is
    [datetime.now(timezone.utc)], bound to both [:lrs] and [:lrc]. *)
Definition upsert_watermark_row (old : option EtlWatermark.t) (now : datetime)
    (last_loaded_at : datetime) (row_count : Z) (status : string) : EtlWatermark.t :=
  match old with
  | None =>
      EtlWatermark.mk (Some last_loaded_at) (Some now) (Some now) row_count status
  | Some w =>
      EtlWatermark.mk (Some last_loaded_at)
        (EtlWatermark.last_run_started w)
        (Some now)
        (EtlWatermark.row_count_loaded w + row_count)
        status
  end.

Definition update_watermark (now : datetime) (session : ReportingSession)
    (table_name : string) (last_loaded_at : datetime) (row_count : Z)
    (status : string) : ReportingSession :=
  with_txn session
    (set_watermark (txn session) table_name
       (upsert_watermark_row (etl_watermark (txn session) !! table_name)
          now last_loaded_at row_count status)).

Definition mark_run_started (now : datetime) (session : ReportingSession)
    (table_name : string) : ReportingSession :=
  with_txn session
    (set_watermark (txn session) table_name
       match etl_watermark (txn session) !! table_name with
       | None => EtlWatermark.mk None (Some now) None 0 "in_progress"
       | Some w =>
           EtlWatermark.mk (EtlWatermark.last_loaded_at w) (Some now)
             (EtlWatermark.last_run_completed w)
             (EtlWatermark.row_count_loaded w) "in_progress"
       end).

(** ** Vocabulary of the statements, and sample data *)

(** A scenario created at 10, submitted at 20 and locked at 30. *)
Definition c3_scenario : FcScenario.t :=
  FcScenario.mk "s-1" "Base case" false "locked" 2024 2030
    (Some 10) "ana" (Some "req-1")
    (Some 30) "ana" (Some "req-3")
    (Some 20) (Some "ana") (Some "req-2")
    (Some 30) (Some "bo") (Some "req-3")
    None None None
    None None None.

(** A scenario created at 1 and submitted at 10, and a source database
    holding only that row. *)
Definition c1_scenario : FcScenario.t :=
  FcScenario.mk "s-1" "Base case" false "submitted" 2024 2030
    (Some 1) "ana" (Some "req-1")
    (Some 10) "ana" (Some "req-2")
    (Some 10) (Some "ana") (Some "req-2")
    None None None
    None None None
    None None None.

Definition c1_session : Session :=
  {| fc_scenario := [c1_scenario];
     fc_scenario_node_data := [];
     fc_scenario_run := [] |}.

(** A scenario never updated after its creation at 10. *)
Definition c10_scenario : FcScenario.t :=
  FcScenario.mk "s-1" "Base case" false "draft" 2024 2030
    (Some 10) "ana" (Some "req-1")
    (Some 10) "ana" (Some "req-1")
    None None None
    None None None
    None None None
    None None None.

(** The loop unrolled as a recursion on the rows still to be read. *)
Fixpoint sequence_from (sid : uuid) (node_sequences : gmap string nat)
    (records : list FcScenarioNodeData.t) : list InputChange.t :=
  match records with
  | [] => []
  | record :: records' =>
      let st := sequence_step sid ([], node_sequences) record in
      st.1 ++ sequence_from sid st.2 records'
  end.

(** The rows of one node, in order. *)
Definition of_node (n : uuid) (changes : list InputChange.t) : list InputChange.t :=
  List.filter (fun c => bool_decide (InputChange.model_node_id c = n)) changes.

Definition rows_of_node (n : uuid) (records : list FcScenarioNodeData.t)
  : list FcScenarioNodeData.t :=
  List.filter (fun r => bool_decide (FcScenarioNodeData.model_node_id r = n)) records.

Definition c5_row (id node : uuid) (at_ : datetime) : FcScenarioNodeData.t :=
  FcScenarioNodeData.mk id node "s-1" "hash" true "ana" at_ "req".

Definition eligible_baseline (target_run run : Run.t) : Prop :=
  Run.run_status run = "success"
  ∧ Run.run_started_at run < Run.run_started_at target_run.

Definition c6_run (id : uuid) (status : string) (at_ : datetime) : Run.t :=
  Run.mk id "s-1" "ana" status at_ None None None None.

Definition c6_change : InputChange.t :=
  InputChange.mk "s-1" "e1" "node-x" 25 "ana" "hash" false 1 "req".

Definition empty_db : ReportingDb :=
  {| dim_user := ∅; user_key_seq := 1; dim_scenario := ∅;
     fact_scenario_state_change := []; fact_user_action := [];
     etl_watermark := ∅ |}.

Definition session_of (db : ReportingDb) : ReportingSession :=
  {| committed := db; txn := db |}.

(** A watermark left by an earlier run that started at 1 and completed at 2. *)
Definition c7_session : ReportingSession :=
  session_of
    (set_watermark empty_db "rca_audit_trail"
       (EtlWatermark.mk (Some 2) (Some 1) (Some 2) 40 "success")).

Definition facts_of (s : ReportingSession) : list FactScenarioStateChange.t :=
  fact_scenario_state_change (txn s).

Definition persisted_facts (s : ReportingSession) : list FactScenarioStateChange.t :=
  fact_scenario_state_change (committed s).

(** A record the fact table accepts: it names its actor and carries a
    correlation id (both NOT NULL downstream). *)
Definition loadable (c : StateChange.t) : Prop :=
  is_Some (StateChange.changed_by c) ∧ is_Some (StateChange.correlation_id c).

(** The scenario dimension holds a row, with a key Python treats as true. *)
Definition scenario_known (db : ReportingDb) (c : StateChange.t) : Prop :=
  ∃ k, dim_scenario db !! StateChange.scenario_id c = Some k ∧ k ≠ 0.

(** Every user row can be resolved: its key is truthy, or it is cached. *)
Definition users_resolvable (db : ReportingDb) (user_key_cache : gmap string Z) : Prop :=
  ∀ u row, dim_user db !! u = Some row →
           DimUser.user_key row ≠ 0 ∨ is_Some (user_key_cache !! u).

(** The fact row written for a record. *)
Definition fact_matches (f : FactScenarioStateChange.t) (c : StateChange.t) : Prop :=
  FactScenarioStateChange.scenario_id f = StateChange.scenario_id c
  ∧ FactScenarioStateChange.previous_status f = StateChange.previous_status c
  ∧ FactScenarioStateChange.new_status f = StateChange.new_status c
  ∧ FactScenarioStateChange.transition_type f = StateChange.transition_type c
  ∧ FactScenarioStateChange.changed_at f = StateChange.changed_at c
  ∧ Some (FactScenarioStateChange.correlation_id f) = StateChange.correlation_id c.

Definition c2_change (at_ : datetime) : StateChange.t :=
  StateChange.mk "s-1" (Some "draft") "submitted" "submitted" (Some "ana") at_
    (Some "req-1") None.

(** Ten state changes of scenario s-1. *)
Definition c2_batch : list StateChange.t :=
  map c2_change [1; 2; 3; 4; 5; 6; 7; 8; 9; 10].

(** The reporting database once the scenario dimension row of s-1 exists. *)
Definition c2_db_with_scenario : ReportingDb :=
  {| dim_user := ∅; user_key_seq := 1; dim_scenario := {[ "s-1" := 7 ]};
     fact_scenario_state_change := []; fact_user_action := [];
     etl_watermark := ∅ |}.

(** The five lifecycle timestamps the reconstructor reads, and how many
    of them are set. *)
Definition lifecycle_timestamps (s : FcScenario.t) : list (option datetime) :=
  [FcScenario.created_at s; FcScenario.submitted_at s; FcScenario.locked_at s;
   FcScenario.withdraw_at s; FcScenario.delete_at s].

Definition lifecycle_count (s : FcScenario.t) : nat :=
  length (omap (fun t => t) (lifecycle_timestamps s)).

(** The (transition_type, new_status) pairs a transition can carry. *)
Definition transition_kinds : list (string * string) :=
  [("created", "draft"); ("submitted", "submitted"); ("locked", "locked");
   ("withdrawn", "withdrawn"); ("deleted", "deleted")].

(** The six columns the state-change query compares with the cutoff. *)
Definition cutoff_columns (s : FcScenario.t) : list (option datetime) :=
  lifecycle_timestamps s ++ [FcScenario.updated_at s].

(** A scenario that has no lifecycle timestamp at all. *)
Definition blank_scenario : FcScenario.t :=
  FcScenario.mk "s-0" "Blank" false "draft" 2024 2030
    None "ana" None
    None "ana" None
    None None None
    None None None
    None None None
    None None None.

(** A source database with one scenario, two edits of one node and a run. *)
Definition sample_session : Session :=
  {| fc_scenario := [c1_scenario];
     fc_scenario_node_data :=
       [c5_row "e2" "node-a" 7; c5_row "e1" "node-a" 3];
     fc_scenario_run :=
       [FcScenarioRun.mk "run-0" "s-1" "failed" 8 "ana" "req-9" (Some 9) (Some "boom")] |}.

(** The test [action_timestamp >= d]. *)
Definition at_or_after (d : datetime) (a : UserAction.t) : bool :=
  d <=? UserAction.action_timestamp a.

(** The base metadata of a user-action event, before [**action_details]. *)
Definition user_action_base_metadata (action : UserAction.t) : gmap string pyval :=
  dict [("action_type", PStr (UserAction.action_type action));
        ("target_entity_type", pyval_of_str (UserAction.target_entity_type action));
        ("target_entity_id",
          pyval_of_str (str_uuid <$> UserAction.target_entity_id action));
        ("success", PBool (default true (UserAction.success action)))].

(** An action whose details carry their own "success" entry. *)
Definition overriding_action : UserAction.t :=
  UserAction.mk (Some "ana") (Some "s-1") 5 "run_forecast" "forecast_run"
    (Some "run") (Some "run-0") (Some "req-9") (Some true)
    (Some (dict [("success", PBool false)])).

(** The "created" transition of [c1_scenario]. *)
Definition c1_created : StateChange.t :=
  StateChange.mk "s-1" None "draft" "created" (Some "ana") 1 (Some "req-1") None.

(** The "submitted" transition of [c1_scenario]. *)
Definition c1_submitted : StateChange.t :=
  StateChange.mk "s-1" (Some "draft") "submitted" "submitted" (Some "ana") 10
    (Some "req-2") None.

(** The two changes the sequencer returns for [sample_session]. *)
Definition sample_change_1 : InputChange.t :=
  InputChange.mk "s-1" "e1" "node-a" 3 "ana" "hash" false 1 "req".

Definition sample_change_2 : InputChange.t :=
  InputChange.mk "s-1" "e2" "node-a" 7 "ana" "hash" false 2 "req".

(** The diff of run-2 against run-0 with one change at 25. *)
Definition c6_diff : ContextDiff.t :=
  ContextDiff.mk (RunInfo.mk "run-2" "failed" 30 None)
    (RunInfo.mk "run-0" "success" 10 None)
    1 ["node-x"] 20 [ChangeDetail.mk "node-x" 25 "ana" "hash"].

(** One completed load as the runner records it: the time of the upsert,
    the extraction cutoff, the rows loaded and the status. *)
Record watermark_run := {
  run_now : datetime;
  run_cutoff : datetime;
  run_rows : Z;
  run_status_ : string
}.

(** [update_watermark] called once per run, in order. *)
Definition update_watermark_runs (session : ReportingSession) (table_name : string)
    (runs : list watermark_run) : ReportingSession :=
  foldl (fun s r => update_watermark (run_now r) s table_name (run_cutoff r)
                      (run_rows r) (run_status_ r))
    session runs.

(** The watermark row of a table in the open transaction. *)
Definition watermark_row (session : ReportingSession) (table_name : string)
  : option EtlWatermark.t :=
  etl_watermark (txn session) !! table_name.

(** [row_count_loaded] of a table, 0 when it has no row yet. *)
Definition rows_loaded (session : ReportingSession) (table_name : string) : Z :=
  from_option EtlWatermark.row_count_loaded 0 (watermark_row session table_name).

(** The scenario key a loader can use for a scenario id: the key of its
    dimension row, unless there is no row or the key is 0 (falsy). *)
Definition usable_scenario_key (dim : gmap string Z) (sid : uuid) : option Z :=
  match dim !! sid with
  | Some k => if k =? 0 then None else Some k
  | None => None
  end.

(** The records of a batch whose scenario resolves. *)
Definition resolves (dim : gmap string Z) (c : StateChange.t) : bool :=
  bool_decide (is_Some (usable_scenario_key dim (StateChange.scenario_id c))).

(** A scenario-key cache never disagrees with the dimension table. *)
Definition cache_consistent (dim : gmap string Z) (cache : gmap string Z) : Prop :=
  ∀ sid k, cache !! sid = Some k → usable_scenario_key dim sid = Some k.

(** An action the fact table accepts. *)
Definition action_loadable (a : UserAction.t) : Prop :=
  is_Some (UserAction.user_id a) ∧ is_Some (UserAction.correlation_id a).

(** The fact row written for an action, given the scenario dimension. *)
Definition action_fact_matches (dim : gmap string Z) (f : FactUserAction.t)
    (a : UserAction.t) : Prop :=
  FactUserAction.action_timestamp f = UserAction.action_timestamp a
  ∧ FactUserAction.action_type f = UserAction.action_type a
  ∧ Some (FactUserAction.correlation_id f) = UserAction.correlation_id a
  ∧ FactUserAction.scenario_key f
    = UserAction.scenario_id a ≫= usable_scenario_key dim.

(** Fact rows written in the open transaction but not yet committed. *)
Definition uncommitted_facts (s : ReportingSession) : nat :=
  (length (facts_of s) - length (persisted_facts s))%nat.

(** A state change of a scenario that has no dimension row and names no
    actor. *)
Definition orphan_change : StateChange.t :=
  StateChange.mk "s-9" None "draft" "created" None 2 None None.

(** Three records, the middle one of an unknown scenario. *)
Definition mixed_batch : list StateChange.t :=
  [c2_change 1; orphan_change; c2_change 3].

(** Two actions, the second on a scenario that has no dimension row. *)
Definition sample_actions : list UserAction.t :=
  [UserAction.mk (Some "ana") (Some "s-1") 5 "create_scenario" "scenario_mgmt"
     (Some "scenario") (Some "s-1") (Some "req-1") (Some true) (Some (dict []));
   UserAction.mk (Some "bo") (Some "s-9") 6 "run_forecast" "forecast_run"
     (Some "run") (Some "run-0") (Some "req-2") (Some false) None].

(** The invariant of the loader loop: what is committed is a prefix of
    what has been written, and the uncommitted tail has [loaded_count
    mod 500] rows. *)
Definition batch_invariant (s : ReportingSession) (loaded_count : Z) : Prop :=
  0 ≤ loaded_count
  ∧ ∃ tail, facts_of s = persisted_facts s ++ tail
            ∧ Z.of_nat (length tail) = loaded_count `mod` 500.

(** A session whose transaction has nothing pending on a database with
    the s-1 dimension row. *)
Definition clean_session : ReportingSession := session_of c2_db_with_scenario.

(** A state change of the known scenario s-1 that names no actor. *)
Definition anonymous_change : StateChange.t :=
  StateChange.mk "s-1" (Some "draft") "submitted" "submitted" None 4 (Some "req-4") None.

(** ** Session segmentation (group_actions_by_session) *)

(** A float obtained as the quotient of two integers, kept as that
    quotient: [x / y] denotes the double nearest to [quot_num / quot_den]. *)
Record quotient := { quot_num : Z; quot_den : Z }.

Module ActionSession.
Record t := mk {
  session_id : uuid;
  user_id : option string;
  scenario_ids : list uuid;
  started_at : datetime;
  ended_at : datetime;
  duration_minutes : quotient;
  action_count : nat;
  action_types : gmap string nat
}.
End ActionSession.

(** The [current_session] dict. *)
Module CurrentSession.
Record t := mk {
  user_id : option string;
  scenario_ids : gset string;
  started_at : datetime;
  last_action_at : datetime;
  action_count : nat;
  action_types : gmap string nat
}.
End CurrentSession.

(** [key_a < key_b] on the sort keys [(user_id, action_timestamp)]: tuples
    compare by their first differing component, strings by code point.
    (Comparing [None] with a string raises; see [comparable_users].) *)
Definition session_key_lt (a b : UserAction.t) : bool :=
  match UserAction.user_id a, UserAction.user_id b with
  | Some ua, Some ub =>
      match String.compare ua ub with
      | Lt => true
      | Eq => UserAction.action_timestamp a <? UserAction.action_timestamp b
      | Gt => false
      end
  | _, _ => UserAction.action_timestamp a <? UserAction.action_timestamp b
  end.

(** The user ids can be ordered: all present, or all [None]. *)
Definition comparable_users (actions : list UserAction.t) : bool :=
  forallb (fun a => bool_decide (is_Some (UserAction.user_id a))) actions
  || forallb (fun a => bool_decide (UserAction.user_id a = None)) actions.

(** Python's stable sort under a [<] test: [x], which comes from an
    earlier position than all of [l], goes in front of the first element
    that is not smaller than it. *)
Fixpoint insert_lt {A} (lt : A → A → bool) (x : A) (l : list A) : list A :=
  match l with
  | [] => [x]
  | y :: l' => if lt y x then y :: insert_lt lt x l' else x :: y :: l'
  end.

Definition sorted_lt {A} (lt : A → A → bool) (l : list A) : list A :=
  foldr (insert_lt lt) [] l.

(** [timedelta(minutes=m)] in time units (seconds). *)
Definition minutes (m : Z) : Z := 60 * m.

(** The session record appended when a session is finalized;
    [fresh k] is the id drawn by the k-th call of [uuid.uuid4()]. *)
Definition finalize_session (fresh : nat → uuid) (sessions : list ActionSession.t)
    (cur : CurrentSession.t) : list ActionSession.t :=
  sessions ++
  [ActionSession.mk (str_uuid (fresh (length sessions)))
     (CurrentSession.user_id cur)
     (elements (CurrentSession.scenario_ids cur))
     (CurrentSession.started_at cur)
     (CurrentSession.last_action_at cur)
     {| quot_num := CurrentSession.last_action_at cur - CurrentSession.started_at cur;
        quot_den := 60 |}
     (CurrentSession.action_count cur)
     (CurrentSession.action_types cur)].

(** "Start new session" *)
Definition start_session (action : UserAction.t) : CurrentSession.t :=
  CurrentSession.mk (UserAction.user_id action)
    (from_option (fun sid => {[sid]}) ∅ (UserAction.scenario_id action))
    (UserAction.action_timestamp action)
    (UserAction.action_timestamp action)
    0 ∅.

(** "Add action to current session" *)
Definition add_to_session (cur : CurrentSession.t) (action : UserAction.t)
  : CurrentSession.t :=
  CurrentSession.mk (CurrentSession.user_id cur)
    (from_option (fun sid => {[sid]} ∪ CurrentSession.scenario_ids cur)
       (CurrentSession.scenario_ids cur) (UserAction.scenario_id action))
    (CurrentSession.started_at cur)
    (UserAction.action_timestamp action)
    (CurrentSession.action_count cur + 1)%nat
    (<[UserAction.action_type action :=
         (default 0 (CurrentSession.action_types cur !! UserAction.action_type action)
          + 1)%nat]>
       (CurrentSession.action_types cur)).

(** The test that opens a new session while one is current. *)
Definition breaks_session (session_gap : Z) (cur : CurrentSession.t)
    (action : UserAction.t) : bool :=
  bool_decide (CurrentSession.user_id cur ≠ UserAction.user_id action)
  || (session_gap <? UserAction.action_timestamp action
                     - CurrentSession.last_action_at cur).

(** One iteration of [for action in actions]; the state is the pair
    ([sessions], [current_session]). *)
Definition session_step (fresh : nat → uuid) (session_gap : Z)
    (st : list ActionSession.t * option CurrentSession.t) (action : UserAction.t)
  : list ActionSession.t * option CurrentSession.t :=
  match st.2 with
  | None => (st.1, Some (add_to_session (start_session action) action))
  | Some cur =>
      if breaks_session session_gap cur action
      then (finalize_session fresh st.1 cur,
            Some (add_to_session (start_session action) action))
      else (st.1, Some (add_to_session cur action))
  end.

(** "Finalize last session" *)
Definition close_sessions (fresh : nat → uuid)
    (st : list ActionSession.t * option CurrentSession.t) : list ActionSession.t :=
  match st.2 with
  | Some cur => finalize_session fresh st.1 cur
  | None => st.1
  end.

(** [None] stands for the [TypeError] that [sorted] raises when it has
    to order a [None] user id against a string. *)
Definition group_actions_by_session (fresh : nat → uuid)
    (user_actions : list UserAction.t) (session_gap_minutes : Z)
  : option (list ActionSession.t) :=
  match user_actions with
  | [] => Some []
  | _ =>
      if comparable_users user_actions then
        let actions := sorted_lt session_key_lt user_actions in
        Some (close_sessions fresh
                (foldl (session_step fresh (minutes session_gap_minutes))
                   ([], None) actions))
      else None
  end.

(** Three actions of one user at t, t + 10 min and t + 45 min. *)
Definition spaced_action (user : string) (t : datetime) : UserAction.t :=
  UserAction.mk (Some user) (Some "s-1") t "edit_input_data" "input_data"
    (Some "node_data") (Some "e1") (Some "req-1") (Some true) None.

(** What the loop has accounted for: the actions of the closed sessions
    plus those of the current one. *)
Definition actions_accounted (st : list ActionSession.t * option CurrentSession.t)
  : nat :=
  (foldr Nat.add 0 (map ActionSession.action_count st.1)
   + from_option CurrentSession.action_count 0 st.2)%nat.

(** A closed session is well formed: it holds an action and does not end
    before it starts. *)
Definition session_ok (s : ActionSession.t) : Prop :=
  (1 ≤ ActionSession.action_count s)%nat
  ∧ ActionSession.started_at s ≤ ActionSession.ended_at s.

(** Two sessions that follow each other: when they are of the same user,
    the second starts more than the gap after the end of the first. *)
Definition sessions_apart (session_gap : Z) (s1 s2 : ActionSession.t) : Prop :=
  ActionSession.user_id s1 = ActionSession.user_id s2 →
  session_gap < ActionSession.started_at s2 - ActionSession.ended_at s1.

(** The order the sort leaves between neighbours. *)
Definition key_sorted (a b : UserAction.t) : Prop := session_key_lt b a = false.

(** The invariant of the session loop, [prev] being the action read last. *)
Definition session_invariant (session_gap : Z) (prev : UserAction.t)
    (st : list ActionSession.t * option CurrentSession.t) : Prop :=
  Forall session_ok st.1
  ∧ (∀ i s1 s2, st.1 !! i = Some s1 → st.1 !! S i = Some s2 →
                sessions_apart session_gap s1 s2)
  ∧ ∃ cur, st.2 = Some cur
           ∧ CurrentSession.user_id cur = UserAction.user_id prev
           ∧ CurrentSession.last_action_at cur = UserAction.action_timestamp prev
           ∧ (1 ≤ CurrentSession.action_count cur)%nat
           ∧ CurrentSession.started_at cur ≤ CurrentSession.last_action_at cur
           ∧ (∀ s, last st.1 = Some s →
                   ActionSession.user_id s = CurrentSession.user_id cur →
                   session_gap < CurrentSession.started_at cur - ActionSession.ended_at s).

(** ** Loading CloudWatch logs (load_cloudwatch_logs) *)

(** A normalized log record as the CloudWatch extractors yield it. *)
Module LogRecord.
Record t := mk {
  log_timestamp : datetime;
  log_stream : string;
  severity : string;
  message : string;
  correlation_id : option uuid;
  scenario_id : option uuid;
  run_id : option uuid;
  user_id : option string;
  stack_trace : option string;
  error_category : option string;
  metadata : option (gmap string pyval)
}.
End LogRecord.

Module FactCloudWatchLog.
Record t := mk {
  log_timestamp : datetime;
  log_stream : string;
  log_group : string;
  severity : string;
  message : string;
  correlation_id : option uuid;
  scenario_id : option uuid;
  run_id : option uuid;
  user_id : option string;
  environment : string;
  service_name : string;
  stack_trace : option string;
  error_category : option string;
  metadata : gmap string pyval;
  loaded_at : datetime
}.
End FactCloudWatchLog.

(** The reporting session as far as [fact_cloudwatch_log] goes: the rows
    committed, and the rows the open transaction sees. *)
Record LogSession := {
  log_committed : list FactCloudWatchLog.t;
  log_txn : list FactCloudWatchLog.t
}.

Definition log_commit (s : LogSession) : LogSession :=
  {| log_committed := log_txn s; log_txn := log_txn s |}.

(** [FactCloudWatchLog(...)] built from one record. *)
Definition cloudwatch_fact (now : datetime) (log_group environment service_name : string)
    (log : LogRecord.t) : FactCloudWatchLog.t :=
  FactCloudWatchLog.mk (LogRecord.log_timestamp log) (LogRecord.log_stream log)
    log_group (LogRecord.severity log) (LogRecord.message log)
    (LogRecord.correlation_id log) (LogRecord.scenario_id log) (LogRecord.run_id log)
    (LogRecord.user_id log) environment service_name
    (LogRecord.stack_trace log) (LogRecord.error_category log)
    (default ∅ (LogRecord.metadata log)) now.

(** One iteration: add the record, count it, commit every 1000. *)
Definition load_cloudwatch_log_step (now : datetime)
    (log_group environment service_name : string)
    (st : LogSession * Z) (log : LogRecord.t) : LogSession * Z :=
  let session :=
    {| log_committed := log_committed st.1;
       log_txn := log_txn st.1
                  ++ [cloudwatch_fact now log_group environment service_name log] |} in
  let loaded_count := st.2 + 1 in
  (if loaded_count `mod` 1000 =? 0 then log_commit session else session, loaded_count).

Definition load_cloudwatch_logs (now : datetime) (reporting_session : LogSession)
    (logs : list LogRecord.t) (log_group environment service_name : string)
  : LogSession * Z :=
  let st := foldl (load_cloudwatch_log_step now log_group environment service_name)
              (reporting_session, 0) logs in
  (log_commit st.1, st.2).

(** Rows of the log table written but not yet committed. *)
Definition uncommitted_logs (s : LogSession) : nat :=
  (length (log_txn s) - length (log_committed s))%nat.

(** Two log records. *)
Definition sample_logs : list LogRecord.t :=
  [LogRecord.mk 100 "stream-1" "INFO" "Scenario run started" (Some "req-1")
     (Some "s-1") (Some "run-0") (Some "ana") None None (Some ∅);
   LogRecord.mk 130 "stream-1" "ERROR" "Node calculation failed" (Some "req-1")
     (Some "s-1") (Some "run-0") (Some "bo") (Some "Traceback") (Some "calculation") None].

(** ** The audit-trail job (scripts/run_rca_etl.py, load_audit_trail_data) *)











(** ** Error categorization (CloudWatchExtractor._categorize_error) *)

(** [re.search] of a pattern that is an alternation of literals: one of
    the literals occurs somewhere in the subject. *)
Fixpoint contains (literal subject : string) : bool :=
  String.prefix literal subject
  || match subject with
     | EmptyString => false
     | String _ rest => contains literal rest
     end.

Definition search (alternatives : list string) (subject : string) : bool :=
  existsb (fun literal => contains literal subject) alternatives.

(** The [error_patterns] dict, in insertion order, each regular
    expression split at its [|]. *)
Definition error_patterns : list (string * list string) :=
  [("timeout", ["timeout"; "timed out"; "deadline exceeded"]);
   ("validation", ["validation"; "invalid"; "missing required"; "constraint"]);
   ("database", ["database"; "sql"; "connection"; "deadlock"; "transaction"]);
   ("calculation", ["calculation"; "compute"; "division by zero"; "nan"; "infinity"]);
   ("permission", ["permission"; "unauthorized"; "forbidden"; "access denied"]);
   ("not_found", ["not found"; "does not exist"; "missing"]);
   ("network", ["network"; "connection refused"; "unreachable"]);
   ("config", ["configuration"; "config"; "missing env"; "invalid setting"])].

Section Categorize.
(** [str.lower]; its Unicode case mapping is not spelled out, the
    categorization is stated for any such function. *)
Variable lower : string → string.

Definition _categorize_error (message : string) : string :=
  let message_lower := lower message in
  match List.find (fun entry => search entry.2 message_lower) error_patterns with
  | Some entry => entry.1
  | None => "uncategorized"
  end.
End Categorize.

(** * Properties *)

(** ** The stable sort *)

Section StableSortFacts.
Context {A : Type} (key : A → Z).

Lemma insert_by_perm (x : A) (l : list A) : insert_by key x l ≡ₚ x :: l.
Proof.
  induction l as [|y l IH]; simpl; [done|].
  destruct (key x <=? key y); [done|].
  rewrite IH. apply Permutation_swap.
Qed.

Lemma sort_by_perm (l : list A) : sort_by key l ≡ₚ l.
Proof.
  induction l as [|x l IH]; simpl; [done|].
  rewrite insert_by_perm. by f_equiv.
Qed.

Lemma sort_by_elem_of (x : A) (l : list A) : x ∈ sort_by key l ↔ x ∈ l.
Proof. by rewrite sort_by_perm. Qed.

Lemma sort_by_length (l : list A) : length (sort_by key l) = length l.
Proof. by rewrite sort_by_perm. Qed.

Lemma insert_by_sorted (x : A) (l : list A) :
  StronglySorted (key_le key) l → StronglySorted (key_le key) (insert_by key x l).
Proof.
  induction 1 as [|y l Hl IH Hy]; simpl.
  - repeat constructor.
  - destruct (Z.leb_spec (key x) (key y)) as [Hxy|Hxy].
    + constructor; [by constructor|].
      constructor; [done|].
      eapply Forall_impl; [exact Hy|]. unfold key_le. intros; lia.
    + constructor; [done|].
      rewrite insert_by_perm. constructor; [unfold key_le; lia | done].
Qed.

Lemma sort_by_sorted (l : list A) : StronglySorted (key_le key) (sort_by key l).
Proof.
  induction l as [|x l IH]; simpl; [constructor|]. by apply insert_by_sorted.
Qed.

(** Sorting a list that is already in order changes nothing. *)
Lemma sort_by_id (l : list A) :
  StronglySorted (key_le key) l → sort_by key l = l.
Proof.
  induction 1 as [|x l Hl IH Hx]; simpl; [done|].
  rewrite IH. destruct Hx as [|y l Hxy _]; simpl; [done|].
  unfold key_le in Hxy. by destruct (Z.leb_spec (key x) (key y)); [|lia].
Qed.

(** Stability: elements that share a key keep their input order. *)
Lemma insert_by_stable (t : Z) (x : A) (l : list A) :
  List.filter (fun a => key a =? t) (insert_by key x l)
  = List.filter (fun a => key a =? t) (x :: l).
Proof.
  induction l as [|y l IH]; [done|].
  cbn [insert_by]. destruct (Z.leb_spec (key x) (key y)) as [Hxy|Hxy]; [done|].
  cbn [List.filter] in *. rewrite IH.
  destruct (Z.eqb_spec (key x) t), (Z.eqb_spec (key y) t); try done. lia.
Qed.

Lemma sort_by_stable (t : Z) (l : list A) :
  List.filter (fun a => key a =? t) (sort_by key l)
  = List.filter (fun a => key a =? t) l.
Proof.
  induction l as [|x l IH]; [done|].
  cbn [sort_by foldr]. rewrite insert_by_stable. cbn [List.filter].
  unfold sort_by in IH. by rewrite IH.
Qed.
End StableSortFacts.

(** ** State-transition reconstruction *)

Lemma query_no_filter (session : Session) :
  state_change_query session None None = fc_scenario session.
Proof.
  unfold state_change_query. induction (fc_scenario session) as [|s l IH]; [done|].
  cbn [List.filter state_change_since where_ids truthy_list andb]. by f_equal.
Qed.

(** With no cutoff and no id filter every scenario row is reconstructed
    (full extract). *)
Lemma extract_state_changes_full (session : Session) :
  extract_scenario_state_changes session None None
  = concat (map scenario_state_changes (fc_scenario session)).
Proof. unfold extract_scenario_state_changes. by rewrite query_no_filter. Qed.

(** C3: an entity with created, submitted and locked timestamps in
    ascending order and no withdraw/delete timestamp yields exactly three
    transitions, null→draft, draft→submitted, submitted→locked, each
    previous_status being the new_status of the one before, in ascending
    order of changed_at; the extractor run on that row without cutoff
    yields the same three records. *)
Theorem reconstructor_three_chained_transitions
    (s : FcScenario.t) (c sb l : datetime) :
  FcScenario.created_at s = Some c →
  FcScenario.submitted_at s = Some sb →
  FcScenario.locked_at s = Some l →
  FcScenario.withdraw_at s = None →
  FcScenario.delete_at s = None →
  c ≤ sb → sb ≤ l →
  ∃ t1 t2 t3,
    scenario_state_changes s = [t1; t2; t3]
    ∧ (∀ session, fc_scenario session = [s] →
         extract_scenario_state_changes session None None = [t1; t2; t3])
    ∧ StateChange.previous_status t1 = None
    ∧ StateChange.new_status t1 = "draft"
    ∧ StateChange.previous_status t2 = Some (StateChange.new_status t1)
    ∧ StateChange.new_status t2 = "submitted"
    ∧ StateChange.previous_status t3 = Some (StateChange.new_status t2)
    ∧ StateChange.new_status t3 = "locked"
    ∧ StateChange.changed_at t1 = c
    ∧ StateChange.changed_at t2 = sb
    ∧ StateChange.changed_at t3 = l
    ∧ StateChange.changed_at t1 ≤ StateChange.changed_at t2
    ∧ StateChange.changed_at t2 ≤ StateChange.changed_at t3.
Proof.
  intros Hc Hs Hl Hw Hd Hcs Hsl.
  assert (Hbody : scenario_state_changes s =
    [ StateChange.mk (FcScenario.id s) None "draft" "created"
        (Some (FcScenario.created_by s)) c (FcScenario.created_req_id s) None;
      StateChange.mk (FcScenario.id s) (Some "draft") "submitted" "submitted"
        (FcScenario.submitted_by s) sb (FcScenario.submitted_req_id s) None;
      StateChange.mk (FcScenario.id s) (Some "submitted") "locked" "locked"
        (FcScenario.locked_by s) l (FcScenario.locked_req_id s) None ]).
  { unfold scenario_state_changes, scenario_transitions.
    rewrite Hc, Hs, Hl, Hw, Hd. cbn [transition_at app].
    apply sort_by_id. repeat constructor; unfold key_le; simpl; lia. }
  eexists _, _, _. split; [exact Hbody|].
  split.
  { intros session Hrows. rewrite extract_state_changes_full, Hrows.
    cbn [map concat]. by rewrite Hbody, app_nil_r. }
  simpl. repeat split; done.
Qed.

Lemma reconstructor_three_chained_transitions_witness :
  ∃ t1 t2 t3, scenario_state_changes c3_scenario = [t1; t2; t3]
    ∧ StateChange.changed_at t1 = 10
    ∧ StateChange.changed_at t2 = 20
    ∧ StateChange.changed_at t3 = 30.
Proof.
  destruct (reconstructor_three_chained_transitions c3_scenario 10 20 30)
    as (t1 & t2 & t3 & H & _ & _ & _ & _ & _ & _ & _ & H1 & H2 & H3 & _);
    [reflexivity .. | lia | lia |].
  exists t1, t2, t3. auto.
Defined.

(** ** The time cutoff *)

(** C1: with cutoff 5, the state-change extractor selects the scenario
    created at 1 and submitted at 10 (its submitted_at passes the query's
    OR filter) and then emits both of its transitions, among them the
    "created" transition whose changed_at, 1, is before the cutoff. *)
Theorem state_change_emitted_before_cutoff :
  extract_scenario_state_changes c1_session (Some 5) None
  = [ StateChange.mk "s-1" None "draft" "created" (Some "ana") 1 (Some "req-1") None;
      StateChange.mk "s-1" (Some "draft") "submitted" "submitted" (Some "ana") 10
        (Some "req-2") None ]
  ∧ ∃ r, r ∈ extract_scenario_state_changes c1_session (Some 5) None
         ∧ StateChange.changed_at r < 5.
Proof.
  split; [reflexivity|].
  eexists. split; [apply list_elem_of_here|]. simpl. lia.
Qed.

(** The action extractor, in contrast, checks every record against the
    cutoff. *)
Lemma scenario_actions_since (d : datetime) (s : FcScenario.t) (a : UserAction.t) :
  a ∈ scenario_actions (Some d) s → d ≤ UserAction.action_timestamp a.
Proof.
  unfold scenario_actions. rewrite !elem_of_app. intros [H|[H|H]]; revert H.
  - destruct (FcScenario.created_at s) as [t|]; [|by intros ?%elem_of_nil].
    simpl. destruct (Z.leb_spec d t); [|by intros ?%elem_of_nil].
    by intros ->%list_elem_of_singleton.
  - destruct (FcScenario.updated_at s) as [t|]; [|by intros ?%elem_of_nil].
    case_bool_decide; [|by intros ?%elem_of_nil].
    simpl. destruct (Z.leb_spec d t); [|by intros ?%elem_of_nil].
    by intros ->%list_elem_of_singleton.
  - destruct (FcScenario.submitted_at s) as [t|]; [|by intros ?%elem_of_nil].
    simpl. destruct (Z.leb_spec d t); [|by intros ?%elem_of_nil].
    by intros ->%list_elem_of_singleton.
Qed.

Lemma extract_user_actions_since (session : Session) (d : datetime)
    (user_ids : option (list string)) (scenario_ids : option (list uuid))
    (a : UserAction.t) :
  a ∈ extract_user_actions session (Some d) user_ids scenario_ids →
  d ≤ UserAction.action_timestamp a.
Proof.
  unfold extract_user_actions. rewrite !elem_of_app. intros [H|[H|H]].
  - apply list_elem_of_In, in_concat in H as (l & Hl & Ha).
    apply in_map_iff in Hl as (s & <- & _).
    by eapply scenario_actions_since, list_elem_of_In.
  - apply list_elem_of_fmap in H as (r & -> & Hr).
    apply list_elem_of_In, filter_In in Hr as [_ Hr].
    apply andb_prop in Hr as [Hr _]. simpl in *. lia.
  - apply list_elem_of_fmap in H as (r & -> & Hr).
    apply list_elem_of_In, filter_In in Hr as [_ Hr].
    apply andb_prop in Hr as [Hr _]. simpl in *. lia.
Qed.

(** ** Update actions *)

Lemma scenario_actions_update (since : option datetime) (s : FcScenario.t)
    (a : UserAction.t) :
  a ∈ scenario_actions since s →
  UserAction.action_type a = "update_scenario" →
  ∃ t, FcScenario.updated_at s = Some t
       ∧ FcScenario.updated_at s ≠ FcScenario.created_at s
       ∧ since_ok since t = true
       ∧ a = update_action s t.
Proof.
  unfold scenario_actions. rewrite !elem_of_app. intros [H|[H|H]]; revert H.
  - destruct (FcScenario.created_at s) as [t|]; [|by intros ?%elem_of_nil].
    destruct (since_ok since t); [|by intros ?%elem_of_nil].
    by intros ->%list_elem_of_singleton.
  - destruct (FcScenario.updated_at s) as [t|] eqn:Hu; [|by intros ?%elem_of_nil].
    case_bool_decide as Hne; [|by intros ?%elem_of_nil].
    destruct (since_ok since t) eqn:Hs; [|by intros ?%elem_of_nil].
    intros ->%list_elem_of_singleton _. by exists t.
  - destruct (FcScenario.submitted_at s) as [t|]; [|by intros ?%elem_of_nil].
    destruct (since_ok since t); [|by intros ?%elem_of_nil].
    by intros ->%list_elem_of_singleton.
Qed.

(** C10: a scenario whose updated_at equals its created_at yields no
    "update_scenario" action; every "update_scenario" action the extractor
    emits comes from a scenario row whose updated_at is set, differs from
    created_at and satisfies the cutoff. *)
Theorem no_update_action_when_updated_equals_created :
  (∀ since s a,
     FcScenario.updated_at s = FcScenario.created_at s →
     a ∈ scenario_actions since s →
     UserAction.action_type a ≠ "update_scenario")
  ∧ (∀ session since user_ids scenario_ids a,
       a ∈ extract_user_actions session since user_ids scenario_ids →
       UserAction.action_type a = "update_scenario" →
       ∃ s t, s ∈ fc_scenario session
              ∧ FcScenario.updated_at s = Some t
              ∧ FcScenario.updated_at s ≠ FcScenario.created_at s
              ∧ since_ok since t = true
              ∧ a = update_action s t).
Proof.
  split.
  - intros since s a Heq Ha Hty.
    destruct (scenario_actions_update since s a Ha Hty) as (t & _ & Hne & _). done.
  - intros session since user_ids scenario_ids a.
    unfold extract_user_actions. rewrite !elem_of_app. intros [H|[H|H]] Hty.
    + apply list_elem_of_In, in_concat in H as (l & Hl & Ha).
      apply in_map_iff in Hl as (s & <- & Hs).
      apply filter_In in Hs as [Hs _].
      apply list_elem_of_In in Ha, Hs.
      destruct (scenario_actions_update since s a Ha Hty) as (t & ?). by exists s, t.
    + by apply list_elem_of_fmap in H as (r & -> & _).
    + by apply list_elem_of_fmap in H as (r & -> & _).
Qed.

(** ** The timeline merger *)

(** C4: the merged journey is sorted non-decreasing by event_timestamp,
    holds exactly the events of the four transformed streams, keeps events
    with equal timestamps in their input (concatenation) order, and is
    empty when the four streams are empty. *)
Theorem journey_sorted_stable
    (state_changes : list StateChange.t) (user_actions : list UserAction.t)
    (input_changes : list InputChange.t) (runs : list Run.t) :
  StronglySorted (key_le Event.event_timestamp)
    (reconstruct_user_journey state_changes user_actions input_changes runs)
  ∧ reconstruct_user_journey state_changes user_actions input_changes runs
    ≡ₚ journey_timeline state_changes user_actions input_changes runs
  ∧ (∀ t,
       List.filter (fun e => Event.event_timestamp e =? t)
         (reconstruct_user_journey state_changes user_actions input_changes runs)
       = List.filter (fun e => Event.event_timestamp e =? t)
           (journey_timeline state_changes user_actions input_changes runs))
  ∧ reconstruct_user_journey [] [] [] [] = [].
Proof.
  unfold reconstruct_user_journey. split_and!.
  - apply sort_by_sorted.
  - apply sort_by_perm.
  - intros t. apply sort_by_stable.
  - reflexivity.
Qed.

Lemma no_update_action_when_updated_equals_created_witness :
  FcScenario.updated_at c10_scenario = FcScenario.created_at c10_scenario
  ∧ ∀ a, a ∈ scenario_actions None c10_scenario →
         UserAction.action_type a ≠ "update_scenario".
Proof.
  split; [reflexivity|]. intros a.
  exact (proj1 no_update_action_when_updated_equals_created None c10_scenario a eq_refl).
Defined.

(** ** The input-change sequencer *)

Lemma foldl_sequence_step (sid : uuid) (records : list FcScenarioNodeData.t)
    (changes : list InputChange.t) (node_sequences : gmap string nat) :
  (foldl (sequence_step sid) (changes, node_sequences) records).1
  = changes ++ sequence_from sid node_sequences records.
Proof.
  revert changes node_sequences.
  induction records as [|r rs IH]; intros changes ns; simpl.
  - by rewrite app_nil_r.
  - unfold sequence_step at 2. simpl. rewrite IH. by rewrite <- app_assoc.
Qed.

Lemma sequence_records_from (sid : uuid) (records : list FcScenarioNodeData.t) :
  sequence_records sid records = sequence_from sid ∅ records.
Proof. unfold sequence_records. by rewrite foldl_sequence_step. Qed.

Lemma sequence_from_node (sid n : uuid) (records : list FcScenarioNodeData.t)
    (node_sequences : gmap string nat) :
  map InputChange.change_sequence (of_node n (sequence_from sid node_sequences records))
  = seq (S (default 0%nat (node_sequences !! n))) (length (rows_of_node n records)).
Proof.
  revert node_sequences. unfold of_node, rows_of_node.
  induction records as [|r rs IH]; intros ns; [done|].
  cbn [sequence_from sequence_step fst snd app List.filter].
  unfold str_uuid. rewrite lookup_total_insert_eq.
  cbn [InputChange.model_node_id].
  case_bool_decide as Hn.
  - subst n. cbn [map length seq InputChange.change_sequence].
    rewrite Nat.add_1_r. f_equal.
    by rewrite IH, lookup_insert_eq.
  - by rewrite IH, lookup_insert_ne.
Qed.

Lemma sequence_from_rows (sid : uuid) (records : list FcScenarioNodeData.t)
    (node_sequences : gmap string nat) :
  map (fun c => (InputChange.node_data_id c, InputChange.model_node_id c,
                 InputChange.changed_at c))
      (sequence_from sid node_sequences records)
  = map (fun r => (FcScenarioNodeData.id r, FcScenarioNodeData.model_node_id r,
                   FcScenarioNodeData.created_at r))
        records.
Proof.
  revert node_sequences.
  induction records as [|r rs IH]; intros ns; [done|].
  cbn [sequence_from sequence_step fst snd app map]. by rewrite IH.
Qed.

(** C5: for rows that target nodes A,B,A,B,A in that order, the sequencer
    stamps 1,1,2,2,3, that is 1,2,3 on node A and 1,2 on node B; for any
    rows, the sequence numbers of each node, read in output order, are
    exactly 1,2,...,k (strictly increasing from 1), and the output lists
    the rows in the order the query returned them. *)
Theorem sequencer_per_node_sequence (sid : uuid) :
  (∀ (A B : uuid) r1 r2 r3 r4 r5,
     A ≠ B →
     map FcScenarioNodeData.model_node_id [r1; r2; r3; r4; r5] = [A; B; A; B; A] →
     let changes := sequence_records sid [r1; r2; r3; r4; r5] in
     map InputChange.change_sequence changes = [1; 1; 2; 2; 3]%nat
     ∧ map InputChange.change_sequence (of_node A changes) = [1; 2; 3]%nat
     ∧ map InputChange.change_sequence (of_node B changes) = [1; 2]%nat)
  ∧ (∀ records n,
       map InputChange.change_sequence (of_node n (sequence_records sid records))
       = seq 1 (length (rows_of_node n records)))
  ∧ (∀ records,
       map (fun c => (InputChange.node_data_id c, InputChange.model_node_id c,
                      InputChange.changed_at c))
           (sequence_records sid records)
       = map (fun r => (FcScenarioNodeData.id r, FcScenarioNodeData.model_node_id r,
                        FcScenarioNodeData.created_at r))
             records)
  ∧ (∀ session n,
       map InputChange.change_sequence
         (of_node n (extract_input_change_sequence session sid))
       = seq 1 (length (rows_of_node n (input_change_query session sid)))
       ∧ map InputChange.node_data_id (extract_input_change_sequence session sid)
         = map FcScenarioNodeData.id (input_change_query session sid)).
Proof.
  assert (Hnode : ∀ records n,
    map InputChange.change_sequence (of_node n (sequence_records sid records))
    = seq 1 (length (rows_of_node n records))).
  { intros records n. by rewrite sequence_records_from, sequence_from_node. }
  assert (Hrows : ∀ records,
    map (fun c => (InputChange.node_data_id c, InputChange.model_node_id c,
                   InputChange.changed_at c))
        (sequence_records sid records)
    = map (fun r => (FcScenarioNodeData.id r, FcScenarioNodeData.model_node_id r,
                     FcScenarioNodeData.created_at r))
          records).
  { intros records. by rewrite sequence_records_from, sequence_from_rows. }
  split_and!; [|exact Hnode|exact Hrows|].
  - intros A B r1 r2 r3 r4 r5 HAB Hpat changes.
    injection Hpat as H1 H2 H3 H4 H5.
    assert (HrA : rows_of_node A [r1; r2; r3; r4; r5] = [r1; r3; r5]).
    { unfold rows_of_node. cbn [List.filter]. rewrite H1, H2, H3, H4, H5.
      repeat case_bool_decide; congruence. }
    assert (HrB : rows_of_node B [r1; r2; r3; r4; r5] = [r2; r4]).
    { unfold rows_of_node. cbn [List.filter]. rewrite H1, H2, H3, H4, H5.
      repeat case_bool_decide; congruence. }
    split_and!.
    + subst changes. rewrite sequence_records_from.
      cbn [sequence_from sequence_step fst snd app map InputChange.change_sequence].
      unfold str_uuid. rewrite H1, H2, H3, H4, H5.
      rewrite !lookup_total_insert_eq.
      repeat (rewrite ?lookup_insert_eq, ?lookup_empty;
              rewrite ?lookup_insert_ne by done).
      reflexivity.
    + subst changes. by rewrite Hnode, HrA.
    + subst changes. by rewrite Hnode, HrB.
  - intros session n. unfold extract_input_change_sequence. split; [apply Hnode|].
    specialize (Hrows (input_change_query session sid)).
    apply (f_equal (map (fun p => p.1.1))) in Hrows.
    by rewrite !map_map in Hrows.
Qed.

Lemma sequencer_per_node_sequence_witness :
  "node-a" ≠ "node-b"
  ∧ map InputChange.change_sequence
      (sequence_records "s-1"
         [c5_row "e1" "node-a" 1; c5_row "e2" "node-b" 2; c5_row "e3" "node-a" 3;
          c5_row "e4" "node-b" 4; c5_row "e5" "node-a" 5])
    = [1; 1; 2; 2; 3]%nat.
Proof.
  split; [done|].
  refine (proj1 (proj1 (sequencer_per_node_sequence "s-1") "node-a" "node-b"
                   _ _ _ _ _ _ _)); [done | reflexivity].
Defined.

(** ** The run-context differ *)

Lemma find_none_intro {A} (f : A → bool) (l : list A) :
  (∀ x, x ∈ l → f x = false) → List.find f l = None.
Proof.
  induction l as [|y l IH]; intros H; [done|]. simpl.
  rewrite (H y) by apply list_elem_of_here.
  apply IH. intros x Hx. apply H. by apply list_elem_of_further.
Qed.

Lemma find_some_split {A} (f : A → bool) (l : list A) (p : A) :
  List.find f l = Some p →
  ∃ l1 l2, l = l1 ++ p :: l2 ∧ f p = true ∧ Forall (fun x => f x = false) l1.
Proof.
  induction l as [|y l IH]; [done|]. simpl.
  destruct (f y) eqn:Hy.
  - intros [= ->]. by exists [], l.
  - intros (l1 & l2 & -> & Hp & Hl1)%IH.
    exists (y :: l1), l2. split_and!; [done | done | by constructor].
Qed.

Lemma eligible_baseline_test (target_run run : Run.t) :
  (Run.run_started_at run <? Run.run_started_at target_run)
  && bool_decide (Run.run_status run = "success") = true
  ↔ eligible_baseline target_run run.
Proof.
  unfold eligible_baseline.
  rewrite andb_true_iff, Z.ltb_lt, bool_decide_eq_true. tauto.
Qed.

(** The backward scan over ascending runs finds the latest eligible run. *)
Lemma find_previous_successful_latest (target_run p : Run.t) (runs : list Run.t) :
  StronglySorted (key_le Run.run_started_at) runs →
  find_previous_successful target_run runs = Some p →
  p ∈ runs ∧ eligible_baseline target_run p
  ∧ ∀ r, r ∈ runs → eligible_baseline target_run r →
         Run.run_started_at r ≤ Run.run_started_at p.
Proof.
  intros Hsorted Hfind. unfold find_previous_successful in Hfind.
  apply find_some_split in Hfind as (l1 & l2 & Hrev & Hp & Hl1).
  apply eligible_baseline_test in Hp.
  assert (Hruns : runs = reverse l2 ++ p :: reverse l1).
  { rewrite <- (reverse_involutive runs), Hrev, reverse_app, reverse_cons.
    by rewrite <- app_assoc. }
  subst runs. split_and!; [set_solver | done |].
  intros r Hr Hel.
  apply elem_of_app in Hr as [Hr|Hr].
  - eapply (StronglySorted_app_1_elem_of _ _ _ r p) in Hsorted;
      [exact Hsorted | done | apply list_elem_of_here].
  - apply elem_of_cons in Hr as [->|Hr]; [lia|].
    rewrite elem_of_reverse in Hr.
    rewrite Forall_forall in Hl1. apply Hl1 in Hr.
    apply eligible_baseline_test in Hel. congruence.
Qed.

Lemma find_previous_successful_none (target_run : Run.t) (runs : list Run.t) :
  (∀ r, r ∈ runs → ¬ eligible_baseline target_run r) →
  find_previous_successful target_run runs = None.
Proof.
  intros H. apply find_none_intro. intros r Hr. rewrite elem_of_reverse in Hr.
  apply not_true_is_false. rewrite eligible_baseline_test. by apply H.
Qed.

Lemma find_previous_successful_some (target_run r : Run.t) (runs : list Run.t) :
  r ∈ runs → eligible_baseline target_run r →
  is_Some (find_previous_successful target_run runs).
Proof.
  intros Hr Hel. unfold find_previous_successful.
  destruct (List.find _ _) eqn:Hfind; [done|].
  eapply find_none in Hfind; [|apply list_elem_of_In; rewrite elem_of_reverse; exact Hr].
  apply eligible_baseline_test in Hel. simpl in *. congruence.
Qed.

Lemma elem_of_scenario_runs_of (sid : uuid) (all_runs : list Run.t) (r : Run.t) :
  r ∈ scenario_runs_of sid all_runs ↔ r ∈ all_runs ∧ Run.scenario_id r = sid.
Proof.
  unfold scenario_runs_of.
  rewrite sort_by_elem_of, !list_elem_of_In, filter_In, bool_decide_eq_true. tauto.
Qed.

Lemma elem_of_changes_between (p target_run : Run.t)
    (input_changes : list InputChange.t) (c : InputChange.t) :
  c ∈ changes_between p target_run input_changes
  ↔ c ∈ input_changes
    ∧ Run.run_started_at p < InputChange.changed_at c
    ∧ InputChange.changed_at c ≤ Run.run_started_at target_run.
Proof.
  unfold changes_between.
  rewrite !list_elem_of_In, filter_In, andb_true_iff, Z.ltb_lt, Z.leb_le. tauto.
Qed.

Lemma scenario_runs_of_sorted (sid : uuid) (all_runs : list Run.t) :
  StronglySorted (key_le Run.run_started_at) (scenario_runs_of sid all_runs).
Proof. apply sort_by_sorted. Qed.

(** What the differ returns once the target run has been located. *)
Lemma context_no_baseline (sid tid : uuid) (all_runs : list Run.t)
    (input_changes : list InputChange.t) (target_run : Run.t) :
  find_target tid (scenario_runs_of sid all_runs) = Some target_run →
  (∀ r, r ∈ all_runs → Run.scenario_id r = sid → ¬ eligible_baseline target_run r) →
  identify_run_context_changes sid tid all_runs input_changes
  = NoBaseline target_run "No previous successful run found".
Proof.
  intros Ht Hnone. unfold identify_run_context_changes. rewrite Ht.
  rewrite find_previous_successful_none; [done|].
  intros r [Hr Hsid]%elem_of_scenario_runs_of. by apply Hnone.
Qed.

Lemma context_with_baseline (sid tid : uuid) (all_runs : list Run.t)
    (input_changes : list InputChange.t) (target_run r0 : Run.t) :
  find_target tid (scenario_runs_of sid all_runs) = Some target_run →
  r0 ∈ all_runs → Run.scenario_id r0 = sid → eligible_baseline target_run r0 →
  ∃ p d,
    identify_run_context_changes sid tid all_runs input_changes = RunContext d
    ∧ p ∈ all_runs ∧ Run.scenario_id p = sid ∧ eligible_baseline target_run p
    ∧ (∀ r, r ∈ all_runs → Run.scenario_id r = sid → eligible_baseline target_run r →
            Run.run_started_at r ≤ Run.run_started_at p)
    ∧ ContextDiff.previous_successful_run d
      = RunInfo.mk (str_uuid (Run.run_id p)) "success" (Run.run_started_at p) None
    ∧ ContextDiff.input_changes_between d
      = length (changes_between p target_run input_changes)
    ∧ ContextDiff.changes_detail d
      = map (fun c => ChangeDetail.mk (str_uuid (InputChange.model_node_id c))
                        (InputChange.changed_at c) (InputChange.changed_by c)
                        (InputChange.input_hash c))
          (changes_between p target_run input_changes)
    ∧ NoDup (ContextDiff.changed_node_ids d)
    ∧ (∀ n, n ∈ ContextDiff.changed_node_ids d
            ↔ ∃ c, c ∈ changes_between p target_run input_changes
                   ∧ str_uuid (InputChange.model_node_id c) = n)
    ∧ ContextDiff.time_gap_seconds d
      = Run.run_started_at target_run - Run.run_started_at p.
Proof.
  intros Ht Hr0 Hsid0 Hel0. unfold identify_run_context_changes. rewrite Ht.
  destruct (find_previous_successful_some target_run r0 (scenario_runs_of sid all_runs))
    as [p Hp]; [by apply elem_of_scenario_runs_of | done |].
  rewrite Hp.
  apply find_previous_successful_latest in Hp as (Hin & Hel & Hmax);
    [|apply scenario_runs_of_sorted].
  apply elem_of_scenario_runs_of in Hin as [Hin Hsid].
  eexists p, _. split; [reflexivity|]. cbn.
  split_and!; [done | done | done | | | done | done | | | done].
  - intros r Hr Hs. apply Hmax. by apply elem_of_scenario_runs_of.
  - by destruct Hel as [-> _].
  - apply NoDup_elements.
  - intros n. unfold node_id_set.
    rewrite elem_of_elements, elem_of_list_to_set, list_elem_of_fmap.
    split; intros (c & ? & ?); by exists c.
Qed.

(** C6: with runs success(t0), failed(t1), failed(t2) of one scenario and
    a single input change on node X strictly after t1 and before t2,
    diffing the run at t2 reports the run at t0 as previous successful
    run, changed_node_ids = [X] and input_changes_between = 1.  In
    general, once the target is located: if no successful run of the
    scenario starts strictly before the target, the "no baseline" result
    is returned (not the error); otherwise the baseline is a successful
    run strictly before the target that no other such run starts after,
    and the changes reported are exactly the input changes with
    baseline_start < changed_at <= target_start. *)
Theorem run_context_diff_against_last_success :
  (∀ sid r0 r1 r2 c X,
     Run.scenario_id r0 = sid → Run.scenario_id r1 = sid → Run.scenario_id r2 = sid →
     Run.run_status r0 = "success" →
     Run.run_status r1 = "failed" →
     Run.run_status r2 = "failed" →
     Run.run_started_at r0 < Run.run_started_at r1 →
     Run.run_started_at r1 < Run.run_started_at r2 →
     Run.run_id r0 ≠ Run.run_id r2 → Run.run_id r1 ≠ Run.run_id r2 →
     InputChange.model_node_id c = X →
     Run.run_started_at r1 < InputChange.changed_at c →
     InputChange.changed_at c < Run.run_started_at r2 →
     ∃ d,
       identify_run_context_changes sid (Run.run_id r2) [r0; r1; r2] [c] = RunContext d
       ∧ ContextDiff.previous_successful_run d
         = RunInfo.mk (str_uuid (Run.run_id r0)) "success" (Run.run_started_at r0) None
       ∧ ContextDiff.changed_node_ids d = [str_uuid X]
       ∧ ContextDiff.input_changes_between d = 1%nat)
  ∧ (∀ sid tid all_runs input_changes target_run,
       find_target tid (scenario_runs_of sid all_runs) = Some target_run →
       ((∀ r, r ∈ all_runs → Run.scenario_id r = sid →
              ¬ eligible_baseline target_run r) →
        identify_run_context_changes sid tid all_runs input_changes
        = NoBaseline target_run "No previous successful run found")
       ∧ (∀ r0, r0 ∈ all_runs → Run.scenario_id r0 = sid →
                eligible_baseline target_run r0 →
          ∃ p d,
            identify_run_context_changes sid tid all_runs input_changes = RunContext d
            ∧ p ∈ all_runs ∧ Run.scenario_id p = sid ∧ eligible_baseline target_run p
            ∧ (∀ r, r ∈ all_runs → Run.scenario_id r = sid →
                    eligible_baseline target_run r →
                    Run.run_started_at r ≤ Run.run_started_at p)
            ∧ ContextDiff.previous_successful_run d
              = RunInfo.mk (str_uuid (Run.run_id p)) "success"
                  (Run.run_started_at p) None
            ∧ ContextDiff.input_changes_between d
              = length (changes_between p target_run input_changes)
            ∧ (∀ c, c ∈ changes_between p target_run input_changes
                    ↔ c ∈ input_changes
                      ∧ Run.run_started_at p < InputChange.changed_at c
                      ∧ InputChange.changed_at c ≤ Run.run_started_at target_run)
            ∧ (∀ n, n ∈ ContextDiff.changed_node_ids d
                    ↔ ∃ c, c ∈ changes_between p target_run input_changes
                           ∧ str_uuid (InputChange.model_node_id c) = n))).
Proof.
  split.
  - intros sid r0 r1 r2 c X Hs0 Hs1 Hs2 Hst0 Hst1 Hst2 H01 H12 Hid0 Hid1 HX Hc1 Hc2.
    unfold identify_run_context_changes.
    assert (Hruns : scenario_runs_of sid [r0; r1; r2] = [r0; r1; r2]).
    { unfold scenario_runs_of. cbn [List.filter].
      rewrite !bool_decide_eq_true_2 by done.
      apply sort_by_id. repeat constructor; unfold key_le; lia. }
    rewrite Hruns. unfold find_target. cbn [List.find].
    rewrite !bool_decide_eq_false_2 by done. rewrite bool_decide_eq_true_2 by done.
    unfold find_previous_successful. cbn [reverse rev_append List.find].
    rewrite Hst0, Hst1, Hst2.
    replace (Run.run_started_at r2 <? Run.run_started_at r2) with false by lia.
    replace (Run.run_started_at r1 <? Run.run_started_at r2) with true by lia.
    replace (Run.run_started_at r0 <? Run.run_started_at r2) with true by lia.
    cbn [andb bool_decide decide_rel]. 
    rewrite bool_decide_eq_false_2 by done. rewrite bool_decide_eq_true_2 by done.
    cbn [andb]. unfold changes_between. cbn [List.filter].
    replace (Run.run_started_at r0 <? InputChange.changed_at c) with true by lia.
    replace (InputChange.changed_at c <=? Run.run_started_at r2) with true by lia.
    cbn [andb]. eexists. split; [reflexivity|]. cbn.
    split_and!; [by rewrite Hst0| |done].
    by rewrite HX, (right_id_L ∅ (∪)), elements_singleton.
  - intros sid tid all_runs input_changes target_run Ht. split.
    + by apply context_no_baseline.
    + intros r0 Hr0 Hs0 Hel0.
      destruct (context_with_baseline sid tid all_runs input_changes target_run r0)
        as (p & d & Hd & Hp & Hsp & Hel & Hmax & Hprev & Hcount & _ & _ & Hids & _);
        try done.
      exists p, d. split_and!; try done.
      intros c. apply elem_of_changes_between.
Qed.

Lemma run_context_diff_against_last_success_witness :
  ∃ d,
    identify_run_context_changes "s-1" "run-2"
      [c6_run "run-0" "success" 10; c6_run "run-1" "failed" 20;
       c6_run "run-2" "failed" 30]
      [c6_change] = RunContext d
    ∧ ContextDiff.previous_successful_run d = RunInfo.mk "run-0" "success" 10 None
    ∧ ContextDiff.changed_node_ids d = ["node-x"]
    ∧ ContextDiff.input_changes_between d = 1%nat.
Proof.
  refine (proj1 run_context_diff_against_last_success "s-1"
            (c6_run "run-0" "success" 10) (c6_run "run-1" "failed" 20)
            (c6_run "run-2" "failed" 30) c6_change "node-x"
            _ _ _ _ _ _ _ _ _ _ _ _ _); try reflexivity; done.
Defined.

(** C9: when no run of the given scenario carries the target run id, the
    differ returns the result whose error field is "Target run not found";
    it is a returned value, and no baseline or diff is computed. *)
Theorem run_context_target_not_found
    (sid tid : uuid) (all_runs : list Run.t) (input_changes : list InputChange.t) :
  (∀ r, r ∈ all_runs → Run.scenario_id r = sid → Run.run_id r ≠ tid) →
  identify_run_context_changes sid tid all_runs input_changes
  = ContextError "Target run not found".
Proof.
  intros Hnone. unfold identify_run_context_changes, find_target.
  rewrite find_none_intro; [done|].
  intros r [Hr Hsid]%elem_of_scenario_runs_of.
  apply bool_decide_eq_false_2. by apply Hnone.
Qed.

Lemma run_context_target_not_found_witness :
  identify_run_context_changes "s-1" "run-9"
    [c6_run "run-0" "success" 10; c6_run "run-1" "failed" 20] [c6_change]
  = ContextError "Target run not found".
Proof.
  apply run_context_target_not_found.
  intros r Hr _. apply elem_of_cons in Hr as [->|Hr]; [done|].
  apply list_elem_of_singleton in Hr as ->. done.
Defined.

(** ** The watermark store *)

Lemma update_watermark_lookup (now : datetime) (session : ReportingSession)
    (table_name : string) (last_loaded_at : datetime) (row_count : Z)
    (status : string) :
  etl_watermark (txn (update_watermark now session table_name last_loaded_at
                        row_count status)) !! table_name
  = Some (upsert_watermark_row (etl_watermark (txn session) !! table_name)
            now last_loaded_at row_count status).
Proof. unfold update_watermark. simpl. apply lookup_insert_eq. Qed.

(** An upsert at time 9 on the existing row keeps last_run_started = 1:
    that field is not overwritten with the new run's value. *)
Lemma update_watermark_keeps_last_run_started :
  ¬ (∀ now session table_name last_loaded_at row_count status old,
       etl_watermark (txn session) !! table_name = Some old →
       ∃ new,
         etl_watermark (txn (update_watermark now session table_name last_loaded_at
                               row_count status)) !! table_name = Some new
         ∧ EtlWatermark.row_count_loaded new
           = EtlWatermark.row_count_loaded old + row_count
         ∧ EtlWatermark.last_loaded_at new = Some last_loaded_at
         ∧ EtlWatermark.last_run_started new = Some now
         ∧ EtlWatermark.last_run_completed new = Some now
         ∧ EtlWatermark.status new = status).
Proof.
  intros H.
  destruct (H 9 c7_session "rca_audit_trail" 8 3 "success"
              (EtlWatermark.mk (Some 2) (Some 1) (Some 2) 40 "success") eq_refl)
    as (new & Hnew & _ & _ & Hstarted & _).
  rewrite update_watermark_lookup in Hnew. injection Hnew as <-.
  vm_compute in Hstarted. discriminate.
Qed.

(** C7 (as the code has it): an upsert on a table_name that already has a
    watermark row adds the new row count to row_count_loaded, overwrites
    last_loaded_at, last_run_completed and status with the new run's
    values, leaves last_run_started as it was, and touches no other row. *)
Theorem update_watermark_on_existing_row
    (now : datetime) (session : ReportingSession) (table_name : string)
    (last_loaded_at : datetime) (row_count : Z) (status : string)
    (old : EtlWatermark.t) :
  etl_watermark (txn session) !! table_name = Some old →
  let session' :=
    update_watermark now session table_name last_loaded_at row_count status in
  etl_watermark (txn session') !! table_name
  = Some (EtlWatermark.mk (Some last_loaded_at)
            (EtlWatermark.last_run_started old)
            (Some now)
            (EtlWatermark.row_count_loaded old + row_count)
            status)
  ∧ (∀ other, other ≠ table_name →
       etl_watermark (txn session') !! other = etl_watermark (txn session) !! other).
Proof.
  intros Hold session'. subst session'. split.
  - by rewrite update_watermark_lookup, Hold.
  - intros other Hne. unfold update_watermark. simpl. by rewrite lookup_insert_ne.
Qed.

Lemma update_watermark_on_existing_row_witness :
  etl_watermark (txn (update_watermark 9 c7_session "rca_audit_trail" 8 3 "success"))
    !! "rca_audit_trail"
  = Some (EtlWatermark.mk (Some 8) (Some 1) (Some 9) 43 "success").
Proof.
  exact (proj1 (update_watermark_on_existing_row 9 c7_session "rca_audit_trail" 8 3
                  "success" (EtlWatermark.mk (Some 2) (Some 1) (Some 2) 40 "success")
                  eq_refl)).
Defined.

(** ** The dimension key resolver *)

(** Resolving a user id that is neither cached nor in the dimension
    creates its row and caches the key; a second resolution is answered
    from the cache and leaves the database alone. *)
Lemma resolve_unknown_user_key
    (now : datetime) (u : string) (db : ReportingDb) (cache : gmap string Z) :
  cache !! u = None →
  dim_user db !! u = None →
  ∃ db1 cache1 k,
    resolve_user_key now (Some u) db cache = Ok (db1, cache1, k)
    ∧ dim_user db1 = <[u := DimUser.mk k u (Some u) now]> (dim_user db)
    ∧ size (dim_user db1) = S (size (dim_user db))
    ∧ resolve_user_key now (Some u) db1 cache1 = Ok (db1, cache1, k)
    ∧ cache1 = <[u := k]> cache
    ∧ dim_scenario db1 = dim_scenario db
    ∧ fact_scenario_state_change db1 = fact_scenario_state_change db
    ∧ fact_user_action db1 = fact_user_action db.
Proof.
  intros Hcache Hdim. unfold resolve_user_key at 1. cbn [mbind option_bind].
  rewrite Hcache. unfold select_user_key. cbn [mbind option_bind].
  rewrite Hdim. cbn [fmap option_fmap option_map truthy_key insert_user].
  rewrite Hdim. cbn.
  eexists _, _, _. split; [reflexivity|]. cbn. split_and!; try done.
  - by apply map_size_insert_None.
  - unfold resolve_user_key. cbn [mbind option_bind]. by rewrite lookup_insert_eq.
Qed.

(** ** Loading state changes *)

Lemma txn_commit_every (batch n : Z) (s : ReportingSession) :
  txn (commit_every batch n s) = txn s.
Proof. unfold commit_every. by destruct (_ =? _). Qed.

Lemma resolve_user_key_ok (now : datetime) (u : string) (db : ReportingDb)
    (cache : gmap string Z) :
  users_resolvable db cache →
  ∃ db' cache' k,
    resolve_user_key now (Some u) db cache = Ok (db', cache', k)
    ∧ dim_scenario db' = dim_scenario db
    ∧ fact_scenario_state_change db' = fact_scenario_state_change db
    ∧ users_resolvable db' cache'.
Proof.
  intros Hres. unfold resolve_user_key. cbn [mbind option_bind].
  destruct (cache !! u) as [k|] eqn:Hcache.
  { by exists db, cache, k. }
  unfold select_user_key. cbn [mbind option_bind from_option].
  destruct (dim_user db !! u) as [row|] eqn:Hdim.
  - destruct (Hres u row Hdim) as [Hk|[? ?]]; [|congruence].
    cbn [fmap option_fmap option_map truthy_key].
    apply Z.eqb_neq in Hk. rewrite Hk. cbn.
    eexists _, _, _. split_and!; [reflexivity | done | done |].
    intros u' row' Hrow'. destruct (Hres u' row' Hrow') as [?|Hc]; [by left|].
    right. destruct (decide (u = u')) as [->|Hne].
    + rewrite lookup_insert_eq. by eexists.
    + by rewrite lookup_insert_ne.
  - cbn [fmap option_fmap option_map truthy_key insert_user].
    rewrite Hdim. cbn.
    eexists _, _, _. split_and!; [reflexivity | done | done |].
    intros u' row'. cbn [dim_user]. destruct (decide (u = u')) as [->|Hne].
    + intros _. right. rewrite lookup_insert_eq. by eexists.
    + rewrite !lookup_insert_ne by done. exact (Hres u' row').
Qed.

Lemma load_state_change_step_skips (now : datetime) (session : ReportingSession)
    (ucache : gmap string Z) (n : Z) (c : StateChange.t) :
  dim_scenario (txn session) !! StateChange.scenario_id c = None →
  load_state_change_step now (session, ∅, ucache, n) c = Ok (session, ∅, ucache, n).
Proof.
  intros Habsent. unfold load_state_change_step, resolve_scenario_key.
  rewrite lookup_empty. unfold select_scenario_key. by rewrite Habsent.
Qed.

Lemma load_state_change_step_loads (now : datetime) (session : ReportingSession)
    (scache ucache : gmap string Z) (n : Z) (c : StateChange.t) :
  scenario_known (txn session) c → loadable c →
  users_resolvable (txn session) ucache →
  ∃ session' scache' ucache' row,
    load_state_change_step now (session, scache, ucache, n) c
    = Ok (session', scache', ucache', n + 1)
    ∧ facts_of session' = facts_of session ++ [row]
    ∧ fact_matches row c
    ∧ dim_scenario (txn session') = dim_scenario (txn session)
    ∧ users_resolvable (txn session') ucache'.
Proof.
  intros (k & Hk & Hk0) [[u Hu] [cid Hcid]] Hres.
  unfold load_state_change_step.
  assert (Hsc : ∃ scache' key,
    resolve_scenario_key (StateChange.scenario_id c) (txn session) scache
    = Some (scache', key)).
  { unfold resolve_scenario_key.
    destruct (scache !! _); [by eexists _, _|].
    unfold select_scenario_key. rewrite Hk. cbn [truthy_key].
    apply Z.eqb_neq in Hk0. rewrite Hk0. by eexists _, _. }
  destruct Hsc as (scache' & key & ->).
  rewrite Hu.
  destruct (resolve_user_key_ok now u (txn session) ucache Hres)
    as (db' & ucache' & ukey & -> & Hdim & Hfacts & Hres').
  cbn [mbind outcome_bind]. unfold insert_state_change. rewrite Hcid.
  cbn [mbind outcome_bind].
  eexists _, scache', ucache', _. split; [reflexivity|].
  unfold facts_of. rewrite !txn_commit_every. cbn.
  split_and!; [by rewrite Hfacts | by repeat split | done | done].
Qed.

Lemma for_each_skips (now : datetime) (session : ReportingSession)
    (ucache : gmap string Z) (n : Z) (batch : list StateChange.t) :
  (∀ c, c ∈ batch → dim_scenario (txn session) !! StateChange.scenario_id c = None) →
  for_each (load_state_change_step now) (session, ∅, ucache, n) batch
  = Ok (session, ∅, ucache, n).
Proof.
  induction batch as [|c batch IH]; intros Habsent; [done|].
  cbn [for_each]. rewrite load_state_change_step_skips by (apply Habsent; left).
  cbn [mbind outcome_bind]. apply IH. intros c' Hc'. apply Habsent. by right.
Qed.

Lemma for_each_loads (now : datetime) (batch : list StateChange.t) :
  ∀ (session : ReportingSession) (scache ucache : gmap string Z) (n : Z),
    Forall (scenario_known (txn session)) batch → Forall loadable batch →
    users_resolvable (txn session) ucache →
    ∃ session' scache' ucache' rows,
      for_each (load_state_change_step now) (session, scache, ucache, n) batch
      = Ok (session', scache', ucache', n + Z.of_nat (length batch))
      ∧ facts_of session' = facts_of session ++ rows
      ∧ Forall2 fact_matches rows batch.
Proof.
  induction batch as [|c batch IH]; intros session scache ucache n Hknown Hload Hres.
  - exists session, scache, ucache, []. cbn. rewrite Z.add_0_r, app_nil_r.
    split_and!; [done | done | constructor].
  - apply Forall_cons in Hknown as [Hc Hknown]. apply Forall_cons in Hload as [Hl Hload].
    destruct (load_state_change_step_loads now session scache ucache n c Hc Hl Hres)
      as (s1 & sc1 & uc1 & row & Hstep & Hfacts & Hrow & Hdim & Hres1).
    destruct (IH s1 sc1 uc1 (n + 1)) as (s2 & sc2 & uc2 & rows & Hloop & Hfacts2 & Hrows);
      [|done|done|].
    { eapply Forall_impl; [exact Hknown|]. intros c' (k & ? & ?). exists k.
      by rewrite Hdim. }
    exists s2, sc2, uc2, (row :: rows). cbn [for_each]. rewrite Hstep.
    cbn [mbind outcome_bind]. rewrite Hloop. split_and!.
    + do 2 f_equal. cbn [length]. lia.
    + by rewrite Hfacts2, Hfacts, <- app_assoc.
    + by constructor.
Qed.

(** Loading ten records of a scenario missing from the dimension hands
    back 0, the number of rows loaded: the value the caller receives is
    not a skip count of 10. *)
Lemma load_state_changes_returns_loaded_count :
  ¬ (∀ now session batch,
       (∀ c, c ∈ batch →
             dim_scenario (txn session) !! StateChange.scenario_id c = None) →
       ∃ session',
         load_state_changes now session batch
         = Ok (session', Z.of_nat (length batch))
         ∧ persisted_facts session' = facts_of session).
Proof.
  intros H.
  destruct (H 100 (session_of empty_db) c2_batch) as (session' & Hload & _).
  - intros c _. apply lookup_empty.
  - vm_compute in Hload. discriminate.
Qed.

(** C2 (as the code has it): a batch whose records all reference scenario
    ids absent from the scenario dimension persists no fact row and
    returns 0, the loaded count, which is the only value the caller
    receives; a batch whose records all reference scenarios present in the
    dimension (and carry an actor and a correlation id) persists one fact
    row per record, in order, and returns N. *)
Theorem load_state_changes_skips_unknown_scenarios
    (now : datetime) (session : ReportingSession) (batch : list StateChange.t) :
  ((∀ c, c ∈ batch →
         dim_scenario (txn session) !! StateChange.scenario_id c = None) →
   load_state_changes now session batch = Ok (commit session, 0)
   ∧ persisted_facts (commit session) = facts_of session)
  ∧ (Forall (scenario_known (txn session)) batch →
     Forall loadable batch →
     (∀ u row, dim_user (txn session) !! u = Some row → DimUser.user_key row ≠ 0) →
     ∃ session' rows,
       load_state_changes now session batch = Ok (session', Z.of_nat (length batch))
       ∧ persisted_facts session' = facts_of session ++ rows
       ∧ Forall2 fact_matches rows batch).
Proof.
  split.
  - intros Habsent. unfold load_state_changes.
    by rewrite for_each_skips.
  - intros Hknown Hload Husers. unfold load_state_changes.
    destruct (for_each_loads now batch session ∅ ∅ 0 Hknown Hload)
      as (s' & sc & uc & rows & -> & Hfacts & Hrows).
    { intros u row Hrow. left. by eapply Husers. }
    cbn [mbind outcome_bind]. exists (commit s'), rows. split_and!; done.
Qed.

Lemma load_state_changes_skips_unknown_scenarios_witness :
  load_state_changes 100 (session_of empty_db) c2_batch = Ok (session_of empty_db, 0)
  ∧ ∃ session',
      load_state_changes 100 (session_of c2_db_with_scenario) c2_batch
      = Ok (session', 10)
      ∧ length (persisted_facts session') = 10%nat.
Proof.
  split.
  - refine (proj1 (proj1 (load_state_changes_skips_unknown_scenarios
                            100 (session_of empty_db) c2_batch) _)).
    intros c _. apply lookup_empty.
  - destruct (proj2 (load_state_changes_skips_unknown_scenarios
                       100 (session_of c2_db_with_scenario) c2_batch))
      as (session' & rows & Hload & Hfacts & Hrows).
    + apply Forall_forall. intros c Hc. exists 7.
      apply list_elem_of_fmap in Hc as (t & -> & _). done.
    + apply Forall_forall. intros c Hc.
      apply list_elem_of_fmap in Hc as (t & -> & _). split; by eexists.
    + intros u row Hrow.
      change ((∅ : gmap string DimUser.t) !! u = Some row) in Hrow.
      by rewrite lookup_empty in Hrow.
    + exists session'. split; [exact Hload|].
      rewrite Hfacts. change (length rows = 10%nat).
      by rewrite (Forall2_length _ _ _ Hrows).
Defined.

(** ** One user, two records, one invocation *)

Lemma resolve_user_key_cached (now : datetime) (u : string) (db : ReportingDb)
    (cache : gmap string Z) (k : Z) :
  cache !! u = Some k → resolve_user_key now (Some u) db cache = Ok (db, cache, k).
Proof. intros H. unfold resolve_user_key. cbn [mbind option_bind]. by rewrite H. Qed.

Lemma load_user_action_step_resolved (now : datetime) (session : ReportingSession)
    (scache ucache ucache1 : gmap string Z) (n k : Z) (a : UserAction.t)
    (u : string) (db1 : ReportingDb) :
  UserAction.user_id a = Some u →
  resolve_user_key now (Some u) (txn session) ucache = Ok (db1, ucache1, k) →
  is_Some (UserAction.correlation_id a) →
  ∃ session' scache' f,
    load_user_action_step now (session, scache, ucache, n) a
    = Ok (session', scache', ucache1, n + 1)
    ∧ fact_user_action (txn session') = fact_user_action db1 ++ [f]
    ∧ FactUserAction.user_key f = k
    ∧ dim_user (txn session') = dim_user db1.
Proof.
  intros Hu Hres [cid Hcid]. unfold load_user_action_step. rewrite Hu, Hres.
  cbn [mbind outcome_bind].
  destruct (resolve_optional_scenario_key _ _ _) as [scache' sk].
  unfold insert_user_action. rewrite Hcid. cbn [mbind outcome_bind].
  eexists _, scache', _. split; [reflexivity|].
  rewrite !txn_commit_every. cbn. done.
Qed.

Lemma load_state_change_step_resolved (now : datetime) (session : ReportingSession)
    (scache ucache ucache1 : gmap string Z) (n k : Z) (c : StateChange.t)
    (u : string) (db1 : ReportingDb) :
  scenario_known (txn session) c →
  StateChange.changed_by c = Some u →
  resolve_user_key now (Some u) (txn session) ucache = Ok (db1, ucache1, k) →
  is_Some (StateChange.correlation_id c) →
  ∃ session' scache' f,
    load_state_change_step now (session, scache, ucache, n) c
    = Ok (session', scache', ucache1, n + 1)
    ∧ facts_of session' = fact_scenario_state_change db1 ++ [f]
    ∧ FactScenarioStateChange.changed_by_user_key f = k
    ∧ dim_user (txn session') = dim_user db1
    ∧ dim_scenario (txn session') = dim_scenario db1.
Proof.
  intros (sk & Hsk & Hsk0) Hu Hres [cid Hcid]. unfold load_state_change_step.
  assert (Hsc : ∃ scache' key,
    resolve_scenario_key (StateChange.scenario_id c) (txn session) scache
    = Some (scache', key)).
  { unfold resolve_scenario_key.
    destruct (scache !! _); [by eexists _, _|].
    unfold select_scenario_key. rewrite Hsk. cbn [truthy_key].
    apply Z.eqb_neq in Hsk0. rewrite Hsk0. by eexists _, _. }
  destruct Hsc as (scache' & key & ->). rewrite Hu, Hres.
  cbn [mbind outcome_bind]. unfold insert_state_change. rewrite Hcid.
  cbn [mbind outcome_bind].
  eexists _, scache', _. split; [reflexivity|].
  unfold facts_of. rewrite !txn_commit_every. cbn. done.
Qed.

(** C8: resolving a user id that is neither cached nor in the user
    dimension creates one dimension row (the natural key as id and as
    display name) and caches its key; resolving the same id again in the
    same invocation returns the identical key and leaves the database
    unchanged.  Accordingly, either loader given two records of one
    unknown user writes both fact rows with one user key and adds exactly
    one row to the user dimension. *)
Theorem unknown_user_resolved_once :
  (∀ now u db (cache : gmap string Z),
     cache !! u = None → dim_user db !! u = None →
     ∃ db1 cache1 k,
       resolve_user_key now (Some u) db cache = Ok (db1, cache1, k)
       ∧ dim_user db1 = <[u := DimUser.mk k u (Some u) now]> (dim_user db)
       ∧ size (dim_user db1) = S (size (dim_user db))
       ∧ resolve_user_key now (Some u) db1 cache1 = Ok (db1, cache1, k))
  ∧ (∀ now session a1 a2 u,
       UserAction.user_id a1 = Some u → UserAction.user_id a2 = Some u →
       dim_user (txn session) !! u = None →
       is_Some (UserAction.correlation_id a1) →
       is_Some (UserAction.correlation_id a2) →
       ∃ session' f1 f2,
         load_user_actions now session [a1; a2] = Ok (session', 2)
         ∧ fact_user_action (committed session')
           = fact_user_action (txn session) ++ [f1; f2]
         ∧ FactUserAction.user_key f1 = FactUserAction.user_key f2
         ∧ dim_user (committed session')
           = <[u := DimUser.mk (FactUserAction.user_key f1) u (Some u) now]>
               (dim_user (txn session))
         ∧ size (dim_user (committed session')) = S (size (dim_user (txn session))))
  ∧ (∀ now session c1 c2 u,
       scenario_known (txn session) c1 → scenario_known (txn session) c2 →
       StateChange.changed_by c1 = Some u → StateChange.changed_by c2 = Some u →
       dim_user (txn session) !! u = None →
       is_Some (StateChange.correlation_id c1) →
       is_Some (StateChange.correlation_id c2) →
       ∃ session' f1 f2,
         load_state_changes now session [c1; c2] = Ok (session', 2)
         ∧ persisted_facts session' = facts_of session ++ [f1; f2]
         ∧ FactScenarioStateChange.changed_by_user_key f1
           = FactScenarioStateChange.changed_by_user_key f2
         ∧ dim_user (committed session')
           = <[u := DimUser.mk (FactScenarioStateChange.changed_by_user_key f1)
                      u (Some u) now]>
               (dim_user (txn session))
         ∧ size (dim_user (committed session')) = S (size (dim_user (txn session)))).
Proof.
  split_and!.
  - intros now u db cache Hcache Hdim.
    destruct (resolve_unknown_user_key now u db cache Hcache Hdim)
      as (db1 & cache1 & k & H1 & H2 & H3 & H4 & _).
    by exists db1, cache1, k.
  - intros now session a1 a2 u Hu1 Hu2 Hdim Hc1 Hc2.
    destruct (resolve_unknown_user_key now u (txn session) ∅ (lookup_empty _) Hdim)
      as (db1 & cache1 & k & Hfirst & Hrows & Hsize & _ & Hcache1 & _ & _ & Hfacts).
    destruct (load_user_action_step_resolved now session ∅ ∅ cache1 0 k a1 u db1
                Hu1 Hfirst Hc1) as (s1 & sc1 & f1 & Hstep1 & Hf1 & Hk1 & Hd1).
    assert (Hsecond : resolve_user_key now (Some u) (txn s1) cache1
                      = Ok (txn s1, cache1, k)).
    { apply resolve_user_key_cached. subst cache1. apply lookup_insert_eq. }
    destruct (load_user_action_step_resolved now s1 sc1 cache1 cache1 (0 + 1) k a2 u
                (txn s1) Hu2 Hsecond Hc2) as (s2 & sc2 & f2 & Hstep2 & Hf2 & Hk2 & Hd2).
    exists (commit s2), f1, f2. unfold load_user_actions. cbn [for_each].
    rewrite Hstep1. cbn [mbind outcome_bind]. rewrite Hstep2. cbn [mbind outcome_bind].
    cbn [commit committed]. split_and!.
    + reflexivity.
    + by rewrite Hf2, Hf1, Hfacts, <- app_assoc.
    + congruence.
    + by rewrite Hd2, Hd1, Hrows, Hk1.
    + by rewrite Hd2, Hd1.
  - intros now session c1 c2 u Hs1 Hs2 Hu1 Hu2 Hdim Hc1 Hc2.
    destruct (resolve_unknown_user_key now u (txn session) ∅ (lookup_empty _) Hdim)
      as (db1 & cache1 & k & Hfirst & Hrows & Hsize & _ & Hcache1 & Hscen & Hfacts & _).
    destruct (load_state_change_step_resolved now session ∅ ∅ cache1 0 k c1 u db1
                Hs1 Hu1 Hfirst Hc1) as (s1 & sc1 & f1 & Hstep1 & Hf1 & Hk1 & Hd1 & Hsc1).
    assert (Hsecond : resolve_user_key now (Some u) (txn s1) cache1
                      = Ok (txn s1, cache1, k)).
    { apply resolve_user_key_cached. subst cache1. apply lookup_insert_eq. }
    assert (Hs2' : scenario_known (txn s1) c2).
    { destruct Hs2 as (sk & ? & ?). exists sk. by rewrite Hsc1, Hscen. }
    destruct (load_state_change_step_resolved now s1 sc1 cache1 cache1 (0 + 1) k c2 u
                (txn s1) Hs2' Hu2 Hsecond Hc2)
      as (s2 & sc2 & f2 & Hstep2 & Hf2 & Hk2 & Hd2 & _).
    exists (commit s2), f1, f2. unfold load_state_changes. cbn [for_each].
    rewrite Hstep1. cbn [mbind outcome_bind]. rewrite Hstep2. cbn [mbind outcome_bind].
    unfold persisted_facts. cbn [commit committed]. split_and!.
    + reflexivity.
    + unfold facts_of in *. by rewrite Hf2, Hf1, Hfacts, <- app_assoc.
    + congruence.
    + by rewrite Hd2, Hd1, Hrows, Hk1.
    + by rewrite Hd2, Hd1.
Qed.

Lemma unknown_user_resolved_once_witness :
  ∃ db1 cache1 k,
    resolve_user_key 100 (Some "ana") empty_db ∅ = Ok (db1, cache1, k)
    ∧ size (dim_user db1) = 1%nat
    ∧ resolve_user_key 100 (Some "ana") db1 cache1 = Ok (db1, cache1, k).
Proof.
  destruct (proj1 unknown_user_resolved_once 100 "ana" empty_db ∅
              (lookup_empty _) eq_refl)
    as (db1 & cache1 & k & H1 & _ & Hsize & H2).
  exists db1, cache1, k. auto.
Defined.

(** * Further properties of the extractors *)

(** Membership in a list written out. *)
Ltac in_list :=
  first [apply list_elem_of_here | apply list_elem_of_further; in_list].

Lemma elem_of_transition_at (at_ : option datetime) (mk : datetime → StateChange.t)
    (r : StateChange.t) :
  r ∈ transition_at at_ mk ↔ ∃ t, at_ = Some t ∧ r = mk t.
Proof.
  destruct at_ as [t|]; simpl.
  - rewrite list_elem_of_singleton. split.
    + intros ->. by exists t.
    + by intros (t' & [= <-] & ->).
  - rewrite elem_of_nil. split; [done|]. by intros (t & ? & _).
Qed.

Lemma length_transition_at (at_ : option datetime) (mk : datetime → StateChange.t) :
  length (transition_at at_ mk) = length (omap (fun t => t) [at_]).
Proof. by destruct at_. Qed.

(** X1: the reconstructor emits one transition per lifecycle timestamp
    that is set, so at most five and none for a blank entity, and the
    transitions of one scenario come out in ascending changed_at order. *)
Theorem state_changes_one_per_timestamp (s : FcScenario.t) :
  length (scenario_state_changes s) = lifecycle_count s
  ∧ (length (scenario_state_changes s) ≤ 5)%nat
  ∧ (Forall (fun t => t = None) (lifecycle_timestamps s) →
     scenario_state_changes s = [])
  ∧ StronglySorted (key_le StateChange.changed_at) (scenario_state_changes s).
Proof.
  assert (Hlen : length (scenario_state_changes s) = lifecycle_count s).
  { unfold scenario_state_changes, scenario_transitions, lifecycle_count,
      lifecycle_timestamps.
    rewrite sort_by_length, !length_app, !length_transition_at.
    destruct (FcScenario.created_at s), (FcScenario.submitted_at s),
      (FcScenario.locked_at s), (FcScenario.withdraw_at s),
      (FcScenario.delete_at s); reflexivity. }
  split_and!; [done | | | apply sort_by_sorted].
  - rewrite Hlen. unfold lifecycle_count, lifecycle_timestamps.
    destruct (FcScenario.created_at s), (FcScenario.submitted_at s),
      (FcScenario.locked_at s), (FcScenario.withdraw_at s),
      (FcScenario.delete_at s); simpl; lia.
  - intros Hnone. apply length_zero_iff_nil. rewrite Hlen.
    unfold lifecycle_count, lifecycle_timestamps in *.
    repeat (apply Forall_cons in Hnone as [-> Hnone]). reflexivity.
Qed.

Lemma state_changes_one_per_timestamp_witness :
  scenario_state_changes blank_scenario = [].
Proof.
  apply (state_changes_one_per_timestamp blank_scenario).
  repeat constructor.
Defined.

Lemma elem_of_extract_state_changes (session : Session) (since : option datetime)
    (scenario_ids : option (list uuid)) (r : StateChange.t) :
  r ∈ extract_scenario_state_changes session since scenario_ids
  ↔ ∃ s, s ∈ fc_scenario session
         ∧ state_change_since since s = true
         ∧ where_ids (FcScenario.id s) scenario_ids = true
         ∧ r ∈ scenario_transitions s.
Proof.
  unfold extract_scenario_state_changes, state_change_query.
  rewrite list_elem_of_In, in_concat. split.
  - intros (l & Hl & Hr). apply in_map_iff in Hl as (s & <- & Hs).
    apply filter_In in Hs as [Hs Hf]. apply andb_prop in Hf as [? ?].
    exists s. split_and!; [by apply list_elem_of_In | done | done |].
    apply (sort_by_elem_of StateChange.changed_at). by apply list_elem_of_In.
  - intros (s & Hs & Hsince & Hids & Hr). exists (scenario_state_changes s). split.
    + apply in_map, filter_In. split; [by apply list_elem_of_In|].
      by rewrite Hsince, Hids.
    + apply list_elem_of_In. by apply sort_by_elem_of.
Qed.

(** X2: every state change the extractor emits carries one of the five
    (transition_type, new_status) pairs, has a null previous_status
    exactly when it is the "created" transition, has no change_reason and
    bears the id of a scenario row of the source table. *)
Theorem state_change_record_shape (session : Session) (since : option datetime)
    (scenario_ids : option (list uuid)) (r : StateChange.t) :
  r ∈ extract_scenario_state_changes session since scenario_ids →
  (StateChange.transition_type r, StateChange.new_status r) ∈ transition_kinds
  ∧ (StateChange.previous_status r = None ↔ StateChange.transition_type r = "created")
  ∧ StateChange.change_reason r = None
  ∧ ∃ s, s ∈ fc_scenario session ∧ StateChange.scenario_id r = FcScenario.id s.
Proof.
  intros (s & Hs & _ & _ & Hr)%elem_of_extract_state_changes.
  unfold scenario_transitions in Hr. rewrite !elem_of_app in Hr.
  rewrite !elem_of_transition_at in Hr.
  unfold transition_kinds.
  destruct Hr as [(t & _ & ->)|[(t & _ & ->)|[(t & _ & ->)|[(t & _ & ->)|(t & _ & ->)]]]];
    cbn; (split_and!; [in_list | done | done | by exists s]).
Qed.

Lemma state_change_record_shape_witness :
  StateChange.previous_status c1_created = None
  ↔ StateChange.transition_type c1_created = "created".
Proof.
  refine (proj1 (proj2 (state_change_record_shape c1_session None None c1_created _))).
  vm_compute. in_list.
Defined.

(** X3: with a cutoff, every emitted state change belongs to a scenario
    row one of whose six compared columns (the five lifecycle timestamps
    and updated_at) is at or after the cutoff; the record's own changed_at
    is one of that row's lifecycle timestamps. *)
Theorem state_changes_cutoff_selects_rows (session : Session) (d : datetime)
    (scenario_ids : option (list uuid)) (r : StateChange.t) :
  r ∈ extract_scenario_state_changes session (Some d) scenario_ids →
  ∃ s, s ∈ fc_scenario session
       ∧ StateChange.scenario_id r = FcScenario.id s
       ∧ Some (StateChange.changed_at r) ∈ lifecycle_timestamps s
       ∧ ∃ t, Some t ∈ cutoff_columns s ∧ d ≤ t.
Proof.
  intros (s & Hs & Hsince & _ & Hr)%elem_of_extract_state_changes.
  exists s. split; [done|].
  assert (Hcol : ∃ t, Some t ∈ cutoff_columns s ∧ d ≤ t).
  { unfold state_change_since in Hsince. unfold cutoff_columns, lifecycle_timestamps.
    rewrite !orb_true_iff in Hsince. unfold ge_since in Hsince.
    destruct Hsince as [[[[[H|H]|H]|H]|H]|H];
      match type of H with
      | match ?c with _ => _ end = true =>
          destruct c as [t|] eqn:Hc; [|done]; exists t; split; [|lia]
      end; cbn [app]; in_list. }
  unfold scenario_transitions in Hr. rewrite !elem_of_app in Hr.
  rewrite !elem_of_transition_at in Hr. unfold lifecycle_timestamps.
  destruct Hr as [(t & Ht & ->)|[(t & Ht & ->)|[(t & Ht & ->)|[(t & Ht & ->)|(t & Ht & ->)]]]];
    cbn; rewrite <- Ht; (split_and!; [done | in_list | done]).
Qed.

Lemma state_changes_cutoff_selects_rows_witness :
  ∃ s, s ∈ fc_scenario c1_session
       ∧ StateChange.scenario_id c1_created = FcScenario.id s
       ∧ Some (StateChange.changed_at c1_created) ∈ lifecycle_timestamps s
       ∧ ∃ t, Some t ∈ cutoff_columns s ∧ 5 ≤ t.
Proof.
  apply (state_changes_cutoff_selects_rows c1_session 5 None c1_created).
  vm_compute. in_list.
Defined.

Lemma where_ids_elem (x : uuid) (ids : list uuid) :
  ids ≠ [] → where_ids x (Some ids) = true → x ∈ ids.
Proof.
  intros Hne. unfold where_ids, in_ids. destruct ids as [|y ids]; [done|].
  simpl. by intros ?%bool_decide_eq_true.
Qed.

Lemma elem_of_extract_user_actions (session : Session) (since : option datetime)
    (user_ids : option (list string)) (scenario_ids : option (list uuid))
    (a : UserAction.t) :
  a ∈ extract_user_actions session since user_ids scenario_ids →
  (∃ s, s ∈ fc_scenario session
        ∧ where_ids (FcScenario.id s) scenario_ids = true
        ∧ UserAction.scenario_id a = Some (FcScenario.id s)
        ∧ a ∈ scenario_actions since s)
  ∨ (∃ r, r ∈ fc_scenario_node_data session
          ∧ where_ids (FcScenarioNodeData.scenario_id r) scenario_ids = true
          ∧ a = input_action r)
  ∨ (∃ r, r ∈ fc_scenario_run session
          ∧ where_ids (FcScenarioRun.scenario_id r) scenario_ids = true
          ∧ a = run_action r).
Proof.
  unfold extract_user_actions. rewrite !elem_of_app. intros [H|[H|H]].
  - left. apply list_elem_of_In, in_concat in H as (l & Hl & Ha).
    apply in_map_iff in Hl as (s & <- & Hs).
    apply filter_In in Hs as [Hs Hf]. apply andb_prop in Hf as [_ Hids].
    apply list_elem_of_In in Ha, Hs. exists s. split_and!; try done.
    unfold scenario_actions in Ha. rewrite !elem_of_app in Ha.
    destruct Ha as [Ha|[Ha|Ha]]; revert Ha;
      repeat match goal with
             | |- context [match ?c with _ => _ end] => destruct c
             end;
      rewrite ?elem_of_nil, ?list_elem_of_singleton; try done; by intros ->.
  - right; left. apply list_elem_of_fmap in H as (r & -> & Hr).
    apply list_elem_of_In, filter_In in Hr as [Hr Hf].
    apply andb_prop in Hf as [_ Hids]. exists r. by rewrite list_elem_of_In.
  - right; right. apply list_elem_of_fmap in H as (r & -> & Hr).
    apply list_elem_of_In, filter_In in Hr as [Hr Hf].
    apply andb_prop in Hf as [_ Hids]. exists r. by rewrite list_elem_of_In.
Qed.

(** X4: a non-empty scenario_ids list restricts both extractors to
    records of the listed scenarios, whereas an empty list is treated like
    an omitted one and filters nothing. *)
Theorem scenario_ids_filter (session : Session) (since : option datetime)
    (user_ids : option (list string)) :
  (∀ ids r, ids ≠ [] →
     r ∈ extract_scenario_state_changes session since (Some ids) →
     StateChange.scenario_id r ∈ ids)
  ∧ (∀ ids a, ids ≠ [] →
       a ∈ extract_user_actions session since user_ids (Some ids) →
       ∃ sid, UserAction.scenario_id a = Some sid ∧ sid ∈ ids)
  ∧ extract_scenario_state_changes session since (Some [])
    = extract_scenario_state_changes session since None
  ∧ extract_user_actions session since user_ids (Some [])
    = extract_user_actions session since user_ids None.
Proof.
  split_and!; [| |reflexivity|reflexivity].
  - intros ids r Hne Hr.
    apply elem_of_extract_state_changes in Hr as (s & _ & _ & Hids & Hr).
    apply where_ids_elem in Hids; [|done].
    unfold scenario_transitions in Hr. rewrite !elem_of_app in Hr.
    rewrite !elem_of_transition_at in Hr.
    by destruct Hr as
      [(t & _ & ->)|[(t & _ & ->)|[(t & _ & ->)|[(t & _ & ->)|(t & _ & ->)]]]].
  - intros ids a Hne Ha.
    apply elem_of_extract_user_actions in Ha
      as [(s & _ & Hids & Hsid & _)|[(r & _ & Hids & ->)|(r & _ & Hids & ->)]];
      apply where_ids_elem in Hids; try done; eexists; split; try done; done.
Qed.

Lemma scenario_ids_filter_witness :
  StateChange.scenario_id c1_submitted ∈ ["s-1"; "s-2"].
Proof.
  refine (proj1 (scenario_ids_filter sample_session None None)
            ["s-1"; "s-2"] c1_submitted _ _); [done|].
  vm_compute. in_list.
Defined.

Lemma filter_concat {A} (f : A → bool) (ls : list (list A)) :
  List.filter f (concat ls) = concat (map (List.filter f) ls).
Proof.
  induction ls as [|l ls IH]; [done|]. simpl. by rewrite List.filter_app, IH.
Qed.

Lemma scenario_actions_cutoff (d : datetime) (s : FcScenario.t) :
  scenario_actions (Some d) s
  = List.filter (at_or_after d) (scenario_actions None s).
Proof.
  unfold scenario_actions. rewrite !List.filter_app. unfold at_or_after.
  destruct (FcScenario.created_at s) as [c|], (FcScenario.updated_at s) as [u|],
    (FcScenario.submitted_at s) as [b|];
    repeat case_bool_decide; cbn;
    repeat match goal with
           | |- context [?x <=? ?y] => destruct (x <=? y)
           end; reflexivity.
Qed.

Lemma scenario_actions_unselected (d : datetime) (s : FcScenario.t) :
  scenario_action_since (Some d) s = false → scenario_actions (Some d) s = [].
Proof.
  unfold scenario_action_since, scenario_actions, ge_since, since_ok.
  rewrite !orb_false_iff. intros [[[Hc Hu] Hs] _].
  destruct (FcScenario.created_at s) as [c|], (FcScenario.updated_at s) as [u|],
    (FcScenario.submitted_at s) as [b|];
    rewrite ?Hc, ?Hu, ?Hs; by repeat case_bool_decide.
Qed.

(** X5: for the action extractor an incremental extract is the full
    extract restricted to the cutoff: with cutoff d it yields, in the same
    order, exactly the actions of the cutoff-free extract whose
    action_timestamp is at or after d. *)
Theorem user_actions_incremental_is_filtered_full (session : Session) (d : datetime)
    (user_ids : option (list string)) (scenario_ids : option (list uuid)) :
  extract_user_actions session (Some d) user_ids scenario_ids
  = List.filter (fun a => d <=? UserAction.action_timestamp a)
      (extract_user_actions session None user_ids scenario_ids).
Proof.
  unfold extract_user_actions. rewrite !List.filter_app. f_equal; [|f_equal].
  - unfold scenario_action_query. rewrite filter_concat.
    induction (fc_scenario session) as [|s rows IH]; [done|].
    cbn [List.filter]. change (scenario_action_since None s) with true.
    cbn [andb]. destruct (where_ids (FcScenario.id s) scenario_ids).
    + rewrite andb_true_r. cbn [map concat].
      destruct (scenario_action_since (Some d) s) eqn:Hsel.
      * cbn [map concat]. by rewrite IH, scenario_actions_cutoff.
      * rewrite IH. fold (at_or_after d).
        rewrite <- scenario_actions_cutoff. by rewrite scenario_actions_unselected.
    + rewrite andb_false_r. exact IH.
  - unfold input_action_query.
    induction (fc_scenario_node_data session) as [|r rows IH]; [done|].
    cbn [List.filter].
    change (since_ok None (FcScenarioNodeData.created_at r)) with true.
    destruct (where_ids (FcScenarioNodeData.scenario_id r) scenario_ids).
    + rewrite andb_true_r. cbn [andb map List.filter].
      change (d <=? UserAction.action_timestamp (input_action r))
        with (since_ok (Some d) (FcScenarioNodeData.created_at r)).
      destruct (since_ok (Some d) (FcScenarioNodeData.created_at r));
        cbn [map]; by rewrite IH.
    + rewrite !andb_false_r. exact IH.
  - unfold run_action_query.
    induction (fc_scenario_run session) as [|r rows IH]; [done|].
    cbn [List.filter].
    change (since_ok None (FcScenarioRun.run_at r)) with true.
    destruct (where_ids (FcScenarioRun.scenario_id r) scenario_ids).
    + rewrite andb_true_r. cbn [andb map List.filter].
      change (d <=? UserAction.action_timestamp (run_action r))
        with (since_ok (Some d) (FcScenarioRun.run_at r)).
      destruct (since_ok (Some d) (FcScenarioRun.run_at r));
        cbn [map]; by rewrite IH.
    + rewrite !andb_false_r. exact IH.
Qed.

(** ** The input-change sequencer, continued *)

Lemma StronglySorted_filter_bool {A} (R : A → A → Prop) (f : A → bool) (l : list A) :
  StronglySorted R l → StronglySorted R (List.filter f l).
Proof.
  induction 1 as [|x l Hl IH Hx]; simpl; [constructor|].
  destruct (f x); [|done]. constructor; [done|].
  apply Forall_forall. intros y Hy%list_elem_of_In%filter_In.
  rewrite Forall_forall in Hx. apply Hx, list_elem_of_In, Hy.
Qed.

Lemma StronglySorted_lookup_lt {A} (R : A → A → Prop) (l : list A) (i j : nat) (x y : A) :
  StronglySorted R l → l !! i = Some x → l !! j = Some y → (i < j)%nat → R x y.
Proof.
  intros Hl. revert i j. induction Hl as [|z l Hl IH Hz]; intros i j Hi Hj Hij; [done|].
  destruct j as [|j]; [lia|]. destruct i as [|i].
  - injection Hi as ->. rewrite Forall_forall in Hz.
    apply Hz. eapply list_elem_of_lookup_2. exact Hj.
  - apply (IH i j); [done | done | lia].
Qed.

Lemma sequence_from_fields (sid : uuid) (records : list FcScenarioNodeData.t)
    (node_sequences : gmap string nat) (c : InputChange.t) :
  c ∈ sequence_from sid node_sequences records →
  InputChange.scenario_id c = sid ∧ InputChange.is_duplicate c = false.
Proof.
  revert node_sequences. induction records as [|r rs IH]; intros ns.
  - by intros ?%elem_of_nil.
  - cbn [sequence_from sequence_step fst snd app].
    intros [->|Hc]%elem_of_cons; [done | by eapply IH].
Qed.

Lemma input_change_sequence_sorted (session : Session) (sid : uuid) :
  StronglySorted (key_le InputChange.changed_at)
    (extract_input_change_sequence session sid).
Proof.
  unfold extract_input_change_sequence.
  pose proof (sort_by_sorted FcScenarioNodeData.created_at
    (List.filter (fun r => bool_decide (FcScenarioNodeData.scenario_id r = sid))
       (fc_scenario_node_data session))) as Hsorted.
  fold (input_change_query session sid) in Hsorted.
  rewrite sequence_records_from.
  assert (Hrows : map InputChange.changed_at
                    (sequence_from sid ∅ (input_change_query session sid))
                  = map FcScenarioNodeData.created_at (input_change_query session sid)).
  { pose proof (sequence_from_rows sid (input_change_query session sid) ∅) as H.
    apply (f_equal (map (fun p => p.2))) in H. rewrite !map_map in H. exact H. }
  revert Hsorted Hrows.
  generalize (sequence_from sid ∅ (input_change_query session sid)).
  induction (input_change_query session sid) as [|r rs IH]; intros out Hsorted Hrows.
  - destruct out; [constructor | done].
  - destruct out as [|c out]; [done|]. injection Hrows as Hc Hrows.
    apply StronglySorted_inv in Hsorted as [Hrs Hr].
    constructor; [by apply IH|].
    apply Forall_forall. intros c' Hc'.
    apply (list_elem_of_fmap_2 InputChange.changed_at) in Hc'.
    change (InputChange.changed_at c' ∈ map InputChange.changed_at out) in Hc'.
    rewrite Hrows in Hc'. apply list_elem_of_fmap in Hc' as (r' & Heq & Hr').
    rewrite Forall_forall in Hr. specialize (Hr r' Hr').
    unfold key_le in *. lia.
Qed.

(** X6: the sequencer returns one record per node-data row of the
    scenario, in ascending changed_at order; every record bears the
    requested scenario id, a sequence number of at least 1, and
    is_duplicate = false whatever the hashes are. *)
Theorem input_change_sequence_records (session : Session) (sid : uuid) :
  length (extract_input_change_sequence session sid)
  = length (List.filter
              (fun r => bool_decide (FcScenarioNodeData.scenario_id r = sid))
              (fc_scenario_node_data session))
  ∧ StronglySorted (key_le InputChange.changed_at)
      (extract_input_change_sequence session sid)
  ∧ ∀ c, c ∈ extract_input_change_sequence session sid →
         InputChange.scenario_id c = sid
         ∧ InputChange.is_duplicate c = false
         ∧ (1 ≤ InputChange.change_sequence c)%nat.
Proof.
  split_and!.
  - unfold extract_input_change_sequence. rewrite sequence_records_from.
    pose proof (sequence_from_rows sid (input_change_query session sid) ∅) as Hrows.
    apply (f_equal length) in Hrows. rewrite !length_map in Hrows.
    rewrite Hrows. unfold input_change_query. apply sort_by_length.
  - apply input_change_sequence_sorted.
  - intros c Hc. unfold extract_input_change_sequence in Hc.
    rewrite sequence_records_from in Hc.
    destruct (sequence_from_fields _ _ _ _ Hc) as [Hs Hd]. split_and!; [done|done|].
    pose proof (sequence_from_node sid (InputChange.model_node_id c)
                  (input_change_query session sid) ∅) as Hseq.
    assert (Hin : InputChange.change_sequence c
                  ∈ map InputChange.change_sequence
                      (of_node (InputChange.model_node_id c)
                         (sequence_from sid ∅ (input_change_query session sid)))).
    { apply list_elem_of_fmap_2, list_elem_of_In, filter_In.
      split; [by apply list_elem_of_In | by apply bool_decide_eq_true]. }
    rewrite Hseq in Hin. apply list_elem_of_In, in_seq in Hin. lia.
Qed.

(** X7: within one node the sequence numbers follow time and identify
    the edit: of two returned changes of the same node, the one with the
    smaller change_sequence has the earlier or equal changed_at, and two
    changes with the same change_sequence are the same record. *)
Theorem change_sequence_follows_time (session : Session) (sid : uuid)
    (c1 c2 : InputChange.t) :
  c1 ∈ extract_input_change_sequence session sid →
  c2 ∈ extract_input_change_sequence session sid →
  InputChange.model_node_id c1 = InputChange.model_node_id c2 →
  ((InputChange.change_sequence c1 < InputChange.change_sequence c2)%nat →
   InputChange.changed_at c1 ≤ InputChange.changed_at c2)
  ∧ (InputChange.change_sequence c1 = InputChange.change_sequence c2 → c1 = c2).
Proof.
  intros H1 H2 Hnode.
  set (n := InputChange.model_node_id c2) in *.
  set (out := extract_input_change_sequence session sid) in *.
  assert (Hseq : map InputChange.change_sequence (of_node n out)
                 = seq 1 (length (rows_of_node n (input_change_query session sid)))).
  { unfold out, extract_input_change_sequence.
    by rewrite sequence_records_from, sequence_from_node. }
  assert (Hsorted : StronglySorted (key_le InputChange.changed_at) (of_node n out)).
  { apply StronglySorted_filter_bool, input_change_sequence_sorted. }
  assert (Hidx : ∀ c, c ∈ out → InputChange.model_node_id c = n →
            ∃ i, of_node n out !! i = Some c ∧ InputChange.change_sequence c = S i).
  { intros c Hc Hn.
    assert (Hin : c ∈ of_node n out).
    { apply list_elem_of_In, filter_In.
      split; [by apply list_elem_of_In | by apply bool_decide_eq_true]. }
    apply list_elem_of_lookup in Hin as [i Hi]. exists i. split; [done|].
    pose proof (f_equal (fun l => l !! i) Hseq) as Hl. cbn beta in Hl.
    rewrite list_lookup_fmap, Hi in Hl. cbn in Hl. symmetry in Hl.
    apply lookup_seq in Hl as [-> _]. done. }
  destruct (Hidx c1 H1 Hnode) as (i & Hi & Hsi).
  destruct (Hidx c2 H2 eq_refl) as (j & Hj & Hsj).
  rewrite Hsi, Hsj. split.
  - intros Hlt. apply (StronglySorted_lookup_lt _ _ i j _ _ Hsorted Hi Hj). lia.
  - intros [= ->]. congruence.
Qed.

Lemma change_sequence_follows_time_witness :
  InputChange.changed_at sample_change_1 ≤ InputChange.changed_at sample_change_2.
Proof.
  refine (proj1 (change_sequence_follows_time sample_session "s-1"
                   sample_change_1 sample_change_2 _ _ eq_refl) _);
    [vm_compute; in_list | vm_compute; in_list | vm_compute; lia].
Defined.

Lemma input_change_sequence_records_witness :
  InputChange.scenario_id sample_change_2 = "s-1"
  ∧ InputChange.is_duplicate sample_change_2 = false
  ∧ (1 ≤ InputChange.change_sequence sample_change_2)%nat.
Proof.
  refine (proj2 (proj2 (input_change_sequence_records sample_session "s-1"))
            sample_change_2 _).
  vm_compute. in_list.
Defined.

(** * Further properties of the transformers *)

(** X8: the journey holds one event per state change, per action and per
    input change, and for every run one start event plus one completion
    event when, and only when, the run has a run_ended_at. *)
Theorem journey_event_count
    (state_changes : list StateChange.t) (user_actions : list UserAction.t)
    (input_changes : list InputChange.t) (runs : list Run.t) :
  length (reconstruct_user_journey state_changes user_actions input_changes runs)
  = (length state_changes + length user_actions + length input_changes
     + length runs + length (omap Run.run_ended_at runs))%nat
  ∧ length (List.filter (fun e => bool_decide (Event.event_type e = "run_completed"))
              (journey_timeline state_changes user_actions input_changes runs))
    = length (omap Run.run_ended_at runs).
Proof.
  assert (Hruns : length (concat (map run_events runs))
                  = (length runs + length (omap Run.run_ended_at runs))%nat).
  { induction runs as [|r runs IH]; [done|].
    cbn [map concat omap list_omap]. rewrite length_app, IH. unfold run_events.
    destruct (Run.run_ended_at r); simpl; lia. }
  split.
  - unfold reconstruct_user_journey, journey_timeline.
    rewrite sort_by_length, !length_app, !length_map, Hruns. lia.
  - unfold journey_timeline. rewrite !List.filter_app, !length_app.
    assert (H1 : List.filter (fun e => bool_decide (Event.event_type e = "run_completed"))
                   (map state_change_event state_changes) = []).
    { induction state_changes as [|x l IH]; [done|]. simpl. exact IH. }
    assert (H2 : List.filter (fun e => bool_decide (Event.event_type e = "run_completed"))
                   (map user_action_event user_actions) = []).
    { induction user_actions as [|x l IH]; [done|]. simpl. exact IH. }
    assert (H3 : List.filter (fun e => bool_decide (Event.event_type e = "run_completed"))
                   (map input_change_event input_changes) = []).
    { induction input_changes as [|x l IH]; [done|]. simpl. exact IH. }
    rewrite H1, H2, H3. cbn [length Nat.add]. clear.
    induction runs as [|r runs IH]; [done|].
    cbn [map concat omap list_omap]. rewrite List.filter_app, length_app, IH.
    unfold run_events. destruct (Run.run_ended_at r); reflexivity.
Qed.

(** X9: in a user-action event the entries of action_details are spread
    last, so a key present in action_details wins over the base entry of
    the same name (action_type, target_entity_type, target_entity_id,
    success), and every other key keeps its base value. *)
Theorem user_action_metadata_override (action : UserAction.t)
    (details : gmap string pyval) (k : string) :
  UserAction.action_details action = Some details →
  Event.event_metadata (user_action_event action) !! k
  = match details !! k with
    | Some v => Some v
    | None => user_action_base_metadata action !! k
    end.
Proof.
  intros Hd. unfold user_action_event. cbn [Event.event_metadata]. rewrite Hd.
  change (default ∅ (Some details)) with details.
  fold (user_action_base_metadata action).
  rewrite lookup_union.
  by destruct (details !! k), (user_action_base_metadata action !! k).
Qed.

Lemma user_action_metadata_override_witness :
  Event.event_metadata (user_action_event overriding_action) !! "success"
  = Some (PBool false).
Proof.
  exact (user_action_metadata_override overriding_action
           (dict [("success", PBool false)]) "success" eq_refl).
Defined.

Lemma size_list_to_set_le (l : list string) :
  (size (list_to_set l : gset string) ≤ length l)%nat.
Proof.
  induction l as [|x l IH]; [done|]. cbn [list_to_set length].
  rewrite size_union_alt, size_singleton.
  pose proof (subseteq_size (list_to_set l ∖ {[x]}) (list_to_set l : gset string)) as H.
  assert (list_to_set l ∖ {[x]} ⊆ (list_to_set l : gset string)) as Hsub
    by (intros y Hy; apply elem_of_difference in Hy as [? _]; done).
  specialize (H Hsub). lia.
Qed.

(** X10: whenever the differ returns a diff, the target entry bears the
    requested run id, the baseline entry has status "success", the time
    gap is strictly positive, input_changes_between is the length of
    changes_detail, every detail lies in (baseline start, target start],
    and changed_node_ids lists distinct ids, no more than there are
    changes. *)
Theorem run_context_diff_consistent (sid tid : uuid) (all_runs : list Run.t)
    (input_changes : list InputChange.t) (d : ContextDiff.t) :
  identify_run_context_changes sid tid all_runs input_changes = RunContext d →
  RunInfo.run_id (ContextDiff.target_run d) = str_uuid tid
  ∧ RunInfo.status (ContextDiff.previous_successful_run d) = "success"
  ∧ 0 < ContextDiff.time_gap_seconds d
  ∧ ContextDiff.time_gap_seconds d
    = RunInfo.started_at (ContextDiff.target_run d)
      - RunInfo.started_at (ContextDiff.previous_successful_run d)
  ∧ ContextDiff.input_changes_between d = length (ContextDiff.changes_detail d)
  ∧ Forall (fun cd =>
              RunInfo.started_at (ContextDiff.previous_successful_run d)
              < ChangeDetail.changed_at cd
              ∧ ChangeDetail.changed_at cd
                ≤ RunInfo.started_at (ContextDiff.target_run d))
           (ContextDiff.changes_detail d)
  ∧ NoDup (ContextDiff.changed_node_ids d)
  ∧ (length (ContextDiff.changed_node_ids d) ≤ ContextDiff.input_changes_between d)%nat.
Proof.
  unfold identify_run_context_changes.
  destruct (find_target _ _) as [target|] eqn:Ht; [|done].
  destruct (find_previous_successful _ _) as [p|] eqn:Hp; [|done].
  intros [= <-]. cbn.
  apply find_some in Ht as [_ Ht]. apply bool_decide_eq_true in Ht.
  apply find_some in Hp as [_ Hp]. apply eligible_baseline_test in Hp as [Hst Hlt].
  split_and!; [by rewrite Ht | done | lia | done | by rewrite length_map | |
               apply NoDup_elements |].
  - apply Forall_forall. intros cd Hcd.
    apply list_elem_of_fmap in Hcd as (c & -> & Hc).
    apply elem_of_changes_between in Hc as (_ & ? & ?). by cbn.
  - change (length (elements ?X)) with (size X).
    etrans; [apply size_list_to_set_le|]. by rewrite length_map.
Qed.

Lemma run_context_diff_consistent_witness :
  0 < ContextDiff.time_gap_seconds c6_diff
  ∧ NoDup (ContextDiff.changed_node_ids c6_diff).
Proof.
  destruct (run_context_diff_consistent "s-1" "run-2"
              [c6_run "run-0" "success" 10; c6_run "run-1" "failed" 20;
               c6_run "run-2" "failed" 30]
              [c6_change] c6_diff)
    as (_ & _ & Hgap & _ & _ & _ & Hnodup & _); [vm_compute; reflexivity|].
  by split.
Defined.

(** X11: the differ answers "Target run not found" exactly when no run
    of the given scenario bears the target id; runs of other scenarios
    with that id do not count. *)
Theorem run_context_error_iff (sid tid : uuid) (all_runs : list Run.t)
    (input_changes : list InputChange.t) :
  identify_run_context_changes sid tid all_runs input_changes
  = ContextError "Target run not found"
  ↔ ∀ r, r ∈ all_runs → Run.scenario_id r = sid → Run.run_id r ≠ tid.
Proof.
  unfold identify_run_context_changes. split.
  - destruct (find_target _ _) as [target|] eqn:Ht.
    { by destruct (find_previous_successful _ _). }
    intros _ r Hr Hsid Hid. unfold find_target in Ht.
    eapply find_none in Ht;
      [|apply list_elem_of_In, elem_of_scenario_runs_of; split; [exact Hr|exact Hsid]].
    by apply bool_decide_eq_false in Ht.
  - intros Hnone. unfold find_target. rewrite find_none_intro; [done|].
    intros r [Hr Hsid]%elem_of_scenario_runs_of.
    apply bool_decide_eq_false_2. by apply Hnone.
Qed.

Lemma run_context_error_iff_witness :
  identify_run_context_changes "s-1" "run-9"
    [c6_run "run-0" "success" 10; c6_run "run-1" "failed" 20] [c6_change]
  = ContextError "Target run not found".
Proof.
  apply (proj2 (run_context_error_iff "s-1" "run-9" _ _)).
  intros r Hr _. apply elem_of_cons in Hr as [->|Hr]; [done|].
  apply list_elem_of_singleton in Hr as ->. done.
Defined.

(** * Further properties of the watermark store *)

Lemma mark_run_started_lookup (now : datetime) (session : ReportingSession)
    (table_name : string) :
  watermark_row (mark_run_started now session table_name) table_name
  = Some match watermark_row session table_name with
         | None => EtlWatermark.mk None (Some now) None 0 "in_progress"
         | Some w =>
             EtlWatermark.mk (EtlWatermark.last_loaded_at w) (Some now)
               (EtlWatermark.last_run_completed w)
               (EtlWatermark.row_count_loaded w) "in_progress"
         end.
Proof. unfold watermark_row, mark_run_started. simpl. apply lookup_insert_eq. Qed.

(** X12: reading the watermark after an upsert returns the cutoff just
    written, for a new table as for an existing one; the watermarks of
    all other tables read as before, and nothing is committed by the
    upsert itself. *)
Theorem watermark_update_then_get (now : datetime) (session : ReportingSession)
    (table_name : string) (last_loaded_at : datetime) (row_count : Z)
    (status : string) :
  let session' :=
    update_watermark now session table_name last_loaded_at row_count status in
  get_watermark session' table_name = Some last_loaded_at
  ∧ (∀ other, other ≠ table_name →
       get_watermark session' other = get_watermark session other)
  ∧ committed session' = committed session.
Proof.
  cbn zeta. split_and!.
  - unfold get_watermark. rewrite update_watermark_lookup.
    by destruct (etl_watermark (txn session) !! table_name).
  - intros other Hne. unfold get_watermark, update_watermark. simpl.
    by rewrite lookup_insert_ne.
  - reflexivity.
Qed.

Lemma watermark_update_then_get_witness :
  get_watermark (update_watermark 9 c7_session "rca_audit_trail" 8 3 "success")
    "rca_cloudwatch_logs"
  = get_watermark c7_session "rca_cloudwatch_logs".
Proof.
  apply (watermark_update_then_get 9 c7_session "rca_audit_trail" 8 3 "success").
  done.
Defined.

(** X13: marking a run as started sets status to "in_progress" and
    last_run_started to the current time but leaves the cursor alone:
    get_watermark and the cumulative row count read as before (no cursor
    and 0 rows for a table seen for the first time). *)
Theorem mark_run_started_keeps_cursor (now : datetime) (session : ReportingSession)
    (table_name : string) :
  let session' := mark_run_started now session table_name in
  get_watermark session' table_name = get_watermark session table_name
  ∧ rows_loaded session' table_name = rows_loaded session table_name
  ∧ (EtlWatermark.status <$> watermark_row session' table_name) = Some "in_progress"
  ∧ (EtlWatermark.last_run_started <$> watermark_row session' table_name)
    = Some (Some now)
  ∧ (EtlWatermark.last_run_completed <$> watermark_row session' table_name)
    = Some (watermark_row session table_name ≫= EtlWatermark.last_run_completed).
Proof.
  cbn zeta. unfold get_watermark, rows_loaded.
  fold (watermark_row (mark_run_started now session table_name) table_name).
  fold (watermark_row session table_name).
  rewrite mark_run_started_lookup.
  by destruct (watermark_row session table_name).
Qed.

(** X14: a run bracketed by mark_run_started at t0 and update_watermark
    at t1 leaves the row with last_run_started = t0, last_run_completed =
    t1, the new cutoff and status, and the earlier row count plus the
    rows of this run. *)
Theorem watermark_run_lifecycle (t0 t1 : datetime) (session : ReportingSession)
    (table_name : string) (last_loaded_at : datetime) (row_count : Z)
    (status : string) :
  watermark_row
    (update_watermark t1 (mark_run_started t0 session table_name) table_name
       last_loaded_at row_count status)
    table_name
  = Some (EtlWatermark.mk (Some last_loaded_at) (Some t0) (Some t1)
            (rows_loaded session table_name + row_count) status).
Proof.
  unfold watermark_row at 1. rewrite update_watermark_lookup.
  fold (watermark_row (mark_run_started t0 session table_name) table_name).
  rewrite mark_run_started_lookup. unfold rows_loaded.
  by destruct (watermark_row session table_name).
Qed.

Lemma update_watermark_rows_loaded (now : datetime) (session : ReportingSession)
    (table_name : string) (last_loaded_at : datetime) (row_count : Z)
    (status : string) :
  rows_loaded (update_watermark now session table_name last_loaded_at row_count status)
    table_name
  = rows_loaded session table_name + row_count.
Proof.
  unfold rows_loaded, watermark_row. rewrite update_watermark_lookup.
  by destruct (etl_watermark (txn session) !! table_name).
Qed.

(** X15: row_count_loaded accumulates over any sequence of upserts: after
    the runs it is the count before them (0 for a new table) plus the sum
    of the rows each run reported, and after at least one run the cursor
    is the cutoff of the last run. *)
Theorem watermark_accumulates_over_runs (session : ReportingSession)
    (table_name : string) (runs : list watermark_run) :
  rows_loaded (update_watermark_runs session table_name runs) table_name
  = rows_loaded session table_name + foldr Z.add 0 (map run_rows runs)
  ∧ get_watermark (update_watermark_runs session table_name runs) table_name
    = from_option (fun r => Some (run_cutoff r)) (get_watermark session table_name)
        (last runs).
Proof.
  unfold update_watermark_runs. revert session.
  induction runs as [|r runs IH]; intros session.
  - cbn. split; [lia | done].
  - cbn [foldl map foldr]. destruct (IH (update_watermark (run_now r) session table_name
                                          (run_cutoff r) (run_rows r) (run_status_ r)))
      as [Hrows Hget].
    rewrite Hrows, Hget, update_watermark_rows_loaded. split; [lia|].
    destruct runs as [|r' runs].
    + cbn. apply (watermark_update_then_get (run_now r) session table_name).
    + change (last (r :: r' :: runs)) with (last (r' :: runs)).
      destruct (last (r' :: runs)) eqn:Hlast; [done|].
      by apply last_None in Hlast.
Qed.

(** * Further properties of the loaders *)

Lemma usable_scenario_key_truthy (dim : gmap string Z) (sid : uuid) :
  truthy_key (dim !! sid) = bool_decide (is_Some (usable_scenario_key dim sid)).
Proof.
  unfold usable_scenario_key, truthy_key.
  destruct (dim !! sid) as [k|]; [|done].
  destruct (k =? 0); cbn [negb]; symmetry.
  - apply bool_decide_eq_false_2. by intros [? ?].
  - apply bool_decide_eq_true_2. by eexists.
Qed.

Lemma resolve_scenario_key_hit (dim_db : ReportingDb) (cache : gmap string Z)
    (sid : uuid) (k : Z) :
  cache_consistent (dim_scenario dim_db) cache →
  usable_scenario_key (dim_scenario dim_db) sid = Some k →
  ∃ cache', resolve_scenario_key sid dim_db cache = Some (cache', k)
            ∧ cache_consistent (dim_scenario dim_db) cache'.
Proof.
  intros Hcons Hk. unfold resolve_scenario_key.
  destruct (cache !! sid) as [k0|] eqn:Hc.
  - apply Hcons in Hc. assert (k0 = k) as -> by congruence. by exists cache.
  - unfold select_scenario_key. rewrite usable_scenario_key_truthy, Hk.
    rewrite bool_decide_eq_true_2 by (by eexists).
    unfold usable_scenario_key in Hk.
    destruct (dim_scenario dim_db !! sid) as [k1|] eqn:Hd; [|done].
    destruct (k1 =? 0) eqn:Hz; [done|]. injection Hk as ->. cbn [default].
    eexists. split; [reflexivity|].
    intros sid' k'. destruct (decide (sid = sid')) as [<-|Hne].
    + rewrite lookup_insert_eq. intros [= <-]. unfold usable_scenario_key.
      by rewrite Hd, Hz.
    + rewrite lookup_insert_ne by done. apply Hcons.
Qed.

Lemma resolve_scenario_key_miss (dim_db : ReportingDb) (cache : gmap string Z)
    (sid : uuid) :
  cache_consistent (dim_scenario dim_db) cache →
  usable_scenario_key (dim_scenario dim_db) sid = None →
  resolve_scenario_key sid dim_db cache = None.
Proof.
  intros Hcons Hk. unfold resolve_scenario_key.
  destruct (cache !! sid) as [k0|] eqn:Hc.
  - apply Hcons in Hc. congruence.
  - unfold select_scenario_key. rewrite usable_scenario_key_truthy, Hk.
    by rewrite bool_decide_eq_false_2 by (by intros [? ?]).
Qed.

(** Resolving a user touches the user dimension only. *)
Lemma resolve_user_key_frame (now : datetime) (uid : option string)
    (db db' : ReportingDb) (cache cache' : gmap string Z) (k : Z) :
  resolve_user_key now uid db cache = Ok (db', cache', k) →
  dim_scenario db' = dim_scenario db
  ∧ fact_scenario_state_change db' = fact_scenario_state_change db
  ∧ fact_user_action db' = fact_user_action db
  ∧ etl_watermark db' = etl_watermark db.
Proof.
  unfold resolve_user_key.
  destruct (uid ≫= _) as [k0|]; [by intros [= <- _ _]|].
  destruct (truthy_key _); cbn [mbind outcome_bind].
  - by intros [= <- _ _].
  - unfold insert_user. destruct uid as [u|]; [|done].
    destruct (dim_user db !! u); [done|]. cbn [mbind outcome_bind].
    by intros [= <- _ _].
Qed.

Lemma load_state_change_step_mixed (now : datetime) (session : ReportingSession)
    (scache ucache : gmap string Z) (n : Z) (c : StateChange.t) :
  cache_consistent (dim_scenario (txn session)) scache →
  users_resolvable (txn session) ucache →
  (resolves (dim_scenario (txn session)) c = true → loadable c) →
  ∃ session' scache' ucache' rows,
    load_state_change_step now (session, scache, ucache, n) c
    = Ok (session', scache', ucache', n + Z.of_nat (length rows))
    ∧ facts_of session' = facts_of session ++ rows
    ∧ Forall2 (fun f c => fact_matches f c
                 ∧ Some (FactScenarioStateChange.scenario_key f)
                   = usable_scenario_key (dim_scenario (txn session))
                       (StateChange.scenario_id c))
        rows (List.filter (resolves (dim_scenario (txn session))) [c])
    ∧ dim_scenario (txn session') = dim_scenario (txn session)
    ∧ cache_consistent (dim_scenario (txn session')) scache'
    ∧ users_resolvable (txn session') ucache'.
Proof.
  intros Hcons Hres Hload. cbn [List.filter]. unfold resolves in *.
  destruct (usable_scenario_key _ (StateChange.scenario_id c)) as [k|] eqn:Hk.
  - rewrite bool_decide_eq_true_2 in * by (by eexists).
    destruct (Hload eq_refl) as [[u Hu] [cid Hcid]].
    destruct (resolve_scenario_key_hit (txn session) scache _ k Hcons Hk)
      as (scache' & Hsc & Hcons').
    unfold load_state_change_step. rewrite Hsc, Hu.
    destruct (resolve_user_key_ok now u (txn session) ucache Hres)
      as (db' & ucache' & ukey & Hru & Hdim & Hfacts & Hres').
    rewrite Hru. cbn [mbind outcome_bind]. unfold insert_state_change. rewrite Hcid.
    cbn [mbind outcome_bind].
    eexists _, scache', ucache', [_]. split; [reflexivity|].
    unfold facts_of. rewrite !txn_commit_every. cbn.
    split_and!; [by rewrite Hfacts | | done | by rewrite Hdim | done].
    constructor; [|constructor]. cbn. by repeat split.
  - rewrite bool_decide_eq_false_2 in * by (by intros [? ?]).
    unfold load_state_change_step.
    rewrite (resolve_scenario_key_miss _ _ _ Hcons Hk).
    exists session, scache, ucache, []. cbn. rewrite Z.add_0_r, app_nil_r.
    split_and!; done.
Qed.

Lemma for_each_mixed (now : datetime) (batch : list StateChange.t) :
  ∀ (session : ReportingSession) (scache ucache : gmap string Z) (n : Z),
    cache_consistent (dim_scenario (txn session)) scache →
    users_resolvable (txn session) ucache →
    Forall loadable (List.filter (resolves (dim_scenario (txn session))) batch) →
    ∃ session' scache' ucache' rows,
      for_each (load_state_change_step now) (session, scache, ucache, n) batch
      = Ok (session', scache', ucache', n + Z.of_nat (length rows))
      ∧ facts_of session' = facts_of session ++ rows
      ∧ Forall2 (fun f c => fact_matches f c
                   ∧ Some (FactScenarioStateChange.scenario_key f)
                     = usable_scenario_key (dim_scenario (txn session))
                         (StateChange.scenario_id c))
          rows (List.filter (resolves (dim_scenario (txn session))) batch).
Proof.
  induction batch as [|c batch IH]; intros session scache ucache n Hcons Hres Hload.
  - exists session, scache, ucache, []. cbn. rewrite Z.add_0_r, app_nil_r.
    split_and!; [done | done | constructor].
  - destruct (load_state_change_step_mixed now session scache ucache n c Hcons Hres)
      as (s1 & sc1 & uc1 & rows1 & Hstep & Hfacts1 & Hrows1 & Hdim & Hcons1 & Hres1).
    { intros Hc. cbn [List.filter] in Hload. rewrite Hc in Hload.
      by apply Forall_cons in Hload as [? _]. }
    destruct (IH s1 sc1 uc1 (n + Z.of_nat (length rows1)) Hcons1 Hres1)
      as (s2 & sc2 & uc2 & rows2 & Hloop & Hfacts2 & Hrows2).
    { rewrite Hdim. cbn [List.filter] in Hload.
      destruct (resolves _ c); [by apply Forall_cons in Hload as [_ ?] | done]. }
    exists s2, sc2, uc2, (rows1 ++ rows2). cbn [for_each]. rewrite Hstep.
    cbn [mbind outcome_bind]. rewrite Hloop. split_and!.
    + do 2 f_equal. rewrite length_app. lia.
    + by rewrite Hfacts2, Hfacts1, <- app_assoc.
    + rewrite Hdim in Hrows2.
      change (c :: batch) with ([c] ++ batch). rewrite List.filter_app.
      by apply Forall2_app.
Qed.

(** X16: for any batch, load_state_changes persists exactly the records
    whose scenario resolves to a usable dimension key, in batch order,
    each stamped with that key, silently drops the others, and returns
    the number persisted, provided the records it keeps carry an actor
    and a correlation id and the stored user keys are non-zero. *)
Theorem load_state_changes_loads_resolving_records
    (now : datetime) (session : ReportingSession) (batch : list StateChange.t) :
  let kept := List.filter (resolves (dim_scenario (txn session))) batch in
  Forall loadable kept →
  (∀ u row, dim_user (txn session) !! u = Some row → DimUser.user_key row ≠ 0) →
  ∃ session' rows,
    load_state_changes now session batch = Ok (session', Z.of_nat (length kept))
    ∧ persisted_facts session' = facts_of session ++ rows
    ∧ Forall2 (fun f c => fact_matches f c
                 ∧ Some (FactScenarioStateChange.scenario_key f)
                   = usable_scenario_key (dim_scenario (txn session))
                       (StateChange.scenario_id c))
        rows kept.
Proof.
  intros kept Hload Husers. unfold load_state_changes.
  destruct (for_each_mixed now batch session ∅ ∅ 0)
    as (s' & sc & uc & rows & -> & Hfacts & Hrows); [| |done|].
  { intros sid k Hk. by rewrite lookup_empty in Hk. }
  { intros u row Hrow. left. by eapply Husers. }
  cbn [mbind outcome_bind]. exists (commit s'), rows.
  rewrite (Forall2_length _ _ _ Hrows). by split_and!.
Qed.

Lemma load_state_changes_loads_resolving_records_witness :
  ∃ session' rows,
    load_state_changes 100 (session_of c2_db_with_scenario) mixed_batch
    = Ok (session', 2)
    ∧ persisted_facts session' = rows
    ∧ length rows = 2%nat.
Proof.
  destruct (load_state_changes_loads_resolving_records 100
              (session_of c2_db_with_scenario) mixed_batch)
    as (session' & rows & Hload & Hfacts & Hrows).
  - vm_compute. repeat constructor; by eexists.
  - intros u row Hrow.
    change ((∅ : gmap string DimUser.t) !! u = Some row) in Hrow.
    by rewrite lookup_empty in Hrow.
  - exists session', rows. split_and!; [exact Hload | exact Hfacts |].
    exact (Forall2_length _ _ _ Hrows).
Defined.

Lemma resolve_optional_scenario_key_spec (sid : option uuid) (db : ReportingDb)
    (cache : gmap string Z) :
  cache_consistent (dim_scenario db) cache →
  cache_consistent (dim_scenario db) (resolve_optional_scenario_key sid db cache).1
  ∧ (resolve_optional_scenario_key sid db cache).2
    = sid ≫= usable_scenario_key (dim_scenario db).
Proof.
  intros Hcons. unfold resolve_optional_scenario_key.
  destruct sid as [sid|]; [|done]. cbn [fst snd mbind option_bind].
  destruct (cache !! sid) as [k0|] eqn:Hc.
  - split; [done|]. rewrite Hc. symmetry. by apply Hcons.
  - unfold select_scenario_key. rewrite usable_scenario_key_truthy.
    destruct (usable_scenario_key (dim_scenario db) sid) as [k|] eqn:Hk.
    + rewrite bool_decide_eq_true_2 by (by eexists).
      unfold usable_scenario_key in Hk.
      destruct (dim_scenario db !! sid) as [k1|] eqn:Hd; [|done].
      destruct (k1 =? 0) eqn:Hz; [done|]. injection Hk as ->. cbn [default].
      rewrite lookup_insert_eq. split; [|done].
      intros sid' k'. destruct (decide (sid = sid')) as [<-|Hne].
      * rewrite lookup_insert_eq. intros [= <-]. unfold usable_scenario_key.
        by rewrite Hd, Hz.
      * rewrite lookup_insert_ne by done. apply Hcons.
    + rewrite bool_decide_eq_false_2 by (by intros [? ?]). by rewrite Hc.
Qed.

Lemma resolve_user_key_ok_frame (now : datetime) (u : string) (db : ReportingDb)
    (cache : gmap string Z) :
  users_resolvable db cache →
  ∃ db' cache' k,
    resolve_user_key now (Some u) db cache = Ok (db', cache', k)
    ∧ dim_scenario db' = dim_scenario db
    ∧ fact_user_action db' = fact_user_action db
    ∧ users_resolvable db' cache'.
Proof.
  intros Hres.
  destruct (resolve_user_key_ok now u db cache Hres)
    as (db' & cache' & k & Hr & Hdim & _ & Hres').
  exists db', cache', k. split_and!; try done.
  by apply resolve_user_key_frame in Hr as (_ & _ & ? & _).
Qed.

Lemma load_user_action_for_each (now : datetime) (actions : list UserAction.t) :
  ∀ (session : ReportingSession) (scache ucache : gmap string Z) (n : Z),
    cache_consistent (dim_scenario (txn session)) scache →
    users_resolvable (txn session) ucache →
    Forall action_loadable actions →
    ∃ session' scache' ucache' rows,
      for_each (load_user_action_step now) (session, scache, ucache, n) actions
      = Ok (session', scache', ucache', n + Z.of_nat (length actions))
      ∧ fact_user_action (txn session') = fact_user_action (txn session) ++ rows
      ∧ Forall2 (action_fact_matches (dim_scenario (txn session))) rows actions.
Proof.
  induction actions as [|a actions IH]; intros session scache ucache n Hcons Hres Hload.
  - exists session, scache, ucache, []. cbn. rewrite Z.add_0_r, app_nil_r.
    split_and!; [done | done | constructor].
  - apply Forall_cons in Hload as [[[u Hu] [cid Hcid]] Hload].
    destruct (resolve_user_key_ok_frame now u (txn session) ucache Hres)
      as (db1 & uc1 & k & Hru & Hdim & Hfacts & Hres1).
    assert (Hcons1 : cache_consistent (dim_scenario db1) scache) by by rewrite Hdim.
    destruct (resolve_optional_scenario_key_spec (UserAction.scenario_id a) db1 scache
                Hcons1) as [Hcons2 Hkey].
    assert (Hstep : ∃ s1 row,
      load_user_action_step now (session, scache, ucache, n) a
      = Ok (s1, (resolve_optional_scenario_key (UserAction.scenario_id a) db1 scache).1,
            uc1, n + 1)
      ∧ fact_user_action (txn s1) = fact_user_action (txn session) ++ [row]
      ∧ action_fact_matches (dim_scenario (txn session)) row a
      ∧ dim_scenario (txn s1) = dim_scenario (txn session)
      ∧ users_resolvable (txn s1) uc1).
    { unfold load_user_action_step. rewrite Hu, Hru. cbn [mbind outcome_bind].
      destruct (resolve_optional_scenario_key _ _ _) as [sc1 sk] eqn:Hopt.
      cbn [fst snd] in *. unfold insert_user_action. rewrite Hcid.
      cbn [mbind outcome_bind]. eexists _, _. split; [reflexivity|].
      rewrite !txn_commit_every. cbn.
      split_and!; [by rewrite Hfacts | | done | done].
      unfold action_fact_matches. cbn. by rewrite Hkey, Hdim. }
    destruct Hstep as (s1 & row & Hstep & Hf1 & Hrow & Hdim1 & Hres1').
    destruct (IH s1 (resolve_optional_scenario_key (UserAction.scenario_id a) db1
                       scache).1 uc1 (n + 1))
      as (s2 & sc2 & uc2 & rows & Hloop & Hf2 & Hrows);
      [by rewrite Hdim1, <- Hdim | done | done |].
    exists s2, sc2, uc2, (row :: rows). cbn [for_each]. rewrite Hstep.
    cbn [mbind outcome_bind]. rewrite Hloop. split_and!.
    + do 2 f_equal. cbn [length]. lia.
    + by rewrite Hf2, Hf1, <- app_assoc.
    + constructor; [done|]. by rewrite <- Hdim1.
Qed.

(** X17: load_user_actions never skips: every action that names a user
    and carries a correlation id is persisted, in order, and the count
    returned is the size of the batch; an action whose scenario has no
    usable dimension key is stored with a NULL scenario_key, the others
    with the key of their scenario. *)
Theorem load_user_actions_loads_every_action
    (now : datetime) (session : ReportingSession) (actions : list UserAction.t) :
  Forall action_loadable actions →
  (∀ u row, dim_user (txn session) !! u = Some row → DimUser.user_key row ≠ 0) →
  ∃ session' rows,
    load_user_actions now session actions = Ok (session', Z.of_nat (length actions))
    ∧ fact_user_action (committed session') = fact_user_action (txn session) ++ rows
    ∧ Forall2 (action_fact_matches (dim_scenario (txn session))) rows actions.
Proof.
  intros Hload Husers. unfold load_user_actions.
  destruct (load_user_action_for_each now actions session ∅ ∅ 0)
    as (s' & sc & uc & rows & -> & Hfacts & Hrows); [| |done|].
  { intros sid k Hk. by rewrite lookup_empty in Hk. }
  { intros u row Hrow. left. by eapply Husers. }
  cbn [mbind outcome_bind]. exists (commit s'), rows. by split_and!.
Qed.

Lemma load_user_actions_loads_every_action_witness :
  ∃ session' f1 f2,
    load_user_actions 100 (session_of c2_db_with_scenario) sample_actions
    = Ok (session', 2)
    ∧ fact_user_action (committed session') = [f1; f2]
    ∧ FactUserAction.scenario_key f1 = Some 7
    ∧ FactUserAction.scenario_key f2 = None.
Proof.
  destruct (load_user_actions_loads_every_action 100
              (session_of c2_db_with_scenario) sample_actions)
    as (session' & rows & Hload & Hfacts & Hrows).
  - repeat constructor; by eexists.
  - intros u row Hrow.
    change ((∅ : gmap string DimUser.t) !! u = Some row) in Hrow.
    by rewrite lookup_empty in Hrow.
  - apply Forall2_cons_inv_r in Hrows as (f1 & rows1 & Hf1 & Hrows & ->).
    apply Forall2_cons_inv_r in Hrows as (f2 & rows2 & Hf2 & Hrows & ->).
    apply Forall2_nil_inv_r in Hrows as ->.
    exists session', f1, f2. split_and!; [exact Hload | exact Hfacts | |].
    + by destruct Hf1 as (_ & _ & _ & ->).
    + by destruct Hf2 as (_ & _ & _ & ->).
Defined.

Lemma load_state_change_step_shape (now : datetime) (s s' : ReportingSession)
    (sc uc sc' uc' : gmap string Z) (n n' : Z) (c : StateChange.t) :
  load_state_change_step now (s, sc, uc, n) c = Ok (s', sc', uc', n') →
  (s' = s ∧ n' = n)
  ∨ ∃ db row, n' = n + 1
              ∧ s' = commit_every 500 (n + 1) (with_txn s db)
              ∧ fact_scenario_state_change db = facts_of s ++ [row].
Proof.
  unfold load_state_change_step.
  destruct (resolve_scenario_key _ _ _) as [[sc1 sk]|]; [|intros [= <- _ _ <-]; by left].
  destruct (resolve_user_key _ _ _ _) as [[[db1 uc1] uk]|e] eqn:Hru; [|done].
  cbn [mbind outcome_bind]. unfold insert_state_change.
  destruct (StateChange.correlation_id c) as [cid|]; [|done].
  cbn [mbind outcome_bind]. intros [= <- _ _ <-]. right.
  apply resolve_user_key_frame in Hru as (_ & Hfacts & _).
  eexists _, _. split_and!; [done | reflexivity |]. cbn. by rewrite Hfacts.
Qed.

Lemma batch_invariant_step (now : datetime) (s s' : ReportingSession)
    (sc uc sc' uc' : gmap string Z) (n n' : Z) (c : StateChange.t) :
  batch_invariant s n →
  load_state_change_step now (s, sc, uc, n) c = Ok (s', sc', uc', n') →
  batch_invariant s' n'.
Proof.
  intros (Hn & tail & Hfacts & Htail) Hstep.
  apply load_state_change_step_shape in Hstep
    as [[-> ->]|(db & row & -> & -> & Hdb)].
  { split; [done|]. by exists tail. }
  split; [lia|]. unfold commit_every.
  destruct ((n + 1) `mod` 500 =? 0) eqn:Hmod.
  - exists []. unfold facts_of, persisted_facts. cbn. rewrite app_nil_r.
    split; [done|]. apply Z.eqb_eq in Hmod. by rewrite Hmod.
  - exists (tail ++ [row]). unfold facts_of, persisted_facts in *. cbn.
    rewrite Hdb, Hfacts, <- app_assoc. split; [done|].
    rewrite length_app. cbn [length]. apply Z.eqb_neq in Hmod.
    revert Htail Hmod. generalize (length tail). intros m.
    Z.to_euclidean_division_equations. lia.
Qed.

Lemma batch_invariant_loop (now : datetime) (batch : list StateChange.t) :
  ∀ (s s' : ReportingSession) (sc uc sc' uc' : gmap string Z) (n n' : Z),
    batch_invariant s n →
    for_each (load_state_change_step now) (s, sc, uc, n) batch
    = Ok (s', sc', uc', n') →
    batch_invariant s' n'.
Proof.
  induction batch as [|c batch IH]; intros s s' sc uc sc' uc' n n' Hinv.
  - by intros [= <- _ _ <-].
  - cbn [for_each].
    destruct (load_state_change_step now (s, sc, uc, n) c)
      as [[[[s1 sc1] uc1] n1]|e] eqn:Hstep; [|done].
    cbn [mbind outcome_bind]. apply IH. by eapply batch_invariant_step.
Qed.

(** X18: while load_state_changes runs on a session that starts with
    nothing pending, after any number of records the committed fact rows
    are a prefix of the rows written so far and fewer than 500 rows are
    uncommitted, their number being loaded_count mod 500. *)
Theorem load_state_changes_commits_in_batches
    (now : datetime) (session s' : ReportingSession) (processed : list StateChange.t)
    (sc uc : gmap string Z) (loaded_count : Z) :
  persisted_facts session = facts_of session →
  for_each (load_state_change_step now) (session, ∅, ∅, 0) processed
  = Ok (s', sc, uc, loaded_count) →
  (∃ tail, facts_of s' = persisted_facts s' ++ tail)
  ∧ Z.of_nat (uncommitted_facts s') = loaded_count `mod` 500
  ∧ (uncommitted_facts s' < 500)%nat.
Proof.
  intros Hclean Hloop.
  destruct (batch_invariant_loop now processed session s' ∅ ∅ sc uc 0 loaded_count)
    as (Hn & tail & Hfacts & Htail); [|done|].
  { split; [done|]. exists []. by rewrite app_nil_r. }
  assert (Hun : uncommitted_facts s' = length tail).
  { unfold uncommitted_facts. rewrite Hfacts, length_app. lia. }
  rewrite Hun. split_and!; [by exists tail | done |].
  pose proof (Z.mod_pos_bound loaded_count 500). lia.
Qed.

Lemma load_state_changes_commits_in_batches_witness :
  ∃ s' sc uc,
    for_each (load_state_change_step 100) (clean_session, ∅, ∅, 0) mixed_batch
    = Ok (s', sc, uc, 2)
    ∧ uncommitted_facts s' = 2%nat.
Proof.
  eexists _, _, _. split; [vm_compute; reflexivity|].
  apply Nat2Z.inj.
  refine (proj1 (proj2 (load_state_changes_commits_in_batches 100 clean_session _
                          mixed_batch _ _ 2 eq_refl _))).
  vm_compute. reflexivity.
Defined.

Lemma load_state_changes_cons (now : datetime) (session : ReportingSession)
    (c : StateChange.t) (rest : list StateChange.t) :
  load_state_changes now session (c :: rest)
  = st ← load_state_change_step now (session, ∅, ∅, 0) c;
    '(session', _, _, loaded_count) ← for_each (load_state_change_step now) st rest;
    Ok (commit session', loaded_count).
Proof.
  unfold load_state_changes. cbn [for_each].
  by destruct (load_state_change_step now (session, ∅, ∅, 0) c).
Qed.

(** X19: a record whose scenario does not resolve is as good as absent
    from the batch, whatever else it lacks; a record whose scenario
    resolves makes the whole load raise an integrity error when it names
    no actor (the user row cannot be created) or, its actor resolved,
    carries no correlation id. *)
Theorem load_state_changes_incomplete_record
    (now : datetime) (session : ReportingSession) (c : StateChange.t)
    (rest : list StateChange.t) :
  (usable_scenario_key (dim_scenario (txn session)) (StateChange.scenario_id c) = None →
   load_state_changes now session (c :: rest) = load_state_changes now session rest)
  ∧ (is_Some (usable_scenario_key (dim_scenario (txn session))
                (StateChange.scenario_id c)) →
     StateChange.changed_by c = None →
     load_state_changes now session (c :: rest)
     = Raise (IntegrityError "dim_user.user_id NOT NULL"))
  ∧ (is_Some (usable_scenario_key (dim_scenario (txn session))
                (StateChange.scenario_id c)) →
     is_Some (StateChange.changed_by c) →
     (∀ u row, dim_user (txn session) !! u = Some row → DimUser.user_key row ≠ 0) →
     StateChange.correlation_id c = None →
     load_state_changes now session (c :: rest)
     = Raise (IntegrityError "fact_scenario_state_change.correlation_id NOT NULL")).
Proof.
  assert (Hempty : cache_consistent (dim_scenario (txn session)) ∅).
  { intros sid k Hk. by rewrite lookup_empty in Hk. }
  rewrite load_state_changes_cons. split_and!.
  - intros Hk. unfold load_state_change_step.
    by rewrite (resolve_scenario_key_miss _ _ _ Hempty Hk).
  - intros [k Hk] Hby. unfold load_state_change_step.
    destruct (resolve_scenario_key_hit _ _ _ k Hempty Hk) as (sc & -> & _).
    by rewrite Hby.
  - intros [k Hk] [u Hby] Husers Hcid. unfold load_state_change_step.
    destruct (resolve_scenario_key_hit _ _ _ k Hempty Hk) as (sc & -> & _).
    rewrite Hby.
    destruct (resolve_user_key_ok now u (txn session) ∅) as (db & uc & uk & -> & _).
    { intros u' row Hrow. left. by eapply Husers. }
    cbn [mbind outcome_bind]. unfold insert_state_change. by rewrite Hcid.
Qed.

Lemma load_state_changes_incomplete_record_witness :
  load_state_changes 100 clean_session (orphan_change :: [c2_change 3])
  = load_state_changes 100 clean_session [c2_change 3]
  ∧ load_state_changes 100 clean_session (anonymous_change :: [c2_change 3])
    = Raise (IntegrityError "dim_user.user_id NOT NULL").
Proof.
  split.
  - apply (load_state_changes_incomplete_record 100 clean_session orphan_change).
    reflexivity.
  - apply (load_state_changes_incomplete_record 100 clean_session anonymous_change).
    + by eexists.
    + reflexivity.
Defined.

(** * Session segmentation *)

Lemma insert_lt_perm {A} (lt : A → A → bool) (x : A) (l : list A) :
  insert_lt lt x l ≡ₚ x :: l.
Proof.
  induction l as [|y l IH]; simpl; [done|].
  destruct (lt y x); [|done]. rewrite IH. apply Permutation_swap.
Qed.

Lemma sorted_lt_perm {A} (lt : A → A → bool) (l : list A) : sorted_lt lt l ≡ₚ l.
Proof.
  induction l as [|x l IH]; simpl; [done|]. rewrite insert_lt_perm. by f_equiv.
Qed.

Lemma session_key_lt_asym (a b : UserAction.t) :
  session_key_lt a b = true → session_key_lt b a = false.
Proof.
  unfold session_key_lt.
  destruct (UserAction.user_id a) as [ua|], (UserAction.user_id b) as [ub|];
    try (intros ?%Z.ltb_lt; apply Z.ltb_ge; lia).
  rewrite (String.compare_antisym ub ua).
  destruct (String.compare ua ub); simpl; try done.
  intros ?%Z.ltb_lt. apply Z.ltb_ge. lia.
Qed.

Lemma insert_lt_sorted (x : UserAction.t) (l : list UserAction.t) :
  Sorted key_sorted l → Sorted key_sorted (insert_lt session_key_lt x l).
Proof.
  induction 1 as [|y l Hl IH Hy]; simpl; [by repeat constructor|].
  destruct (session_key_lt y x) eqn:Hyx.
  - constructor; [done|]. destruct l as [|z l]; simpl.
    + constructor. by apply session_key_lt_asym.
    + destruct (session_key_lt z x); constructor.
      * by inversion Hy.
      * by apply session_key_lt_asym.
  - constructor; [by constructor|]. by constructor.
Qed.

Lemma sorted_lt_sorted (l : list UserAction.t) :
  Sorted key_sorted (sorted_lt session_key_lt l).
Proof. induction l as [|x l IH]; simpl; [constructor|]. by apply insert_lt_sorted. Qed.

Lemma string_compare_refl (s : string) : String.compare s s = Eq.
Proof.
  induction s as [|c s IH]; [done|]. cbn [String.compare].
  assert (Ascii.compare c c = Eq) as -> by (unfold Ascii.compare; apply N.compare_refl).
  exact IH.
Qed.

(** Neighbours of the sorted list that share a user are in time order. *)
Lemma key_sorted_same_user (a b : UserAction.t) :
  key_sorted a b → UserAction.user_id a = UserAction.user_id b →
  UserAction.action_timestamp a ≤ UserAction.action_timestamp b.
Proof.
  unfold key_sorted, session_key_lt. intros H Hu. rewrite <- Hu in H.
  destruct (UserAction.user_id a) as [ua|].
  - rewrite string_compare_refl in H. apply Z.ltb_ge in H. lia.
  - apply Z.ltb_ge in H. lia.
Qed.

Lemma actions_accounted_step (fresh : nat → uuid) (gap : Z)
    (st : list ActionSession.t * option CurrentSession.t) (a : UserAction.t) :
  actions_accounted (session_step fresh gap st a) = S (actions_accounted st).
Proof.
  destruct st as [sessions [cur|]]; unfold session_step, actions_accounted; cbn.
  - destruct (breaks_session gap cur a); cbn.
    + unfold finalize_session. rewrite map_app, foldr_app. cbn.
      generalize (CurrentSession.action_count cur).
      induction (map ActionSession.action_count sessions) as [|c l IH]; intros n; cbn.
      * lia.
      * specialize (IH n). lia.
    + lia.
  - lia.
Qed.

Lemma actions_accounted_close (fresh : nat → uuid)
    (st : list ActionSession.t * option CurrentSession.t) :
  foldr Nat.add 0%nat (map ActionSession.action_count (close_sessions fresh st))
  = actions_accounted st.
Proof.
  destruct st as [sessions [cur|]]; unfold close_sessions, actions_accounted; cbn.
  - unfold finalize_session. rewrite map_app, foldr_app. cbn.
    generalize (CurrentSession.action_count cur).
    induction (map ActionSession.action_count sessions) as [|c l IH]; intros n; cbn.
    + lia.
    + specialize (IH n). lia.
  - lia.
Qed.

Lemma actions_accounted_loop (fresh : nat → uuid) (gap : Z) (l : list UserAction.t) :
  ∀ st, actions_accounted (foldl (session_step fresh gap) st l)
        = (actions_accounted st + length l)%nat.
Proof.
  induction l as [|a l IH]; intros st; cbn [foldl length]; [lia|].
  rewrite IH, actions_accounted_step. lia.
Qed.

Lemma session_invariant_first (fresh : nat → uuid) (gap : Z) (a : UserAction.t) :
  session_invariant gap a (session_step fresh gap ([], None) a).
Proof.
  unfold session_step, session_invariant. cbn. split_and!; [constructor | done |].
  eexists. split; [reflexivity|]. cbn. split_and!; try done; lia.
Qed.

Lemma session_invariant_step (fresh : nat → uuid) (gap : Z) (prev a : UserAction.t)
    (st : list ActionSession.t * option CurrentSession.t) :
  key_sorted prev a → session_invariant gap prev st →
  session_invariant gap a (session_step fresh gap st a).
Proof.
  destruct st as [sessions curopt].
  intros Hsorted (Hok & Hapart & cur & Hcur & Huser & Hlast & Hcount & Hstart & Hprev).
  cbn [fst snd] in *. subst curopt. unfold session_step. cbn [fst snd].
  destruct (breaks_session gap cur a) eqn:Hbreak.
  - unfold session_invariant. cbn [fst snd]. split_and!.
    + unfold finalize_session. apply Forall_app. split; [done|].
      constructor; [|constructor]. split; cbn; done.
    + unfold finalize_session. intros i s1 s2 H1 H2.
      destruct (decide (S i < length sessions)%nat) as [Hlt|Hge].
      * rewrite lookup_app_l in H1 by lia. rewrite lookup_app_l in H2 by lia.
        by eapply Hapart.
      * assert (S i = length sessions) as Hi.
        { apply lookup_lt_Some in H2. rewrite length_app in H2. cbn in H2. lia. }
        rewrite lookup_app_l in H1 by lia.
        rewrite lookup_app_r in H2 by lia. rewrite Hi, Nat.sub_diag in H2.
        injection H2 as <-. intros Hu. cbn in *. apply Hprev; [|done].
        rewrite last_lookup. by rewrite <- Hi.
    + eexists. split; [reflexivity|]. cbn. split_and!; try done; try lia.
      intros s Hs Hu. unfold finalize_session in Hs. rewrite last_snoc in Hs.
      injection Hs as <-. cbn in *. unfold breaks_session in Hbreak.
      rewrite bool_decide_eq_false_2 in Hbreak by (intros Hne; by apply Hne).
      cbn in Hbreak. apply Z.ltb_lt in Hbreak. lia.
  - unfold breaks_session in Hbreak. apply orb_false_iff in Hbreak as [Hu Hgap].
    apply bool_decide_eq_false in Hu. apply dec_stable in Hu.
    unfold session_invariant. cbn [fst snd]. split_and!; [done | done |].
    eexists. split; [reflexivity|]. cbn. split_and!; try done; try lia.
    assert (UserAction.action_timestamp prev ≤ UserAction.action_timestamp a).
    { apply key_sorted_same_user; [done | congruence]. }
    lia.
Qed.

Lemma session_invariant_loop (fresh : nat → uuid) (gap : Z) (l : list UserAction.t) :
  ∀ prev st,
    Sorted key_sorted (prev :: l) → session_invariant gap prev st →
    ∃ prev', session_invariant gap prev' (foldl (session_step fresh gap) st l).
Proof.
  induction l as [|a l IH]; intros prev st Hsorted Hinv; [by exists prev|].
  cbn [foldl]. apply Sorted_inv in Hsorted as [Hsorted Hhd].
  apply (IH a); [done|]. apply (session_invariant_step fresh gap prev); [|done].
  by inversion Hhd.
Qed.

Lemma close_sessions_invariant (fresh : nat → uuid) (gap : Z) (prev : UserAction.t)
    (st : list ActionSession.t * option CurrentSession.t) :
  session_invariant gap prev st →
  Forall session_ok (close_sessions fresh st)
  ∧ ∀ i s1 s2, close_sessions fresh st !! i = Some s1 →
               close_sessions fresh st !! S i = Some s2 →
               sessions_apart gap s1 s2.
Proof.
  destruct st as [sessions curopt].
  intros (Hok & Hapart & cur & Hcur & Huser & Hlast & Hcount & Hstart & Hprev).
  cbn [fst snd] in *. subst curopt. unfold close_sessions. cbn [fst snd]. split.
  - unfold finalize_session. apply Forall_app. split; [done|].
    constructor; [|constructor]. split; cbn; done.
  - unfold finalize_session. intros i s1 s2 H1 H2.
    destruct (decide (S i < length sessions)%nat) as [Hlt|Hge].
    + rewrite lookup_app_l in H1 by lia. rewrite lookup_app_l in H2 by lia.
      by eapply Hapart.
    + assert (S i = length sessions) as Hi.
      { apply lookup_lt_Some in H2. rewrite length_app in H2. cbn in H2. lia. }
      rewrite lookup_app_l in H1 by lia.
      rewrite lookup_app_r in H2 by lia. rewrite Hi, Nat.sub_diag in H2.
      injection H2 as <-. intros Hu. cbn in *. apply Hprev; [|done].
      rewrite last_lookup. by rewrite <- Hi.
Qed.

Lemma sum_counts_ge_length (sessions : list ActionSession.t) :
  Forall session_ok sessions →
  (length sessions ≤ foldr Nat.add 0 (map ActionSession.action_count sessions))%nat.
Proof.
  induction 1 as [|s l [Hs _] _ IH]; cbn; lia.
Qed.

(** What grouping yields on a non-empty list whose users can be ordered. *)
Lemma group_actions_sessions (fresh : nat → uuid) (actions : list UserAction.t)
    (gap_minutes : Z) :
  comparable_users actions = true →
  ∃ sessions,
    group_actions_by_session fresh actions gap_minutes = Some sessions
    ∧ foldr Nat.add 0%nat (map ActionSession.action_count sessions) = length actions
    ∧ Forall session_ok sessions
    ∧ (∀ i s1 s2, sessions !! i = Some s1 → sessions !! S i = Some s2 →
                  sessions_apart (minutes gap_minutes) s1 s2).
Proof.
  intros Hcmp. unfold group_actions_by_session.
  destruct actions as [|a0 actions].
  { exists []. split_and!; [done | done | constructor | done]. }
  rewrite Hcmp. eexists. split; [reflexivity|].
  pose proof (sorted_lt_sorted (a0 :: actions)) as Hsorted.
  pose proof (sorted_lt_perm session_key_lt (a0 :: actions)) as Hperm.
  destruct (sorted_lt session_key_lt (a0 :: actions)) as [|b l] eqn:Hl.
  { apply Permutation_nil_l in Hperm. done. }
  split.
  - rewrite actions_accounted_close, actions_accounted_loop.
    rewrite <- Hperm. unfold actions_accounted. cbn. lia.
  - cbn [foldl].
    destruct (session_invariant_loop fresh (minutes gap_minutes) l b
                (session_step fresh (minutes gap_minutes) ([], None) b) Hsorted)
      as [prev Hinv]; [apply session_invariant_first|].
    by apply (close_sessions_invariant fresh _ prev).
Qed.

(** X20: grouping actions that all name a user always succeeds, and the
    sessions partition the actions: their action_count values add up to
    the number of actions, every session holds at least one action and
    ends no earlier than it starts, there are no more sessions than
    actions, and no sessions only for an empty input. *)
Theorem sessions_partition_actions (fresh : nat → uuid)
    (actions : list UserAction.t) (gap_minutes : Z) :
  Forall (fun a => is_Some (UserAction.user_id a)) actions →
  ∃ sessions,
    group_actions_by_session fresh actions gap_minutes = Some sessions
    ∧ foldr Nat.add 0%nat (map ActionSession.action_count sessions) = length actions
    ∧ Forall session_ok sessions
    ∧ (length sessions ≤ length actions)%nat
    ∧ (sessions = [] ↔ actions = []).
Proof.
  intros Husers.
  destruct (group_actions_sessions fresh actions gap_minutes)
    as (sessions & Hgroup & Hsum & Hok & _).
  { unfold comparable_users. apply orb_true_iff. left. apply forallb_forall.
    intros a Ha. apply bool_decide_eq_true.
    rewrite Forall_forall in Husers. by apply Husers, list_elem_of_In. }
  exists sessions. pose proof (sum_counts_ge_length sessions Hok) as Hlen.
  split_and!; [done | done | done | lia |]. split.
  - intros ->. cbn in Hsum. by destruct actions.
  - intros ->. cbn in Hgroup. by injection Hgroup as <-.
Qed.

(** X21: in the sessions returned, two sessions that follow each other
    and belong to the same user are separated by more than the gap: the
    later one starts more than session_gap_minutes after the earlier one
    ended. *)
Theorem consecutive_sessions_apart (fresh : nat → uuid)
    (actions : list UserAction.t) (gap_minutes : Z)
    (sessions : list ActionSession.t) (i : nat) (s1 s2 : ActionSession.t) :
  group_actions_by_session fresh actions gap_minutes = Some sessions →
  sessions !! i = Some s1 → sessions !! S i = Some s2 →
  ActionSession.user_id s1 = ActionSession.user_id s2 →
  minutes gap_minutes < ActionSession.started_at s2 - ActionSession.ended_at s1.
Proof.
  intros Hgroup H1 H2 Hu.
  destruct (comparable_users actions) eqn:Hcmp.
  - destruct (group_actions_sessions fresh actions gap_minutes Hcmp)
      as (sessions' & Hgroup' & _ & _ & Hapart).
    assert (sessions' = sessions) as -> by congruence.
    by apply (Hapart i s1 s2).
  - unfold group_actions_by_session in Hgroup. rewrite Hcmp in Hgroup.
    destruct actions; [|done]. injection Hgroup as <-. done.
Qed.

(** X22: three actions of one user at t0 <= t1 <= t2, the first two no
    more than the gap apart and the third more than the gap after the
    second, form exactly two sessions: [t0, t1] with two actions and
    [t2, t2] with one (with the default gap of 30 minutes: actions at t,
    t + 10 min and t + 45 min). *)
Theorem three_actions_two_sessions (fresh : nat → uuid) (u : string)
    (gap_minutes : Z) (a0 a1 a2 : UserAction.t) :
  UserAction.user_id a0 = Some u →
  UserAction.user_id a1 = Some u →
  UserAction.user_id a2 = Some u →
  UserAction.action_timestamp a0 ≤ UserAction.action_timestamp a1 →
  UserAction.action_timestamp a1 - UserAction.action_timestamp a0
  ≤ minutes gap_minutes →
  minutes gap_minutes
  < UserAction.action_timestamp a2 - UserAction.action_timestamp a1 →
  UserAction.action_timestamp a1 ≤ UserAction.action_timestamp a2 →
  ∃ s1 s2,
    group_actions_by_session fresh [a0; a1; a2] gap_minutes = Some [s1; s2]
    ∧ ActionSession.user_id s1 = Some u ∧ ActionSession.user_id s2 = Some u
    ∧ ActionSession.started_at s1 = UserAction.action_timestamp a0
    ∧ ActionSession.ended_at s1 = UserAction.action_timestamp a1
    ∧ ActionSession.action_count s1 = 2%nat
    ∧ ActionSession.started_at s2 = UserAction.action_timestamp a2
    ∧ ActionSession.ended_at s2 = UserAction.action_timestamp a2
    ∧ ActionSession.action_count s2 = 1%nat.
Proof.
  intros Hu0 Hu1 Hu2 H01 Hgap1 Hgap2 H12.
  unfold group_actions_by_session, comparable_users. cbn [forallb].
  rewrite Hu0, Hu1, Hu2. rewrite !bool_decide_eq_true_2 by (by eexists).
  cbn [andb orb].
  assert (Hsorted : sorted_lt session_key_lt [a0; a1; a2] = [a0; a1; a2]).
  { assert (H21 : session_key_lt a2 a1 = false).
    { unfold session_key_lt. rewrite Hu1, Hu2, string_compare_refl. lia. }
    assert (H10 : session_key_lt a1 a0 = false).
    { unfold session_key_lt. rewrite Hu0, Hu1, string_compare_refl. lia. }
    unfold sorted_lt. cbn [foldr insert_lt]. rewrite H21. cbn [insert_lt].
    by rewrite H10. }
  rewrite Hsorted. cbn [foldl]. unfold session_step at 3. cbn [fst snd].
  unfold session_step at 2. cbn [fst snd]. unfold breaks_session at 1.
  cbn [add_to_session start_session CurrentSession.user_id
         CurrentSession.last_action_at].
  rewrite Hu0, Hu1. rewrite bool_decide_eq_false_2 by (intros Hne; by apply Hne).
  replace (minutes gap_minutes
           <? UserAction.action_timestamp a1 - UserAction.action_timestamp a0)
    with false by lia.
  cbn [orb]. unfold session_step. cbn [fst snd]. unfold breaks_session.
  cbn [add_to_session start_session CurrentSession.user_id
         CurrentSession.last_action_at].
  rewrite Hu2. rewrite bool_decide_eq_false_2 by (intros Hne; by apply Hne).
  replace (minutes gap_minutes
           <? UserAction.action_timestamp a2 - UserAction.action_timestamp a1)
    with true by lia.
  cbn [orb]. unfold close_sessions, finalize_session. cbn [fst snd app].
  eexists _, _. split; [reflexivity|]. cbn. by split_and!.
Qed.

Lemma three_actions_two_sessions_witness :
  ∃ s1 s2,
    group_actions_by_session (fun k => pretty k)
      [spaced_action "ana" 0; spaced_action "ana" 600; spaced_action "ana" 2700] 30
    = Some [s1; s2]
    ∧ ActionSession.ended_at s1 = 600
    ∧ ActionSession.started_at s2 = 2700.
Proof.
  destruct (three_actions_two_sessions (fun k => pretty k) "ana" 30
              (spaced_action "ana" 0) (spaced_action "ana" 600)
              (spaced_action "ana" 2700))
    as (s1 & s2 & H & _ & _ & _ & He & _ & Hs & _);
    [reflexivity | reflexivity | reflexivity | vm_compute; discriminate
    | vm_compute; discriminate | reflexivity | vm_compute; discriminate |].
  by exists s1, s2.
Defined.

Lemma sessions_partition_actions_witness :
  ∃ sessions,
    group_actions_by_session (fun k => pretty k)
      [spaced_action "bo" 50; spaced_action "ana" 600; spaced_action "ana" 0] 30
    = Some sessions
    ∧ foldr Nat.add 0%nat (map ActionSession.action_count sessions) = 3%nat.
Proof.
  destruct (sessions_partition_actions (fun k => pretty k)
              [spaced_action "bo" 50; spaced_action "ana" 600; spaced_action "ana" 0] 30)
    as (sessions & H & Hsum & _).
  - repeat constructor; by eexists.
  - by exists sessions.
Defined.

Lemma consecutive_sessions_apart_witness :
  ∃ s1 s2,
    group_actions_by_session (fun k => pretty k)
      [spaced_action "ana" 0; spaced_action "ana" 600; spaced_action "ana" 2700] 30
    = Some [s1; s2]
    ∧ minutes 30 < ActionSession.started_at s2 - ActionSession.ended_at s1.
Proof.
  eexists _, _. split; [vm_compute; reflexivity|].
  refine (consecutive_sessions_apart (fun k => pretty k)
            [spaced_action "ana" 0; spaced_action "ana" 600; spaced_action "ana" 2700]
            30 _ 0 _ _ _ _ _ _); [vm_compute; reflexivity | reflexivity ..].
Defined.

(** * Loading CloudWatch logs *)

Lemma log_txn_step (now : datetime) (log_group environment service_name : string)
    (st : LogSession * Z) (log : LogRecord.t) :
  log_txn (load_cloudwatch_log_step now log_group environment service_name st log).1
  = log_txn st.1 ++ [cloudwatch_fact now log_group environment service_name log]
  ∧ (load_cloudwatch_log_step now log_group environment service_name st log).2
    = st.2 + 1.
Proof.
  unfold load_cloudwatch_log_step. cbn [fst snd]. by destruct (_ =? _).
Qed.

Lemma log_loop (now : datetime) (log_group environment service_name : string)
    (logs : list LogRecord.t) :
  ∀ st,
    let st' := foldl (load_cloudwatch_log_step now log_group environment service_name)
                 st logs in
    log_txn st'.1
    = log_txn st.1 ++ map (cloudwatch_fact now log_group environment service_name) logs
    ∧ st'.2 = st.2 + Z.of_nat (length logs).
Proof.
  induction logs as [|log logs IH]; intros st; cbn zeta; cbn [foldl map length].
  - rewrite app_nil_r. split; [done|lia].
  - destruct (IH (load_cloudwatch_log_step now log_group environment service_name
                    st log)) as [Htxn Hn].
    destruct (log_txn_step now log_group environment service_name st log) as [H1 H2].
    rewrite Htxn, Hn, H1, H2, <- app_assoc. split; [done|lia].
Qed.

(** X23: load_cloudwatch_logs skips nothing and cannot fail: it returns
    the number of records given and leaves the log table holding, after
    the rows it had, one row per record in input order, each stamped with
    the call's log_group, environment, service_name and load time, with
    everything committed; a record without metadata is stored with an
    empty metadata dict. *)
Theorem load_cloudwatch_logs_loads_all (now : datetime) (session : LogSession)
    (logs : list LogRecord.t) (log_group environment service_name : string) :
  load_cloudwatch_logs now session logs log_group environment service_name
  = ({| log_committed :=
          log_txn session
          ++ map (cloudwatch_fact now log_group environment service_name) logs;
        log_txn :=
          log_txn session
          ++ map (cloudwatch_fact now log_group environment service_name) logs |},
     Z.of_nat (length logs)).
Proof.
  unfold load_cloudwatch_logs.
  destruct (log_loop now log_group environment service_name logs (session, 0))
    as [Htxn Hn]. cbn [fst snd] in *.
  unfold log_commit. rewrite Htxn, Hn. f_equal.
Qed.

Lemma log_batch_step (now : datetime) (log_group environment service_name : string)
    (st : LogSession * Z) (log : LogRecord.t) :
  (0 ≤ st.2 ∧ ∃ tail, log_txn st.1 = log_committed st.1 ++ tail
                      ∧ Z.of_nat (length tail) = st.2 `mod` 1000) →
  let st' := load_cloudwatch_log_step now log_group environment service_name st log in
  0 ≤ st'.2 ∧ ∃ tail, log_txn st'.1 = log_committed st'.1 ++ tail
                      ∧ Z.of_nat (length tail) = st'.2 `mod` 1000.
Proof.
  destruct st as [s n]. cbn [fst snd]. intros (Hn & tail & Htxn & Htail).
  unfold load_cloudwatch_log_step. cbn [fst snd]. split; [lia|].
  destruct ((n + 1) `mod` 1000 =? 0) eqn:Hmod.
  - exists []. cbn. rewrite app_nil_r. split; [done|].
    apply Z.eqb_eq in Hmod. by rewrite Hmod.
  - exists (tail ++ [cloudwatch_fact now log_group environment service_name log]).
    cbn. rewrite Htxn, <- app_assoc. split; [done|].
    rewrite length_app. cbn [length]. apply Z.eqb_neq in Hmod.
    revert Htail Hmod. generalize (length tail). intros m.
    Z.to_euclidean_division_equations. lia.
Qed.

(** X24: while load_cloudwatch_logs runs on a session that starts with
    nothing pending, after any number of records the committed log rows
    are a prefix of the rows written so far and fewer than 1000 rows are
    uncommitted. *)
Theorem load_cloudwatch_logs_commits_in_batches
    (now : datetime) (session : LogSession) (processed : list LogRecord.t)
    (log_group environment service_name : string) :
  log_committed session = log_txn session →
  let st := foldl (load_cloudwatch_log_step now log_group environment service_name)
              (session, 0) processed in
  (∃ tail, log_txn st.1 = log_committed st.1 ++ tail)
  ∧ Z.of_nat (uncommitted_logs st.1) = Z.of_nat (length processed) `mod` 1000
  ∧ (uncommitted_logs st.1 < 1000)%nat.
Proof.
  intros Hclean. cbn zeta.
  assert (Hinv : ∀ logs st,
    (0 ≤ st.2 ∧ ∃ tail, log_txn st.1 = log_committed st.1 ++ tail
                        ∧ Z.of_nat (length tail) = st.2 `mod` 1000) →
    let st' := foldl (load_cloudwatch_log_step now log_group environment service_name)
                 st logs in
    0 ≤ st'.2 ∧ ∃ tail, log_txn st'.1 = log_committed st'.1 ++ tail
                        ∧ Z.of_nat (length tail) = st'.2 `mod` 1000).
  { induction logs as [|log logs IH]; intros st Hst; [done|].
    cbn [foldl]. apply IH. by apply log_batch_step. }
  destruct (Hinv processed (session, 0)) as (_ & tail & Htxn & Htail).
  { cbn. split; [done|]. exists []. by rewrite app_nil_r, Hclean. }
  destruct (log_loop now log_group environment service_name processed (session, 0))
    as [_ Hn]. cbn [fst snd] in Hn. rewrite Hn, Z.add_0_l in Htail.
  assert (Hun : uncommitted_logs
                  (foldl (load_cloudwatch_log_step now log_group environment
                            service_name) (session, 0) processed).1
                = length tail).
  { unfold uncommitted_logs. rewrite Htxn, length_app. lia. }
  rewrite Hun. split_and!; [by exists tail | done |].
  pose proof (Z.mod_pos_bound (Z.of_nat (length processed)) 1000). lia.
Qed.

Lemma load_cloudwatch_logs_commits_in_batches_witness :
  uncommitted_logs
    (foldl (load_cloudwatch_log_step 100 "grp" "dev" "forecast-service")
       ({| log_committed := []; log_txn := [] |}, 0) sample_logs).1
  = 2%nat.
Proof.
  apply Nat2Z.inj.
  exact (proj1 (proj2 (load_cloudwatch_logs_commits_in_batches 100
                         {| log_committed := []; log_txn := [] |} sample_logs
                         "grp" "dev" "forecast-service" eq_refl))).
Defined.

(** * The audit-trail job *)









(** * Error categorization *)

Lemma prefix_trans (p q s : string) :
  String.prefix p q = true → String.prefix q s = true → String.prefix p s = true.
Proof.
  revert q s. induction p as [|a p IH]; intros q s; [by destruct s|].
  destruct q as [|b q]; [done|]. destruct s as [|c s]; [done|]. cbn.
  destruct (Ascii.ascii_dec a b) as [->|]; [|done].
  destruct (Ascii.ascii_dec b c) as [->|]; [|done].
  apply IH.
Qed.

Lemma contains_prefix (p q s : string) :
  String.prefix p q = true → contains q s = true → contains p s = true.
Proof.
  intros Hpq. induction s as [|c s IH]; cbn [contains].
  - rewrite !orb_false_r. by apply prefix_trans.
  - intros [H|H]%orb_true_iff; apply orb_true_iff.
    + left. by eapply prefix_trans.
    + right. by apply IH.
Qed.

(** Case on the outermost test of the category table. *)
Ltac case_search :=
  match goal with
  | |- match (if search ?a ?s then _ else _) with _ => _ end ∈ _ =>
      destruct (search a s); [cbn; in_list|]
  end.

Lemma search_true (alternatives : list string) (subject literal : string) :
  In literal alternatives → contains literal subject = true →
  search alternatives subject = true.
Proof. intros Hin Hc. apply existsb_exists. by exists literal. Qed.

(** X26: _categorize_error always answers with one of the eight
    categories or "uncategorized" (never None); it answers
    "uncategorized" exactly when none of the keywords of any category
    occurs in the lower-cased message; and the first category in table
    order whose keyword occurs wins, so a message with a timeout keyword
    is "timeout" whatever else it mentions. *)
Theorem categorize_error_first_match (lower : string → string) (message : string) :
  _categorize_error lower message ∈ map fst error_patterns ++ ["uncategorized"]
  ∧ (_categorize_error lower message = "uncategorized"
     ↔ ∀ entry literal, In entry error_patterns → In literal entry.2 →
                        contains literal (lower message) = false)
  ∧ (search ["timeout"; "timed out"; "deadline exceeded"] (lower message) = true →
     _categorize_error lower message = "timeout")
  ∧ (∀ category alternatives rest earlier,
       error_patterns = earlier ++ (category, alternatives) :: rest →
       search alternatives (lower message) = true →
       (∀ entry, In entry earlier → search entry.2 (lower message) = false) →
       _categorize_error lower message = category).
Proof.
  unfold _categorize_error. split_and!.
  - destruct (List.find _ error_patterns) as [entry|] eqn:Hfind.
    + apply find_some in Hfind as [Hin _]. apply elem_of_app. left.
      apply list_elem_of_fmap. exists entry. split; [done|]. by apply list_elem_of_In.
    + apply elem_of_app. right. in_list.
  - split.
    + destruct (List.find _ error_patterns) as [entry|] eqn:Hfind.
      * apply find_some in Hfind as [Hin _]. intros Heq. exfalso.
        unfold error_patterns in Hin. cbn in Hin.
        repeat (destruct Hin as [<-|Hin]; [discriminate Heq|]). done.
      * intros _ entry literal Hentry Hlit.
        eapply find_none in Hfind; [|exact Hentry]. cbn beta in Hfind.
        apply not_true_is_false. intros Hc.
        assert (search entry.2 (lower message) = true) by by eapply search_true.
        congruence.
    + intros Hnone. rewrite find_none_intro; [done|].
      intros entry Hentry%list_elem_of_In. apply not_true_is_false.
      intros (literal & Hlit & Hc)%existsb_exists.
      rewrite (Hnone entry literal Hentry Hlit) in Hc. done.
  - intros Hsearch. unfold error_patterns. cbn [List.find snd fst].
    by rewrite Hsearch.
  - intros category alternatives rest earlier Heq Hsearch Hearlier. rewrite Heq.
    clear Heq. induction earlier as [|entry earlier IH]; cbn [app List.find].
    + cbn [snd]. by rewrite Hsearch.
    + rewrite (Hearlier entry) by by left. apply IH.
      intros entry' Hentry'. apply Hearlier. by right.
Qed.

(** X27: three alternatives of the table can never decide the category,
    because an earlier category matches whenever they occur: a message
    with "connection refused" is never "network" (the database keyword
    "connection" comes first), and a message with "missing env" or
    "invalid setting" is never "config" ("missing" of not_found and
    "invalid" of validation come first). *)
Theorem categorize_error_shadowed_keywords (lower : string → string)
    (message : string) :
  (contains "connection refused" (lower message) = true →
   _categorize_error lower message ∈ ["timeout"; "validation"; "database"])
  ∧ (contains "invalid setting" (lower message) = true →
     _categorize_error lower message ∈ ["timeout"; "validation"])
  ∧ (contains "missing env" (lower message) = true →
     _categorize_error lower message
     ∈ ["timeout"; "validation"; "database"; "calculation"; "permission";
        "not_found"]).
Proof.
  unfold _categorize_error, error_patterns. cbn [List.find snd fst]. split_and!.
  - intros Hc.
    assert (Hdb : search ["database"; "sql"; "connection"; "deadlock"; "transaction"]
                    (lower message) = true).
    { apply (search_true _ _ "connection"); [cbn; tauto|].
      by apply (contains_prefix _ "connection refused"). }
    rewrite Hdb. do 2 case_search. cbn. in_list.
  - intros Hc.
    assert (Hv : search ["validation"; "invalid"; "missing required"; "constraint"]
                   (lower message) = true).
    { apply (search_true _ _ "invalid"); [cbn; tauto|].
      by apply (contains_prefix _ "invalid setting"). }
    rewrite Hv. case_search. cbn. in_list.
  - intros Hc.
    assert (Hn : search ["not found"; "does not exist"; "missing"]
                   (lower message) = true).
    { apply (search_true _ _ "missing"); [cbn; tauto|].
      by apply (contains_prefix _ "missing env"). }
    rewrite Hn. do 5 case_search. cbn. in_list.
Qed.

Lemma categorize_error_first_match_witness :
  _categorize_error (fun s => s) "request timed out after 30s" = "timeout".
Proof.
  apply (categorize_error_first_match (fun s => s) "request timed out after 30s").
  vm_compute. reflexivity.
Defined.

Lemma categorize_error_shadowed_keywords_witness :
  _categorize_error (fun s => s) "connection refused by host"
  ∈ ["timeout"; "validation"; "database"].
Proof.
  apply (categorize_error_shadowed_keywords (fun s => s) "connection refused by host").
  vm_compute. reflexivity.
Defined.
